(** * fx-data-downloader: the tick ingestion pipeline of [src/downloader.py]

    A shallow embedding of [weeks_between_dates], [download_and_process_gz],
    [download_tick_data] and [downloader], with the parts of the Python
    runtime they rely on: [datetime.date] arithmetic and the ISO calendar,
    [datetime.strptime] for the two accepted formats, and the exception
    discipline of [try]/[except].

    A run is a value of [W A]: how the call ends (a result or a raised
    exception) and the trace of what it did to the outside world
    (requests, commits, log records, pool operations, pauses). The remote
    archive is a function from URLs to what a GET meets.

    Outside the model: a failing store (an [SQLAlchemyError] makes
    [DB.session] leave the process with [SystemExit], which no handler
    of the pipeline catches), CSV quoting and the [csv.Error] of a field
    over the reader's limit, text with characters from code point 256
    on, the order in which the store answers a query, a stream that
    breaks after its first line, and the real interleaving of the pool
    workers. Where a property depends on one of these, its statement
    says so with a hypothesis ([plain_line], [plain]) or is given up to
    the order. *)

From Stdlib Require Import ZArith List String Ascii Bool Lia.
From Stdlib Require Import Numbers.DecimalString.
From Stdlib Require Import DecimalZ DecimalPos.
From Stdlib Require Import Permutation.
Import ListNotations.
Open Scope string_scope.
Open Scope list_scope.
Open Scope Z_scope.

(* ===================================================================== *)
(** ** [datetime.date] and [datetime.datetime] *)
(* ===================================================================== *)

Module PyDate.

Record date := mkdate { year : Z; month : Z; day : Z }.

Record datetime := mkdatetime {
  dt_date : date; hour : Z; minute : Z; second : Z; microsecond : Z }.

(** [_is_leap], [_days_before_year], [_days_in_month],
    [_days_before_month], [_ymd2ord] of CPython's [datetime]. *)
Definition is_leap (y : Z) : bool :=
  (y mod 4 =? 0) && (negb (y mod 100 =? 0) || (y mod 400 =? 0)).

Definition days_before_year (y : Z) : Z :=
  let y' := y - 1 in y' * 365 + y' / 4 - y' / 100 + y' / 400.

Definition DAYS_IN_MONTH : list Z :=
  [-1; 31; 28; 31; 30; 31; 30; 31; 31; 30; 31; 30; 31].

Definition DAYS_BEFORE_MONTH : list Z :=
  [-1; 0; 31; 59; 90; 120; 151; 181; 212; 243; 273; 304; 334].

Definition days_in_month (y m : Z) : Z :=
  if (m =? 2) && is_leap y then 29 else nth (Z.to_nat m) DAYS_IN_MONTH 0.

Definition days_before_month (y m : Z) : Z :=
  nth (Z.to_nat m) DAYS_BEFORE_MONTH 0
  + (if (2 <? m) && is_leap y then 1 else 0).

Definition ymd2ord (y m d : Z) : Z :=
  days_before_year y + days_before_month y m + d.

Definition MINYEAR : Z := 1.
Definition MAXYEAR : Z := 9999.
Definition MAXORDINAL : Z := 3652059.

(** The check made by the [date] constructor. *)
Definition valid_date (y m d : Z) : bool :=
  (MINYEAR <=? y) && (y <=? MAXYEAR) && (1 <=? m) && (m <=? 12)
  && (1 <=? d) && (d <=? days_in_month y m).

Definition toordinal (d : date) : Z := ymd2ord (year d) (month d) (day d).

(** [_ord2ymd]. *)
Definition DI400Y : Z := 146097.
Definition DI100Y : Z := 36524.
Definition DI4Y : Z := 1461.

Definition ord2ymd (n0 : Z) : date :=
  let n := n0 - 1 in
  let n400 := n / DI400Y in
  let n := n mod DI400Y in
  let y := n400 * 400 + 1 in
  let n100 := n / DI100Y in
  let n := n mod DI100Y in
  let n4 := n / DI4Y in
  let n := n mod DI4Y in
  let n1 := n / 365 in
  let n := n mod 365 in
  let y := y + n100 * 100 + n4 * 4 + n1 in
  if (n1 =? 4) || (n100 =? 4) then mkdate (y - 1) 12 31
  else
    let leapyear := (n1 =? 3) && (negb (n4 =? 24) || (n100 =? 3)) in
    let m := Z.shiftr (n + 50) 5 in
    let preceding :=
      nth (Z.to_nat m) DAYS_BEFORE_MONTH 0
      + (if (2 <? m) && leapyear then 1 else 0) in
    if n <? preceding then
      let m' := m - 1 in
      let preceding' :=
        preceding - (nth (Z.to_nat m') DAYS_IN_MONTH 0
                     + (if (m' =? 2) && leapyear then 1 else 0)) in
      mkdate y m' (n - preceding' + 1)
    else mkdate y m (n - preceding + 1).

(** [(d1 - d0).days]. *)
Definition days_between (d0 d1 : date) : Z := toordinal d1 - toordinal d0.

(** [d + datetime.timedelta(days=k)]: [None] stands for the
    [OverflowError] raised outside [1 .. MAXORDINAL]. *)
Definition add_days (d : date) (k : Z) : option date :=
  let o := toordinal d + k in
  if (0 <? o) && (o <=? MAXORDINAL) then Some (ord2ymd o) else None.

(** [_isoweek1monday] and [date.isocalendar] (year and week only, the
    weekday is dropped by the caller). *)
Definition isoweek1monday (y : Z) : Z :=
  let firstday := ymd2ord y 1 1 in
  let firstweekday := (firstday + 6) mod 7 in
  let week1monday := firstday - firstweekday in
  if 3 <? firstweekday then week1monday + 7 else week1monday.

Definition isocalendar (d : date) : Z * Z :=
  let y := year d in
  let week1monday := isoweek1monday y in
  let today := toordinal d in
  let week := (today - week1monday) / 7 in
  if week <? 0 then
    let y' := y - 1 in
    let week1monday' := isoweek1monday y' in
    (y', (today - week1monday') / 7 + 1)
  else if 52 <=? week then
    if isoweek1monday (y + 1) <=? today then (y + 1, 1) else (y, week + 1)
  else (y, week + 1).

(** [a <= b] on dates: the comparison of [(year, month, day)]. *)
Definition date_leb (a b : date) : bool :=
  (year a <? year b)
  || ((year a =? year b)
      && ((month a <? month b)
          || ((month a =? month b) && (day a <=? day b)))).

(** A value the [date] constructor accepts. *)
Definition is_date (d : date) : bool := valid_date (year d) (month d) (day d).

(** Lexicographic key of a [datetime], as the ORDER BY of the store
    compares them. *)
Definition datetime_key (t : datetime) : Z :=
  (((toordinal (dt_date t) * 24 + hour t) * 60 + minute t) * 60
   + second t) * 1000000 + microsecond t.

End PyDate.
Import PyDate.


(* ===================================================================== *)
(** ** Strings as the code handles them *)
(* ===================================================================== *)

Module PyStr.

(** A [str] is the sequence of its code points; a [string] holds the
    code points below 256. Text with other characters is outside the
    model. *)

(** [s.split(sep)] for a one-character separator: never empty. *)
Fixpoint split (sep : ascii) (s : string) : list string :=
  match s with
  | EmptyString => [EmptyString]
  | String c s' =>
      if Ascii.eqb c sep then EmptyString :: split sep s'
      else match split sep s' with
           | [] => [String c EmptyString]
           | h :: t => String c h :: t
           end
  end.

(** [s.replace(c, "")] for a one-character [c]. *)
Fixpoint remove (c : ascii) (s : string) : string :=
  match s with
  | EmptyString => EmptyString
  | String a s' => if Ascii.eqb a c then remove c s' else String a (remove c s')
  end.

Definition NUL : ascii := Ascii.zero.

Definition in_range (lo hi : ascii) (c : ascii) : bool :=
  (nat_of_ascii lo <=? nat_of_ascii c)%nat
  && (nat_of_ascii c <=? nat_of_ascii hi)%nat.

(** [s.upper()] as it is on ASCII text: the letters a to z change, every
    other character below 128 stays. What [str.upper] does to the cased
    letters from 128 on is not modelled; the properties that rest on
    [upper] are stated for ASCII tickets. *)
Definition upper_char (c : ascii) : ascii :=
  if in_range "a" "z" c then ascii_of_nat (nat_of_ascii c - 32) else c.

Fixpoint upper (s : string) : string :=
  match s with
  | EmptyString => EmptyString
  | String a s' => String (upper_char a) (upper s')
  end.

(** [str(n)] / [f"{n}"] of an integer. *)
Definition of_Z (n : Z) : string := NilZero.string_of_int (Z.to_int n).

(** [xs[-k]] for [k >= 1]: [None] stands for [IndexError]. *)
Definition index_from_end {A} (xs : list A) (k : nat) : option A :=
  if (k <=? List.length xs)%nat then nth_error xs (List.length xs - k) else None.

End PyStr.

(* ===================================================================== *)
(** ** [datetime.datetime.strptime] *)
(* ===================================================================== *)

(** The regular expression CPython's [_strptime] builds from a format, for
    the directives the two accepted formats use, matched with the priority
    of a backtracking matcher; [None] stands for [ValueError]. *)
Module Strptime.
Import PyStr.

Definition cls := ascii -> bool.
(** [\d] of a [str] pattern, on the code points below 256: no decimal
    digit other than 0 to 9 lies there. *)
Definition digit : cls := in_range "0" "9".
Definition is_char (a : ascii) : cls := Ascii.eqb a.

(** [\s] of a [str] pattern, on the code points below 256: the blank,
    \t \n \v \f \r, the separators FS GS RS US (28 to 31), NEL (133)
    and the no-break space (160). *)
Definition is_space : cls :=
  fun c => Ascii.eqb c " " || in_range (ascii_of_nat 9) (ascii_of_nat 13) c
           || in_range (ascii_of_nat 28) (ascii_of_nat 31) c
           || Ascii.eqb c (ascii_of_nat 133) || Ascii.eqb c (ascii_of_nat 160).

Inductive directive := Dm | Dd | DY | DH | DM | DS | Df.

Definition directive_eqb (a b : directive) : bool :=
  match a, b with
  | Dm, Dm | Dd, Dd | DY, DY | DH, DH | DM, DM | DS, DS | Df, Df => true
  | _, _ => false
  end.

Inductive item := Lit (c : ascii) | Ws | Dir (d : directive).

(** The alternatives of each directive's group, in the order tried. *)
Definition alternatives (d : directive) : list (list cls) :=
  match d with
  | Dm => [[is_char "1"; in_range "0" "2"]; [is_char "0"; in_range "1" "9"];
           [in_range "1" "9"]]
  | Dd => [[is_char "3"; in_range "0" "1"]; [in_range "1" "2"; digit];
           [is_char "0"; in_range "1" "9"]; [in_range "1" "9"];
           [is_char " "; in_range "1" "9"]]
  | DY => [[digit; digit; digit; digit]]
  | DH => [[is_char "2"; in_range "0" "3"]; [in_range "0" "1"; digit]; [digit]]
  | DM => [[in_range "0" "5"; digit]; [digit]]
  | DS => [[is_char "6"; in_range "0" "1"]; [in_range "0" "5"; digit]; [digit]]
  | Df => [repeat digit 6; repeat digit 5; repeat digit 4; repeat digit 3;
           repeat digit 2; repeat digit 1]
  end.

Definition directive_of (c : ascii) : option directive :=
  if Ascii.eqb c "m" then Some Dm else if Ascii.eqb c "d" then Some Dd
  else if Ascii.eqb c "Y" then Some DY else if Ascii.eqb c "H" then Some DH
  else if Ascii.eqb c "M" then Some DM else if Ascii.eqb c "S" then Some DS
  else if Ascii.eqb c "f" then Some Df else None.

(** [TimeRE.pattern]: a run of whitespace becomes [\s+], [%x] the group
    of directive [x], any other character matches itself. *)
Fixpoint compile (fmt : string) : option (list item) :=
  match fmt with
  | EmptyString => Some []
  | String c rest =>
      if Ascii.eqb c "%" then
        match rest with
        | EmptyString => None
        | String x rest' =>
            match directive_of x, compile rest' with
            | Some d, Some its => Some (Dir d :: its)
            | _, _ => None
            end
        end
      else
        match compile rest with
        | None => None
        | Some its =>
            if is_space c then
              match its with
              | Ws :: _ => Some its
              | _ => Some (Ws :: its)
              end
            else Some (Lit c :: its)
        end
  end.

Fixpoint match_classes (cs : list cls) (s : string) : option (string * string) :=
  match cs with
  | [] => Some (EmptyString, s)
  | c :: cs' =>
      match s with
      | EmptyString => None
      | String a s' =>
          if c a then
            match match_classes cs' s' with
            | Some (m, r) => Some (String a m, r)
            | None => None
            end
          else None
      end
  end.

Fixpoint first_some {A B} (f : A -> option B) (l : list A) : option B :=
  match l with
  | [] => None
  | x :: l' => match f x with Some b => Some b | None => first_some f l' end
  end.

(** Greedy [\s+] in front of the continuation [k]. *)
Fixpoint ws_plus {R} (k : string -> option R) (s : string) : option R :=
  match s with
  | EmptyString => None
  | String a s' =>
      if is_space a then
        match ws_plus k s' with Some r => Some r | None => k s' end
      else None
  end.

Definition found := list (directive * string).

(** [format_regex.match(data_string)]: the groups and what is left. *)
Fixpoint match_items (its : list item) (s : string) : option (found * string) :=
  match its with
  | [] => Some ([], s)
  | Lit c :: its' =>
      match s with
      | String a s' => if Ascii.eqb a c then match_items its' s' else None
      | EmptyString => None
      end
  | Ws :: its' => ws_plus (match_items its') s
  | Dir d :: its' =>
      first_some
        (fun alt =>
           match match_classes alt s with
           | Some (m, r) =>
               match match_items its' r with
               | Some (f, rest) => Some ((d, m) :: f, rest)
               | None => None
               end
           | None => None
           end)
        (alternatives d)
  end.

Fixpoint lookup (d : directive) (f : found) : option string :=
  match f with
  | [] => None
  | (d', s) :: f' => if directive_eqb d d' then Some s else lookup d f'
  end.

(** [int(s)] on what the groups can hold: digits, after blanks. *)
Fixpoint int_acc (acc : Z) (s : string) : Z :=
  match s with
  | EmptyString => acc
  | String a s' =>
      if digit a then int_acc (10 * acc + Z.of_nat (nat_of_ascii a - 48)) s'
      else int_acc acc s'
  end.
Definition int (s : string) : Z := int_acc 0 s.

Fixpoint zeros (n : nat) : string :=
  match n with O => EmptyString | S n' => String "0" (zeros n') end.

Definition group (d : directive) (f : found) (default : Z) : Z :=
  match lookup d f with Some s => int s | None => default end.

Definition strptime (data_string format : string) : option datetime :=
  match compile format with
  | None => None
  | Some its =>
      match match_items its data_string with
      | Some (f, EmptyString) =>
          let y := group DY f 1900 in
          let m := group Dm f 1 in
          let d := group Dd f 1 in
          let H := group DH f 0 in
          let M := group DM f 0 in
          let S := group DS f 0 in
          let fraction :=
            match lookup Df f with
            | Some s => int (s ++ zeros (6 - String.length s))
            | None => 0
            end in
          if valid_date y m d && (H <=? 23) && (M <=? 59) && (S <=? 59)
          then Some (mkdatetime (mkdate y m d) H M S fraction)
          else None
      | _ => None
      end
  end.

End Strptime.

(* ===================================================================== *)
(** ** [weeks_between_dates] *)
(* ===================================================================== *)

(** Python's [//] and [%] round towards minus infinity, as [Z.div] and
    [Z.modulo] do for a positive divisor. *)
Definition weeks_between_dates (d0 d1 : date) : Z :=
  let delta := days_between d0 d1 in
  let weeks := delta / 7 in
  if negb (delta mod 7 =? 0) then weeks + 1 else weeks.


(* ===================================================================== *)
(** ** Exceptions, effects and the store *)
(* ===================================================================== *)

(** The exception classes that can arise on the modelled paths; every one
    of them is a subclass of [Exception]. [RequestException] stands for
    the whole [requests.exceptions] family ([ConnectionError], [Timeout],
    [HTTPError], ...). *)
Inductive exn :=
| ValueError | IndexError | UnboundLocalError | TypeError | AttributeError
| OverflowError | ZeroDivisionError | StopIteration
| RequestException | BadGzipFile.

(** [models.FxTick]: [bid] and [ask] are [String(50)] columns. *)
Record FxTick := mkFxTick {
  dt : datetime; bid : string; ask : string; ticket : string }.

(** [models.Instrument]. *)
Record Instrument := mkInstrument {
  instrument_ticket : string; has_ticks : bool; has_candles : bool }.

Inductive level := INFO | WARNING | ERROR.

(** The log records of [downloader.py], one constructor per message. *)
Inductive logmsg :=
| Downloading (this : string)
| Processing (this : string)
| ErrorParsingRow (row : list string) (this : string) (e : exn)
| FinishedProcessing (this : string)
| ErrorDownloading (this : string)
| ErrorProcessingGzipped (this : string)
| FailedToDownload (label : string)
| FinishedProcess (ticket : string) (files : nat)
| ErrorDownloadingTickData (ticket : string)
| UnexpectedError (ticket : string) (e : exn).

(** What a run does to the outside world, in order. *)
Inductive event :=
| Log (l : level) (m : logmsg)
| Get (url : string)                (* requests.get(url, stream=True) *)
| Commit (rows : list FxTick)       (* session.add_all(rows); session.commit() *)
| Sleep                             (* sleep(random.randint(1, 3)) *)
| PoolCreate (processes : Z)        (* Pool(num_processes) *)
| ApplyAsync (url : string)         (* pool.apply_async(download_and_process_gz, (url,)) *)
| PoolClose
| PoolJoin.

Inductive outcome (A : Type) :=
| Ret (a : A)
| Raise (e : exn).
Arguments Ret {A} a.
Arguments Raise {A} e.

(** A computation: how it ends and the events it emitted on the way, also
    when it ends in an exception. *)
Definition W (A : Type) : Type := (outcome A * list event)%type.

Definition ret {A} (a : A) : W A := (Ret a, []).
Definition raise {A} (e : exn) : W A := (Raise e, []).
Definition emit (ev : event) : W unit := (Ret tt, [ev]).

Definition bind {A B} (m : W A) (f : A -> W B) : W B :=
  match m with
  | (Ret a, t) => let (o, t') := f a in (o, t ++ t')
  | (Raise e, t) => (Raise e, t)
  end.

(** [try: m  except ...: h]: [handler e = None] when no clause matches. *)
Definition try_except {A} (m : W A) (handler : exn -> option (W A)) : W A :=
  match m with
  | (Ret a, t) => (Ret a, t)
  | (Raise e, t) =>
      match handler e with
      | Some h => let (o, t') := h in (o, t ++ t')
      | None => (Raise e, t)
      end
  end.

Declare Scope py_scope.
Delimit Scope py_scope with py.
Notation "x <- c1 ;; c2" := (bind c1 (fun x => c2))
  (at level 61, c1 at next level, right associativity) : py_scope.
Notation "c1 ;; c2" := (bind c1 (fun _ => c2))
  (at level 61, right associativity) : py_scope.
Open Scope py_scope.

Definition log (l : level) (m : logmsg) : W unit := emit (Log l m).

(** The rows a trace committed, batch by batch and all together. *)
Fixpoint commits (t : list event) : list (list FxTick) :=
  match t with
  | [] => []
  | Commit rows :: t' => rows :: commits t'
  | _ :: t' => commits t'
  end.

Definition committed (t : list event) : list FxTick := List.concat (commits t).

(** The URLs a trace requested, and the ones it handed to the pool. *)
Fixpoint fetched (t : list event) : list string :=
  match t with
  | [] => []
  | Get url :: t' => url :: fetched t'
  | _ :: t' => fetched t'
  end.

Fixpoint submitted (t : list event) : list string :=
  match t with
  | [] => []
  | ApplyAsync url :: t' => url :: submitted t'
  | _ :: t' => submitted t'
  end.

(** An event that is a log record or a commit: all that happens inside
    the session block of a window. *)
Definition quiet (ev : event) : Prop :=
  match ev with
  | Log _ _ | Commit _ => True
  | _ => False
  end.

(** The batches a trace made durable: a commit of an empty [rows] adds
    nothing to the store. *)
Definition batches (t : list event) : list (list FxTick) :=
  filter (fun rows => match rows with [] => false | _ :: _ => true end)
         (commits t).

(** The messages a trace logged at WARNING level. *)
Fixpoint warnings (t : list event) : list logmsg :=
  match t with
  | [] => []
  | Log WARNING m :: t' => m :: warnings t'
  | _ :: t' => warnings t'
  end.

(* ===================================================================== *)
(** ** [download_and_process_gz] *)
(* ===================================================================== *)

(** What [requests.get] meets: no response at all (connection failure,
    timeout: a [RequestException]) or a response with a status code and a
    body. [content] is the body as [gzip.open(..., "rt")] reads it: its
    text lines without their terminators, or [None] when the bytes are
    not gzip data and the first read raises [BadGzipFile]. *)
Record Response := mkResponse {
  status_code : Z; content : option (list string) }.

Inductive get_outcome :=
| NoResponse
| Responded (r : Response).

Definition datetime_fmts : list string :=
  ["%m/%d/%Y %H:%M:%S.%f"; "%m-%d-%Y %H:%M:%S.%f"].

(** The local variables of the row loop; [l_dt = None] while [dt] is
    unbound. *)
Record locals := mkLocals {
  l_dt : option datetime; l_rows : list FxTick; l_count : Z }.

(** [for fmt in datetime_fmts: try: dt = strptime(row[0], fmt)
    except ValueError: pass]. *)
Definition parse_dt (dt0 : option datetime) (field : string) : option datetime :=
  fold_left
    (fun dt fmt =>
       match Strptime.strptime field fmt with
       | Some d => Some d
       | None => dt
       end)
    datetime_fmts dt0.

(** The body of the inner [try]: the binding of [dt] it leaves behind and
    the tick built, or the exception evaluating
    [FxTick(dt=dt, bid=row[1], ask=row[2], ticket=ticket)] raises. *)
Definition try_row (tk : string) (dt0 : option datetime) (row : list string)
  : option datetime * outcome FxTick :=
  match nth_error row 0 with
  | None => (dt0, Raise IndexError)
  | Some field0 =>
      let dt1 := parse_dt dt0 field0 in
      (dt1,
       match dt1 with
       | None => Raise UnboundLocalError
       | Some d =>
           match nth_error row 1 with
           | None => Raise IndexError
           | Some b =>
               match nth_error row 2 with
               | None => Raise IndexError
               | Some a => Ret (mkFxTick d b a tk)
               end
           end
       end)
  end.

(** [except (ValueError, IndexError)]. *)
Definition row_handler_catches (e : exn) : bool :=
  match e with
  | ValueError | IndexError => true
  | _ => false
  end.

(** [csv.reader] on one line without quote characters: a blank line is
    the empty row, any other line is cut at its commas. *)
Definition csv_row (line : string) : list string :=
  match line with
  | EmptyString => []
  | _ => PyStr.split "," line
  end.

(** [csv.reader(x.replace("\0", "") for x in file)]. *)
Definition csv_reader (file : list string) : list (list string) :=
  map (fun x => csv_row (PyStr.remove PyStr.NUL x)) file.

(** [field] is accepted by one of [datetime_fmts]. *)
Definition timestamp_ok (field : string) : bool :=
  existsb (fun fmt => match Strptime.strptime field fmt with
                      | Some _ => true
                      | None => false
                      end) datetime_fmts.

(** The ticks the row loop appends to [rows] over a stream, in order,
    starting with [dt] bound as [dt0] says; it stops where the loop dies
    of an exception its handler does not catch. *)
Fixpoint parsed_records (tk : string) (dt0 : option datetime)
         (reader : list (list string)) : list FxTick :=
  match reader with
  | [] => []
  | [] :: reader' => parsed_records tk dt0 reader'
  | row :: reader' =>
      let (dt1, r) := try_row tk dt0 row in
      match r with
      | Ret tick => tick :: parsed_records tk dt1 reader'
      | Raise e =>
          if row_handler_catches e then parsed_records tk dt1 reader' else []
      end
  end.

(** The tick records emitted so far by a loop in state [st] after trace
    [t]: those committed and those still pending in [rows]. *)
Definition emitted (t : list event) (st : locals) : list FxTick :=
  committed t ++ l_rows st.

(** What the loop keeps true between two rows, for a batch size [B]:
    [rows] holds the records counted since the last multiple of [B]. *)
Definition batch_invariant (B : Z) (st : locals) : Prop :=
  0 <= l_count st
  /\ Z.of_nat (List.length (l_rows st)) = l_count st mod B.

(** The tick of a row whose own timestamp is accepted and which has its
    three fields; [bid] and [ask] are taken as they are. *)
Definition tick_of_row (tk : string) (row : list string) : list FxTick :=
  match row with
  | f :: b :: a :: _ =>
      match parse_dt None f with
      | Some d => [mkFxTick d b a tk]
      | None => []
      end
  | _ => []
  end.

(** A row with a first field but without a bid or an ask. *)
Definition missing_fields (row : list string) : bool :=
  match row with
  | [_] | [_; _] => true
  | _ => false
  end.

(** [this = f"{ticket}-{yr}-{wk}"] with [wk = url_parts[-1].split(".")[0]]. *)
Definition window_label (tk yr last : string) : string :=
  (tk ++ "-" ++ yr ++ "-" ++ hd EmptyString (PyStr.split "." last))%string.

Section Archive.

(** The remote archive: what a GET of each URL meets. *)
Variable remote : string -> get_outcome.

(** [requests.get], then [Response.raise_for_status]. The latter is the
    library's: it raises [HTTPError] when [400 <= status_code < 500]
    (client error) or [500 <= status_code < 600] (server error), and
    returns for every other status. A redirect that was followed never
    shows here; a 1xx or 3xx status that [requests] hands back does. *)
Definition requests_get (url : string) : W Response :=
  emit (Get url) ;;
  match remote url with
  | NoResponse => raise RequestException
  | Responded r => ret r
  end.

Definition raise_for_status (r : Response) : W unit :=
  if (400 <=? status_code r) && (status_code r <? 600)
  then raise RequestException
  else ret tt.

(** [if count % batch_size == 0: session.add_all(rows);
    session.commit(); rows = []]. *)
Definition batch_check (batch_size : Z) (st : locals) : W locals :=
  if batch_size =? 0 then raise ZeroDivisionError
  else if l_count st mod batch_size =? 0 then
    emit (Commit (l_rows st)) ;;
    ret (mkLocals (l_dt st) [] (l_count st))
  else ret st.

(** One turn of [for row in reader]. *)
Definition row_step (tk this : string) (batch_size : Z)
           (st : locals) (row : list string) : W locals :=
  st1 <- match row with
         | [] => ret st
         | _ :: _ =>
             let (dt1, r) := try_row tk (l_dt st) row in
             match r with
             | Ret tick =>
                 ret (mkLocals dt1 (l_rows st ++ [tick]) (l_count st + 1))
             | Raise e =>
                 if row_handler_catches e then
                   log WARNING (ErrorParsingRow row this e) ;;
                   ret (mkLocals dt1 (l_rows st) (l_count st))
                 else raise e
             end
         end ;;
  batch_check batch_size st1.

Fixpoint for_rows (tk this : string) (batch_size : Z)
         (reader : list (list string)) (st : locals) : W locals :=
  match reader with
  | [] => ret st
  | row :: reader' =>
      st1 <- row_step tk this batch_size st row ;;
      for_rows tk this batch_size reader' st1
  end.

(** The body of [with db.session() as session:]: the loop, then the
    flush of what is left in [rows]. *)
Definition session_block (tk this : string) (batch_size : Z)
           (reader : list (list string)) : W unit :=
  st <- for_rows tk this batch_size reader (mkLocals None [] 0) ;;
  match l_rows st with
  | [] => ret tt
  | _ :: _ => emit (Commit (l_rows st))
  end.

Definition download_and_process_gz (url_data : string) (batch_size : Z)
  : W (bool * string) :=
  let url_parts := PyStr.split "/" url_data in
  match PyStr.index_from_end url_parts 3,
        PyStr.index_from_end url_parts 2,
        PyStr.index_from_end url_parts 1 with
  | Some tk, Some yr, Some last =>
      let this := window_label tk yr last in
      try_except
        (log INFO (Downloading this) ;;
         response <- requests_get url_data ;;
         raise_for_status response ;;
         log INFO (Processing this) ;;
         match content response with
         | None => raise BadGzipFile
         | Some file =>
             match csv_reader file with
             | [] => raise StopIteration              (* next(reader) *)
             | _header :: reader =>
                 session_block tk this batch_size reader ;;
                 log INFO (FinishedProcessing this) ;;
                 ret (true, this)
             end
         end)
        (fun e =>
           match e with
           | RequestException =>
               Some (log ERROR (ErrorDownloading this) ;; ret (false, this))
           | BadGzipFile =>
               Some (log ERROR (ErrorProcessingGzipped this) ;; ret (false, this))
           | _ => None
           end)
  | _, _, _ => raise IndexError
  end.

End Archive.

(* ===================================================================== *)
(** ** [download_tick_data] *)
(* ===================================================================== *)

Definition base_url : string := "https://tickdata.fxcorporate.com".
Definition url_suffix : string := ".csv.gz".

(** [range(n)]: empty when [n <= 0]. *)
Definition range (n : Z) : list Z := map Z.of_nat (seq 0 (Z.to_nat n)).

(** The default of [download_and_process_gz]'s [batch_size]. *)
Definition default_batch_size : Z := 10000.

(** The URL of the [i]-th week from [d0]; [None] stands for the
    [OverflowError] of [d0 + datetime.timedelta(weeks=i)]. *)
Definition window_url (tk : string) (d0 : date) (i : Z) : option string :=
  match add_days d0 (7 * i) with
  | None => None
  | Some new_date =>
      let (yr, wk) := isocalendar new_date in
      Some (base_url ++ "/" ++ tk ++ "/" ++ PyStr.of_Z yr ++ "/"
            ++ PyStr.of_Z wk ++ url_suffix)%string
  end.

(** How a turn of the week loop ends: it goes on, with the list bound to
    [results] if any, or it returns from the function. *)
Inductive control :=
| Continue (results : option (list string))
| Return (r : bool * string).

Section Pipeline.

Variable remote : string -> get_outcome.

(** A pool worker running one task: an exception is kept in the task's
    [AsyncResult], which the caller never reads. *)
Definition worker (url : string) : W unit :=
  (Ret tt, snd (download_and_process_gz remote url default_batch_size)).

Fixpoint run_tasks (urls : list string) : W unit :=
  match urls with
  | [] => ret tt
  | url :: urls' => worker url ;; run_tasks urls'
  end.

(** [pool.join()]: every submitted task has run when it returns. The
    workers run side by side; here their runs are laid out one after
    the other, in the order of submission. *)
Definition pool_join (tasks : list string) : W unit :=
  run_tasks tasks ;; emit PoolJoin.

(** One turn of [for i in range(weeks)]. [results = None] while the
    name is unbound; the handles appended to it are the tasks' URLs. *)
Definition week_step (tk : string) (d0 : date) (multiprocess : bool)
           (results : option (list string)) (i : Z) : W control :=
  match window_url tk d0 i with
  | None => raise OverflowError
  | Some url_data =>
      if multiprocess then
        emit (ApplyAsync url_data) ;;
        match results with
        | None => raise UnboundLocalError
        | Some rs =>
            emit Sleep ;;
            ret (Continue (Some (rs ++ [url_data])))
        end
      else
        result <- download_and_process_gz remote url_data default_batch_size ;;
        if negb (fst result) then
          log WARNING (FailedToDownload (snd result)) ;;
          ret (Return (false, snd result))
        else
          emit Sleep ;;
          ret (Continue results)
  end.

Fixpoint for_weeks (tk : string) (d0 : date) (multiprocess : bool)
         (results : option (list string)) (js : list Z) : W control :=
  match js with
  | [] => ret (Continue results)
  | i :: js' =>
      c <- week_step tk d0 multiprocess results i ;;
      match c with
      | Continue results' => for_weeks tk d0 multiprocess results' js'
      | Return r => ret (Return r)
      end
  end.

(** [d1] is [None] when the caller passes Python's [None]. *)
Definition download_tick_data (tk : string) (d0 : date) (d1 : option date)
           (multiprocess : bool) (num_processes : Z) : W (bool * string) :=
  try_except
    (weeks <- match d1 with
              | None => raise TypeError            (* None - d0 *)
              | Some d1 => ret (weeks_between_dates d0 d1)
              end ;;
     results <- (if multiprocess then
                   if num_processes <? 1 then raise ValueError
                   else emit (PoolCreate num_processes) ;; ret (Some [])
                 else ret None) ;;
     c <- for_weeks tk d0 multiprocess results (range weeks) ;;
     match c with
     | Return r => ret r
     | Continue results =>
         (if multiprocess then
            emit PoolClose ;;
            pool_join (match results with Some rs => rs | None => [] end)
          else ret tt) ;;
         match results with
         | None => raise UnboundLocalError           (* len(results) *)
         | Some rs =>
             log INFO (FinishedProcess tk (List.length rs)) ;;
             ret (true, tk)
         end
     end)
    (fun e =>
       match e with
       | RequestException =>
           Some (log ERROR (ErrorDownloadingTickData tk) ;; ret (false, tk))
       | _ =>
           Some (log ERROR (UnexpectedError tk e) ;; ret (false, tk))
       end).

(* =================================================================== *)
(** ** [downloader] and the store queries of [models.py] *)
(* =================================================================== *)

(** The values [FxTick().get_latest] and its consumer can hold. *)
Inductive pyobj :=
| PyNone
| PyFxTick (t : FxTick)
| PyDatetime (d : datetime).

(** [isinstance(v, datetime.datetime)]. *)
Definition isinstance_datetime (v : pyobj) : bool :=
  match v with
  | PyDatetime _ => true
  | _ => false
  end.

(** [select(FxTick).where(ticket == tk).order_by(dt.desc()).limit(1)]. *)
Fixpoint newest (rows : list FxTick) (best : option FxTick) : option FxTick :=
  match rows with
  | [] => best
  | r :: rows' =>
      newest rows'
        match best with
        | None => Some r
        | Some b =>
            if datetime_key (dt b) <? datetime_key (dt r) then Some r else Some b
        end
  end.

Definition get_latest (fx_tick : list FxTick) (tk : string) : pyobj :=
  match newest (filter (fun r => String.eqb (ticket r) tk) fx_tick) None with
  | None => PyNone                  (* scalar() on no row *)
  | Some t => PyFxTick t
  end.

(** [Instrument().get(tickets)]. The query has no ORDER BY: the order
    of its answer is the store's choice. The list returned here is in
    catalog order, which stands for one such answer; what is proved
    about more than one instrument is stated up to the order. *)
Definition Instrument_get (instruments : list Instrument)
           (tickets : option (list string)) : list Instrument :=
  match tickets with
  | None => instruments
  | Some ts =>
      let ts := map PyStr.upper ts in
      filter (fun i => existsb (String.eqb (instrument_ticket i)) ts) instruments
  end.

(** An argument of [downloader]: [None], a [datetime.date], or a value
    of another type (the command line passes strings). *)
Inductive pyarg :=
| ArgNone
| ArgDate (d : date)
| ArgOther.

Definition as_date (a : pyarg) : option date :=
  match a with
  | ArgDate d => Some d
  | _ => None
  end.

(** [for each_instrument in instruments]; [fx_tick] is the tick table
    as the runs so far left it, [date_to = None] while unbound. *)
Fixpoint for_instruments (start_date : date) (end_date : option date)
         (multiprocess : bool) (date_to : option date)
         (fx_tick : list FxTick) (instruments : list Instrument) : W unit :=
  match instruments with
  | [] => ret tt
  | each_instrument :: rest =>
      let latest_tick := get_latest fx_tick (instrument_ticket each_instrument) in
      let assign_date_to : W (option date) :=
        if isinstance_datetime latest_tick
        then raise AttributeError       (* a datetime has no attribute dt *)
        else ret date_to in
      match assign_date_to with
      | (Raise e, t) => (Raise e, t)
      | (Ret date_to', t0) =>
          match download_tick_data (instrument_ticket each_instrument)
                                   start_date end_date multiprocess 4 with
          | (Raise e, t1) => (Raise e, t0 ++ t1)
          | (Ret _, t1) =>
              let (o, t2) :=
                for_instruments start_date end_date multiprocess date_to'
                                (fx_tick ++ committed t1) rest in
              (o, t0 ++ t1 ++ t2)
          end
      end
  end.

(** [today.replace(day=1) - datetime.timedelta(days=1)]. *)
Definition last_day_of_previous_month (today : date) : option date :=
  add_days (mkdate (year today) (month today) 1) (-1).

Definition downloader (today : date) (instruments : list Instrument)
           (fx_tick : list FxTick) (tickets : option (list string))
           (start_date end_date : pyarg) (multiprocess : bool) : W unit :=
  start_date' <- match start_date with
                 | ArgNone => ret (mkdate 2019 1 1)
                 | ArgDate d => ret d
                 | ArgOther => raise TypeError
                 end ;;
  date_to <- match end_date with
             | ArgNone =>
                 match last_day_of_previous_month today with
                 | Some d => ret (Some d)
                 | None => raise OverflowError
                 end
             | ArgDate _ => ret None
             | ArgOther => raise TypeError
             end ;;
  for_instruments start_date' (as_date end_date) multiprocess date_to fx_tick
                  (Instrument_get instruments tickets).

End Pipeline.

(* ===================================================================== *)
(** ** The specification's reading of a row, and sample archives *)
(* ===================================================================== *)

(** A price that passes a basic numeric reading, as the specification
    asks of bid and ask: an optional sign, then digits with at most one
    decimal point and at least one digit. The code has no such check. *)
Fixpoint digits_and_points (s : string) : nat * nat :=
  match s with
  | EmptyString => (O, O)
  | String c s' =>
      let (d, p) := digits_and_points s' in
      if Strptime.digit c then (S d, p)
      else if Ascii.eqb c "." then (d, S p)
      else (d, S (S p))
  end.

Definition numeric_price (s : string) : bool :=
  let body := match s with
              | String c s' =>
                  if Ascii.eqb c "-" || Ascii.eqb c "+" then s' else s
              | EmptyString => s
              end in
  let (d, p) := digits_and_points body in
  (1 <=? d)%nat && (p <=? 1)%nat.

(** A data row that cannot be parsed, in the specification's words: its
    timestamp matches neither format, or a field is missing, or its bid
    or its ask is not numeric. *)
Definition unparsable (row : list string) : bool :=
  match row with
  | f :: b :: a :: _ =>
      negb (timestamp_ok f) || negb (numeric_price b) || negb (numeric_price a)
  | _ => true
  end.

(** A row the loop turned into a tick of its own: its timestamp matched
    a format and it has its three fields. *)
Definition parsed_successfully (row : list string) : bool :=
  match row with
  | f :: _ :: _ :: _ => timestamp_ok f
  | _ => false
  end.

Definition sample_url : string :=
  "https://tickdata.fxcorporate.com/EURUSD/2023/1.csv.gz".

Definition sample_header : string := "DateTime,Bid,Ask".

(** An archive whose every file is the given text, served with the
    given status. *)
Definition serving (status : Z) (file : list string) : string -> get_outcome :=
  fun _ => Responded (mkResponse status (Some file)).

(** A file with a price that is not a number. *)
Definition file_with_text_price : list string :=
  [sample_header; "01/02/2023 00:00:01.254,abc,1.08"].

(** A file where a row without prices sits between a good row and a row
    with an unreadable timestamp. *)
Definition file_with_stale_timestamp : list string :=
  [sample_header;
   "01/02/2023 00:00:01.254,1.07,1.08";
   "01/03/2023 00:00:02.000";
   "bad,3,4"].

(** Five good rows. *)
Definition file_with_five_rows : list string :=
  [sample_header;
   "01/02/2023 00:00:01.000,1.01,1.02";
   "01/02/2023 00:00:02.000,1.03,1.04";
   "01/02/2023 00:00:03.000,1.05,1.06";
   "01/02/2023 00:00:04.000,1.07,1.08";
   "01-02-2023 00:00:05.000,1.09,1.10"].

(** An archive that has every week of EURUSD but the second of 2019. *)
Definition archive_without_2019_week_2 (url : string) : get_outcome :=
  if String.eqb url "https://tickdata.fxcorporate.com/EURUSD/2019/2.csv.gz"
  then Responded (mkResponse 404 None)
  else Responded (mkResponse 200 (Some [sample_header])).

(** A file with one good row. *)
Definition file_with_one_row : list string :=
  [sample_header; "01/02/2023 00:00:01.000,1.01,1.02"].

(** A file where a row without prices follows a good row. *)
Definition file_with_short_row : list string :=
  [sample_header;
   "01/02/2023 00:00:01.254,1.07,1.08";
   "01/03/2023 00:00:02.000";
   "01/04/2023 00:00:03.000,1.09"].

(** A catalog of one instrument, and a store that already holds one of
    its ticks, of 2019-01-20. *)
Definition eurusd : Instrument := mkInstrument "EURUSD" true false.

Definition stored_tick : FxTick :=
  mkFxTick (mkdatetime (mkdate 2019 1 20) 12 0 0 0) "1.14" "1.15" "EURUSD".

(* ===================================================================== *)
(** ** Readings of a call and of a stream *)
(* ===================================================================== *)

(** The windows of a call, in the order of the week loop: the URL of
    each week of the range, or [None] where the date overflows. *)
Definition windows (tk : string) (d0 d1 : date) : list (option string) :=
  map (window_url tk d0) (range (weeks_between_dates d0 d1)).

(** The first row of a stream that is not blank. *)
Fixpoint first_nonblank (reader : list (list string)) : option (list string) :=
  match reader with
  | [] => None
  | [] :: reader' => first_nonblank reader'
  | row :: _ => Some row
  end.

(** No data at all, or a first data row whose timestamp is of an
    accepted format. *)
Definition first_row_has_timestamp (reader : list (list string)) : bool :=
  match first_nonblank reader with
  | None => true
  | Some row => timestamp_ok (hd EmptyString row)
  end.

(** [c in s]. *)
Fixpoint occurs (c : ascii) (s : string) : bool :=
  match s with
  | EmptyString => false
  | String a s' => Ascii.eqb a c || occurs c s'
  end.

(* ===================================================================== *)
(** ** [database.py]: the store and its set-up *)
(* ===================================================================== *)

(** The tables of the SQLite file; [option store] below is the file
    itself, [None] when there is none. The file system and the engine
    are taken to work: the [OSError] and connection branches are not
    modelled. *)
Record store := mkStore {
  tbl_version : list Z;                 (* the ids of the version rows *)
  tbl_instruments : list Instrument;
  tbl_fx_tick : list FxTick }.

(** Why the program logs a critical record and raises [SystemExit]. *)
Inductive reason :=
| InvalidStartDateFormat
| InvalidEndDateFormat
| StoreError.                           (* an [SQLAlchemyError] *)

(** What ends a script: an exception of the pipeline that nothing
    catches, a missing file, or [SystemExit]. *)
Inductive failure :=
| Uncaught (e : exn)
| FileNotFoundError
| SystemExit (why : reason).

(** [DB.delete_database]. *)
Definition delete_database (confirm : bool) (db : option store)
  : bool * option store :=
  if confirm then (true, None) else (false, db).

(** [DB.create_database]: the file is deleted and the tables are
    created empty. The [Version] row is added to a session that is
    closed without a commit, so it is never written. *)
Definition create_database (overwrite : bool) (db : option store)
  : bool * option store :=
  if negb overwrite && match db with Some _ => true | None => false end
  then (false, db)
  else
    let (_, _deleted) := delete_database true db in
    (true, Some (mkStore [] [] [])).

(** Pairwise distinct, as the primary key of [instruments] wants. *)
Fixpoint distinct (l : list string) : bool :=
  match l with
  | [] => true
  | x :: l' => negb (existsb (String.eqb x) l') && distinct l'
  end.

(** [DB.populate_database] with instruments: [add_all] and [commit];
    a repeated primary key fails the commit, the session rolls back and
    raises [SystemExit]. *)
Definition populate_database (data : list Instrument) (st : store)
  : failure + store :=
  if distinct (map instrument_ticket (tbl_instruments st ++ data))
  then inr (mkStore (tbl_version st) (tbl_instruments st ++ data)
                    (tbl_fx_tick st))
  else inl (SystemExit StoreError).

(** [for row in reader: Instrument(ticket=row[0], ...)]. *)
Fixpoint instruments_of_rows (rows : list (list string))
  : failure + list Instrument :=
  match rows with
  | [] => inr []
  | [] :: _ => inl (Uncaught IndexError)          (* row[0] of a blank line *)
  | (ticket :: _) :: rows' =>
      match instruments_of_rows rows' with
      | inl f => inl f
      | inr instruments_data =>
          inr (mkInstrument ticket true false :: instruments_data)
      end
  end.

(** [get_instruments]; [csv_file] is the content of the file, [None]
    when it cannot be opened. *)
Definition get_instruments (csv_file : option (list string))
  : failure + list Instrument :=
  match csv_file with
  | None => inl FileNotFoundError
  | Some file =>
      match map csv_row file with
      | [] => inl (Uncaught StopIteration)          (* next(reader) *)
      | _header :: reader => instruments_of_rows reader
      end
  end.

(** [database_init]; [csv_file] is ./data/tick_instruments.csv. *)
Definition database_init (csv_file : option (list string))
           (db : option store) : (failure + bool) * option store :=
  let (_, db1) := delete_database true db in
  let (_, db2) := create_database true db1 in
  match get_instruments csv_file with
  | inl f => (inl f, db2)
  | inr instruments =>
      match db2 with
      | None => (inl (SystemExit StoreError), db2)
      | Some st =>
          match populate_database instruments st with
          | inl f => (inl f, db2)
          | inr st' => (inr true, Some st')
          end
      end
  end.

(* ===================================================================== *)
(** ** [run.py]: the command line *)
(* ===================================================================== *)

(** The namespace [parser.parse_args()] returns. *)
Record args := mkArgs {
  arg_newdb : bool;
  arg_multiprocess : bool;
  arg_tickets : option (list string);
  arg_start_date : option string;
  arg_end_date : option string }.

(** [if args.start_date: try: strptime(args.start_date, "%Y-%m-%d")
    except ValueError: logger.critical(...); raise SystemExit]; the date
    parsed is bound to a name that is not read again. *)
Definition check_date (a : option string) (why : reason) : failure + unit :=
  match a with
  | None | Some EmptyString => inr tt
  | Some s =>
      match Strptime.strptime s "%Y-%m-%d" with
      | Some _ => inr tt
      | None => inl (SystemExit why)
      end
  end.

(** An option of the command line as [downloader] gets it: the string
    itself. *)
Definition as_pyarg (a : option string) : pyarg :=
  match a with
  | None => ArgNone
  | Some _ => ArgOther
  end.

(** How the script ends. *)
Inductive exit :=
| Finished
| Died (f : failure).

(** The script, on a database file that exists with its tables: how it
    ends, the tables it leaves and the events of the pipeline. *)
Definition run (remote : string -> get_outcome) (today : date)
           (csv_file : option (list string)) (st : store) (a : args)
  : exit * option store * list event :=
  let (init, db) :=
    if arg_newdb a then database_init csv_file (Some st)
    else (inr true, Some st) in
  match init with
  | inl f => (Died f, db, [])
  | inr _ =>
      match check_date (arg_start_date a) InvalidStartDateFormat with
      | inl f => (Died f, db, [])
      | inr _ =>
          match check_date (arg_end_date a) InvalidEndDateFormat with
          | inl f => (Died f, db, [])
          | inr _ =>
              match db with
              | None => (Died (SystemExit StoreError), db, [])
              | Some st' =>
                  let (o, t) :=
                    downloader remote today (tbl_instruments st')
                               (tbl_fx_tick st') (arg_tickets a)
                               (as_pyarg (arg_start_date a))
                               (as_pyarg (arg_end_date a))
                               (arg_multiprocess a) in
                  (match o with
                   | Ret _ => Finished
                   | Raise e => Died (Uncaught e)
                   end,
                   Some (mkStore (tbl_version st') (tbl_instruments st')
                                 (tbl_fx_tick st' ++ committed t)),
                   t)
              end
          end
      end
  end.

(** The month and day of the [n]-th day of a year, as [_ord2ymd] finds
    them from its estimate. *)
Definition month_day (leapyear : bool) (n : Z) : Z * Z :=
  let m := Z.shiftr (n + 50) 5 in
  let preceding :=
    nth (Z.to_nat m) DAYS_BEFORE_MONTH 0
    + (if (2 <? m) && leapyear then 1 else 0) in
  if n <? preceding then
    let m' := m - 1 in
    let preceding' :=
      preceding - (nth (Z.to_nat m') DAYS_IN_MONTH 0
                   + (if (m' =? 2) && leapyear then 1 else 0)) in
    (m', n - preceding' + 1)
  else (m, n - preceding + 1).

Definition month_day_ok (leapyear : bool) (n : Z) : bool :=
  let (m, d) := month_day leapyear n in
  (1 <=? m) && (m <=? 12) && (1 <=? d)
  && (d <=? (if (m =? 2) && leapyear then 29
             else nth (Z.to_nat m) DAYS_IN_MONTH 0))
  && (nth (Z.to_nat m) DAYS_BEFORE_MONTH 0
      + (if (2 <? m) && leapyear then 1 else 0) + d =? n + 1).

(** [date.weekday()]: 0 is Monday. *)
Definition weekday (d : date) : Z := (toordinal d + 6) mod 7.

(** ASCII text. *)
Fixpoint plain (s : string) : bool :=
  match s with
  | EmptyString => true
  | String c s' => (nat_of_ascii c <? 128)%nat && plain s'
  end.

(** A line that [csv.reader] cuts at its commas and nowhere else, and
    that reads the same to the model and to the runtime: ASCII text
    without a quote character or a line break inside, and no longer than
    the reader's field limit. *)
Definition plain_line (l : string) : bool :=
  plain l
  && negb (occurs (ascii_of_nat 34) l)
  && negb (occurs (ascii_of_nat 10) l)
  && negb (occurs (ascii_of_nat 13) l)
  && (Z.of_nat (String.length l) <=? 131072).

(** A file where the first data row has no readable timestamp, and a
    good row comes after it. *)
Definition file_with_unreadable_first_row : list string :=
  [sample_header;
   "bad,1,2";
   "01/02/2023 00:00:01.254,1.07,1.08";
   "bad,3,4"].

(* ===================================================================== *)
(** * Properties *)
(* ===================================================================== *)

(** The runtime model on known values. *)
Example isocalendar_new_year_2019 :
  isocalendar (mkdate 2018 12 31) = (2019, 1)
  /\ isocalendar (mkdate 2021 1 3) = (2020, 53)
  /\ isocalendar (mkdate 2023 5 14) = (2023, 19).
Proof. repeat split; reflexivity. Qed.

Example add_days_over_february :
  add_days (mkdate 2020 2 28) 1 = Some (mkdate 2020 2 29)
  /\ add_days (mkdate 2023 2 28) 1 = Some (mkdate 2023 3 1)
  /\ add_days (mkdate 9999 12 31) 1 = None.
Proof. repeat split; reflexivity. Qed.

Example strptime_accepted_formats :
  Strptime.strptime "01/02/2023 22:02:37.254" "%m/%d/%Y %H:%M:%S.%f"
  = Some (mkdatetime (mkdate 2023 1 2) 22 2 37 254000)
  /\ Strptime.strptime "01-02-2023 22:02:37.254" "%m/%d/%Y %H:%M:%S.%f" = None
  /\ Strptime.strptime "01-02-2023 22:02:37.254" "%m-%d-%Y %H:%M:%S.%f"
     = Some (mkdatetime (mkdate 2023 1 2) 22 2 37 254000)
  /\ Strptime.strptime "02/30/2023 22:02:37.254" "%m/%d/%Y %H:%M:%S.%f" = None
  /\ Strptime.strptime "DateTime" "%m/%d/%Y %H:%M:%S.%f" = None.
Proof. repeat split; vm_compute; reflexivity. Qed.

Example csv_reader_strips_nul :
  csv_reader [String PyStr.NUL "01/02/2023 22:02:37.254,1.07,1.08"; ""]
  = [["01/02/2023 22:02:37.254"; "1.07"; "1.08"]; []].
Proof. reflexivity. Qed.

Example weeks_test_consecutive_dates_within_week :
  weeks_between_dates (mkdate 2023 5 1) (mkdate 2023 5 6) = 1.
Proof. reflexivity. Qed.

Example weeks_test_non_consecutive_dates_multiple_weeks :
  weeks_between_dates (mkdate 2023 5 1) (mkdate 2023 5 31) = 5.
Proof. reflexivity. Qed.

Example weeks_test_dates_across_leap_year :
  weeks_between_dates (mkdate 2020 2 25) (mkdate 2020 3 10) = 2.
Proof. reflexivity. Qed.

Lemma weeks_between_dates_bounds (d0 d1 : date) :
  7 * (weeks_between_dates d0 d1 - 1) < days_between d0 d1
  <= 7 * weeks_between_dates d0 d1.
Proof.
  unfold weeks_between_dates.
  set (delta := days_between d0 d1).
  pose proof (Z.div_mod delta 7 ltac:(lia)) as Hdm.
  pose proof (Z.mod_pos_bound delta 7 ltac:(lia)) as Hb.
  destruct (delta mod 7 =? 0) eqn:E; cbn [negb].
  - apply Z.eqb_eq in E. lia.
  - apply Z.eqb_neq in E. lia.
Qed.

(** C6: [weeks_between_dates d0 d1] is the ceiling of [(d1 - d0).days / 7]
    (the only integer [w] with [7 (w - 1) < days <= 7 w], equivalently
    [- ((- days) / 7)]); it is 0 for equal dates, 2 from 2023-05-01 to
    2023-05-14 and -4 from 2023-06-01 to 2023-05-01. *)
Theorem weeks_between_dates_ceiling :
  (forall d0 d1 : date,
      weeks_between_dates d0 d1 = - ((- days_between d0 d1) / 7)
      /\ 7 * (weeks_between_dates d0 d1 - 1) < days_between d0 d1
         <= 7 * weeks_between_dates d0 d1)
  /\ (forall d : date, weeks_between_dates d d = 0)
  /\ weeks_between_dates (mkdate 2023 5 1) (mkdate 2023 5 1) = 0
  /\ weeks_between_dates (mkdate 2023 5 1) (mkdate 2023 5 14) = 2
  /\ weeks_between_dates (mkdate 2023 6 1) (mkdate 2023 5 1) = -4.
Proof.
  split; [| split; [| repeat split; reflexivity]].
  - intros d0 d1. split; [| apply weeks_between_dates_bounds].
    pose proof (weeks_between_dates_bounds d0 d1) as Hb.
    symmetry. apply Z.opp_inj. rewrite Z.opp_involutive.
    symmetry. apply (Z.div_unique_pos _ 7 _
      (7 * weeks_between_dates d0 d1 - days_between d0 d1)); lia.
  - intros d. unfold weeks_between_dates, days_between.
    rewrite Z.sub_diag. reflexivity.
Qed.

(* ===================================================================== *)
(** ** The calendar: day numbers follow the order of dates *)
(* ===================================================================== *)

Lemma days_before_year_succ (y : Z) :
  days_before_year (y + 1)
  = days_before_year y + 365 + (if is_leap y then 1 else 0).
Proof.
  unfold days_before_year, is_leap.
  replace (y + 1 - 1) with y by lia.
  destruct (Z.eqb_spec (y mod 4) 0), (Z.eqb_spec (y mod 100) 0),
    (Z.eqb_spec (y mod 400) 0); cbn [andb orb negb];
    Z.div_mod_to_equations; lia.
Qed.

Lemma days_before_year_mono (y y' : Z) :
  y <= y' -> days_before_year y <= days_before_year y'.
Proof. unfold days_before_year. intros. Z.div_mod_to_equations. lia. Qed.

Lemma month_cases (m : Z) :
  1 <= m <= 12 ->
  m = 1 \/ m = 2 \/ m = 3 \/ m = 4 \/ m = 5 \/ m = 6 \/ m = 7 \/ m = 8
  \/ m = 9 \/ m = 10 \/ m = 11 \/ m = 12.
Proof. lia. Qed.

Lemma valid_date_bounds (y m d : Z) :
  valid_date y m d = true ->
  1 <= y <= 9999 /\ 1 <= m <= 12 /\ 1 <= d <= days_in_month y m.
Proof.
  unfold valid_date, MINYEAR, MAXYEAR. rewrite !andb_true_iff, !Z.leb_le. lia.
Qed.

Ltac closed_bool b :=
  let v := eval vm_compute in b in
  match v with
  | true => change b with true in *
  | false => change b with false in *
  end.

(** Looks up the month tables and decides the tests on a month that is
    a numeral. *)
Ltac table_eval :=
  repeat match goal with
    | |- context [nth (Z.to_nat ?k) ?L 0] =>
        let v := eval vm_compute in (nth (Z.to_nat k) L 0) in
        change (nth (Z.to_nat k) L 0) with v in *
    | H : context [nth (Z.to_nat ?k) ?L 0] |- _ =>
        let v := eval vm_compute in (nth (Z.to_nat k) L 0) in
        change (nth (Z.to_nat k) L 0) with v in *
    | |- context [(?a =? 2)] => closed_bool (a =? 2)
    | H : context [(?a =? 2)] |- _ => closed_bool (a =? 2)
    | |- context [(2 <? ?a)] => closed_bool (2 <? a)
    | H : context [(2 <? ?a)] |- _ => closed_bool (2 <? a)
    end;
  cbn [andb] in *.

Ltac each_month m H :=
  let C := fresh "C" in
  pose proof (month_cases m H) as C;
  repeat (destruct C as [C | C]); subst m.

(** Within one year the day number grows with [(month, day)]. *)
Lemma day_of_year_le (y m d m' d' : Z) :
  1 <= m <= 12 -> 1 <= d <= days_in_month y m ->
  1 <= m' <= 12 -> 1 <= d' <= days_in_month y m' ->
  m < m' \/ (m = m' /\ d <= d') ->
  days_before_month y m + d <= days_before_month y m' + d'.
Proof.
  intros Hm Hd Hm' Hd' Hle.
  unfold days_before_month, days_in_month in *.
  destruct (is_leap y); each_month m Hm; each_month m' Hm'; table_eval; lia.
Qed.

Lemma day_of_year_bounds (y m d : Z) :
  1 <= m <= 12 -> 1 <= d <= days_in_month y m ->
  1 <= days_before_month y m + d <= 365 + (if is_leap y then 1 else 0).
Proof.
  intros Hm Hd. unfold days_before_month, days_in_month in *.
  destruct (is_leap y); each_month m Hm; table_eval; lia.
Qed.

(** [a <= b] as Python compares dates gives [a.toordinal() <=
    b.toordinal()]. *)
Lemma toordinal_le (a b : date) :
  is_date a = true -> is_date b = true -> date_leb a b = true ->
  toordinal a <= toordinal b.
Proof.
  unfold is_date, date_leb, toordinal. intros Hv Hv' Hle.
  apply valid_date_bounds in Hv, Hv'.
  destruct Hv as (_ & Hm & Hd), Hv' as (_ & Hm' & Hd').
  assert (Hcases : year a < year b
                   \/ (year a = year b
                       /\ (month a < month b
                           \/ (month a = month b /\ day a <= day b)))).
  { rewrite !orb_true_iff, !andb_true_iff, !orb_true_iff, !andb_true_iff in Hle.
    rewrite !Z.ltb_lt, !Z.eqb_eq, Z.leb_le in Hle. lia. }
  unfold ymd2ord. destruct Hcases as [Hy | [Hy Hmd]].
  - pose proof (day_of_year_bounds _ _ _ Hm Hd).
    pose proof (day_of_year_bounds _ _ _ Hm' Hd').
    pose proof (days_before_year_succ (year a)).
    pose proof (days_before_year_mono (year a + 1) (year b) ltac:(lia)).
    lia.
  - rewrite Hy in *.
    pose proof (day_of_year_le _ _ _ _ _ Hm Hd Hm' Hd' Hmd). lia.
Qed.

(* ===================================================================== *)
(** ** Traces and the computation monad *)
(* ===================================================================== *)

Lemma bind_ret_l {A B} (a : A) (f : A -> W B) : bind (ret a) f = f a.
Proof. unfold bind, ret. destruct (f a); reflexivity. Qed.

Lemma bind_raise {A B} (e : exn) (f : A -> W B) : bind (raise e) f = raise e.
Proof. reflexivity. Qed.

Lemma bind_Ret {A B} (a : A) (t : list event) (f : A -> W B) :
  bind (Ret a, t) f = (fst (f a), t ++ snd (f a)).
Proof. unfold bind. destruct (f a); reflexivity. Qed.

Lemma bind_Raise {A B} (e : exn) (t : list event) (f : A -> W B) :
  bind (Raise e, t) f = (Raise e, t).
Proof. reflexivity. Qed.

Lemma bind_assoc {A B C} (m : W A) (f : A -> W B) (g : B -> W C) :
  bind (bind m f) g = bind m (fun a => bind (f a) g).
Proof.
  destruct m as [[a | e] t]; [| reflexivity].
  rewrite !bind_Ret. destruct (f a) as [[b | e] t1]; cbn [fst snd].
  - rewrite !bind_Ret. cbn [fst snd]. now rewrite app_assoc.
  - reflexivity.
Qed.

Lemma bind_ext {A B} (m : W A) (f g : A -> W B) :
  (forall a, f a = g a) -> bind m f = bind m g.
Proof.
  intros H. destruct m as [[a | e] t]; [| reflexivity].
  unfold bind. now rewrite H.
Qed.

(** Normal form of a computation: a pair of an outcome and a trace. *)
Ltac wsimpl :=
  repeat first
    [ progress unfold log, emit, ret, raise
    | rewrite bind_Ret
    | rewrite bind_Raise
    | rewrite app_nil_r
    | progress cbn [fst snd app negb try_except] ].

Ltac wsimpl_in H :=
  repeat first
    [ progress unfold log, emit, ret, raise in H
    | rewrite bind_Ret in H
    | rewrite bind_Raise in H
    | rewrite app_nil_r in H
    | progress cbn [fst snd app negb try_except] in H ].

Lemma fetched_app (t1 t2 : list event) :
  fetched (t1 ++ t2) = fetched t1 ++ fetched t2.
Proof.
  induction t1 as [| ev t1 IH]; [reflexivity |].
  destruct ev; cbn; now rewrite IH.
Qed.

Lemma submitted_app (t1 t2 : list event) :
  submitted (t1 ++ t2) = submitted t1 ++ submitted t2.
Proof.
  induction t1 as [| ev t1 IH]; [reflexivity |].
  destruct ev; cbn; now rewrite IH.
Qed.

Lemma commits_app (t1 t2 : list event) :
  commits (t1 ++ t2) = commits t1 ++ commits t2.
Proof.
  induction t1 as [| ev t1 IH]; [reflexivity |].
  destruct ev; cbn; now rewrite IH.
Qed.

Lemma committed_app (t1 t2 : list event) :
  committed (t1 ++ t2) = committed t1 ++ committed t2.
Proof. unfold committed. now rewrite commits_app, concat_app. Qed.

(* ===================================================================== *)
(** ** The week loop *)
(* ===================================================================== *)

Lemma range_nonpositive (n : Z) : n <= 0 -> range n = [].
Proof.
  intros Hn. unfold range.
  replace (Z.to_nat n) with O by lia. reflexivity.
Qed.

Lemma weeks_nonpositive (d0 d1 : date) :
  days_between d0 d1 <= 0 <-> weeks_between_dates d0 d1 <= 0.
Proof.
  pose proof (weeks_between_dates_bounds d0 d1). lia.
Qed.

Section WeekLoop.

Variable remote : string -> get_outcome.
Variables (tk : string) (d0 : date).

(** In sequential mode the loop never binds [results], and what it
    returns early is a failure. *)
Lemma for_weeks_sequential_shape (js : list Z) :
  match fst (for_weeks remote tk d0 false None js) with
  | Ret (Continue rs) => rs = None
  | Ret (Return r) => fst r = false
  | Raise _ => True
  end.
Proof.
  induction js as [| i js IH]; [reflexivity |].
  cbn [for_weeks]. unfold week_step.
  destruct (window_url tk d0 i) as [url |]; [| exact I].
  destruct (download_and_process_gz remote url default_batch_size)
    as [[[ok lbl] | e] t]; [| exact I].
  destruct ok; wsimpl.
  - exact IH.
  - reflexivity.
Qed.

End WeekLoop.

(** C4: a call with [multiprocess=False] never returns a [True] flag. It
    ends in [(False, label)] whatever the windows do; and when the loop
    runs to its end (every window succeeded, or there was none), the
    read of the unbound [results] raises, the handler logs it and the
    call returns [(False, ticket)]. *)
Theorem sequential_download_never_succeeds
        (remote : string -> get_outcome) (tk : string) (d0 : date)
        (d1 : option date) (num_processes : Z) :
  (exists label,
      fst (download_tick_data remote tk d0 d1 false num_processes)
      = Ret (false, label))
  /\ (forall d1' rs t,
         d1 = Some d1' ->
         for_weeks remote tk d0 false None (range (weeks_between_dates d0 d1'))
         = (Ret (Continue rs), t) ->
         download_tick_data remote tk d0 d1 false num_processes
         = (Ret (false, tk),
            t ++ [Log ERROR (UnexpectedError tk UnboundLocalError)])).
Proof.
  split.
  - unfold download_tick_data.
    destruct d1 as [d1' |].
    + cbv beta iota. rewrite !bind_ret_l.
      pose proof (for_weeks_sequential_shape remote tk d0
                    (range (weeks_between_dates d0 d1'))) as Hs.
      destruct (for_weeks remote tk d0 false None
                          (range (weeks_between_dates d0 d1')))
        as [[[rs | r] | e] t]; cbn [fst] in Hs.
      * subst rs. rewrite bind_Ret, bind_ret_l. cbn.
        exists tk. reflexivity.
      * destruct r as [ok lbl]. cbn [fst] in Hs. subst ok.
        rewrite bind_Ret. cbn. exists lbl. reflexivity.
      * rewrite bind_Raise. cbn. exists tk. destruct e; reflexivity.
    + cbn. exists tk. reflexivity.
  - intros d1' rs t -> Hloop.
    pose proof (for_weeks_sequential_shape remote tk d0
                  (range (weeks_between_dates d0 d1'))) as Hs.
    rewrite Hloop in Hs. cbn [fst] in Hs. subst rs.
    unfold download_tick_data. cbv beta iota. rewrite !bind_ret_l, Hloop.
    rewrite bind_Ret, bind_ret_l. cbn. now rewrite app_nil_r.
Qed.

(** Two windows, both served and read to the end: still
    [(False, ticket)]. *)
Lemma sequential_download_never_succeeds_witness :
  download_tick_data (serving 200 [sample_header]) "EURUSD"
                     (mkdate 2019 1 1) (Some (mkdate 2019 1 15)) false 4
  = (Ret (false, "EURUSD"),
     [Log INFO (Downloading "EURUSD-2019-1");
      Get "https://tickdata.fxcorporate.com/EURUSD/2019/1.csv.gz";
      Log INFO (Processing "EURUSD-2019-1");
      Log INFO (FinishedProcessing "EURUSD-2019-1");
      Sleep;
      Log INFO (Downloading "EURUSD-2019-2");
      Get "https://tickdata.fxcorporate.com/EURUSD/2019/2.csv.gz";
      Log INFO (Processing "EURUSD-2019-2");
      Log INFO (FinishedProcessing "EURUSD-2019-2");
      Sleep]
     ++ [Log ERROR (UnexpectedError "EURUSD" UnboundLocalError)]).
Proof.
  apply (proj2 (sequential_download_never_succeeds
                  (serving 200 [sample_header]) "EURUSD" (mkdate 2019 1 1)
                  (Some (mkdate 2019 1 15)) 4)
               (mkdate 2019 1 15) None).
  - reflexivity.
  - vm_compute; reflexivity.
Defined.

Lemma no_window_when_no_day_between
      (remote : string -> get_outcome) (tk : string) (d0 d1 : date)
      (multiprocess : bool) (num_processes : Z) :
  days_between d0 d1 <= 0 ->
  weeks_between_dates d0 d1 <= 0
  /\ fetched (snd (download_tick_data remote tk d0 (Some d1)
                                      multiprocess num_processes)) = []
  /\ submitted (snd (download_tick_data remote tk d0 (Some d1)
                                        multiprocess num_processes)) = []
  /\ commits (snd (download_tick_data remote tk d0 (Some d1)
                                      multiprocess num_processes)) = [].
Proof.
  intros Hd. apply weeks_nonpositive in Hd. split; [exact Hd |].
  unfold download_tick_data. rewrite bind_ret_l.
  rewrite (range_nonpositive _ Hd).
  destruct multiprocess.
  - destruct (num_processes <? 1); cbn; repeat split; reflexivity.
  - cbn. repeat split; reflexivity.
Qed.

(** C7: when the start date is on or after the end date ([d1 <= d0] as
    Python compares dates, so the window count is zero or negative) the
    loop body never runs: nothing is fetched, nothing is handed to a
    pool, nothing is committed, in either mode. *)
Theorem no_window_when_start_not_before_end
        (remote : string -> get_outcome) (tk : string) (d0 d1 : date)
        (multiprocess : bool) (num_processes : Z) :
  is_date d0 = true -> is_date d1 = true ->
  date_leb d1 d0 = true ->
  weeks_between_dates d0 d1 <= 0
  /\ fetched (snd (download_tick_data remote tk d0 (Some d1)
                                      multiprocess num_processes)) = []
  /\ submitted (snd (download_tick_data remote tk d0 (Some d1)
                                        multiprocess num_processes)) = []
  /\ commits (snd (download_tick_data remote tk d0 (Some d1)
                                      multiprocess num_processes)) = [].
Proof.
  intros H0 H1 Hle. apply no_window_when_no_day_between.
  pose proof (toordinal_le d1 d0 H1 H0 Hle). unfold days_between. lia.
Qed.

Lemma no_window_when_start_not_before_end_witness :
  weeks_between_dates (mkdate 2023 6 1) (mkdate 2023 5 1) <= 0
  /\ fetched (snd (download_tick_data (fun _ => NoResponse) "EURUSD"
                     (mkdate 2023 6 1) (Some (mkdate 2023 5 1)) true 4)) = []
  /\ submitted (snd (download_tick_data (fun _ => NoResponse) "EURUSD"
                     (mkdate 2023 6 1) (Some (mkdate 2023 5 1)) true 4)) = []
  /\ commits (snd (download_tick_data (fun _ => NoResponse) "EURUSD"
                     (mkdate 2023 6 1) (Some (mkdate 2023 5 1)) true 4)) = [].
Proof.
  apply (no_window_when_start_not_before_end
           (fun _ => NoResponse) "EURUSD" (mkdate 2023 6 1) (mkdate 2023 5 1)
           true 4); reflexivity.
Defined.

(* ===================================================================== *)
(** ** One window: which requests it makes *)
(* ===================================================================== *)

Lemma snd_bind {A B} (m : W A) (f : A -> W B) :
  snd (bind m f)
  = snd m ++ match fst m with
             | Ret a => snd (f a)
             | Raise _ => []
             end.
Proof.
  destruct m as [[a | e] t]; cbn [fst snd].
  - now rewrite bind_Ret.
  - now rewrite bind_Raise, app_nil_r.
Qed.

Lemma quiet_fetched (t : list event) : Forall quiet t -> fetched t = [].
Proof.
  induction 1 as [| ev t Hev _ IH]; [reflexivity |].
  destruct ev; cbn in *; try contradiction; exact IH.
Qed.

Lemma quiet_submitted (t : list event) : Forall quiet t -> submitted t = [].
Proof.
  induction 1 as [| ev t Hev _ IH]; [reflexivity |].
  destruct ev; cbn in *; try contradiction; exact IH.
Qed.

Lemma quiet_bind {A B} (m : W A) (f : A -> W B) :
  Forall quiet (snd m) -> (forall a, Forall quiet (snd (f a))) ->
  Forall quiet (snd (bind m f)).
Proof.
  intros Hm Hf. rewrite snd_bind. apply Forall_app. split; [exact Hm |].
  destruct (fst m); [apply Hf | constructor].
Qed.

Lemma row_step_quiet tk this B st row :
  Forall quiet (snd (row_step tk this B st row)).
Proof.
  unfold row_step. apply quiet_bind.
  - destruct row as [| f tl]; [constructor |].
    destruct (try_row tk (l_dt st) (f :: tl)) as [dt1 [tick | e]]; [constructor |].
    destruct (row_handler_catches e); [| constructor].
    repeat constructor.
  - intros st1. unfold batch_check. destruct (B =? 0); [constructor |].
    destruct (l_count st1 mod B =? 0); repeat constructor.
Qed.

Lemma for_rows_quiet tk this B reader st :
  Forall quiet (snd (for_rows tk this B reader st)).
Proof.
  revert st. induction reader as [| row reader IH]; intros st; [constructor |].
  cbn [for_rows]. apply quiet_bind; [apply row_step_quiet | exact IH].
Qed.

Lemma session_block_quiet tk this B reader :
  Forall quiet (snd (session_block tk this B reader)).
Proof.
  unfold session_block. apply quiet_bind; [apply for_rows_quiet |].
  intros st. destruct (l_rows st); repeat constructor.
Qed.

(** The trace of a window whose URL has its three parts: the first log
    record, the request, then only log records and commits. *)
Lemma download_and_process_gz_trace remote url B :
  (3 <= List.length (PyStr.split "/" url))%nat ->
  exists this rest,
    snd (download_and_process_gz remote url B)
    = Log INFO (Downloading this) :: Get url :: rest
    /\ Forall quiet rest.
Proof.
  intros Hlen. unfold download_and_process_gz, PyStr.index_from_end.
  destruct (Nat.leb_spec 3 (List.length (PyStr.split "/" url))) as [_ | ?]; [| lia].
  destruct (Nat.leb_spec 2 (List.length (PyStr.split "/" url))) as [_ | ?]; [| lia].
  destruct (Nat.leb_spec 1 (List.length (PyStr.split "/" url))) as [_ | ?]; [| lia].
  destruct (nth_error (PyStr.split "/" url) (List.length (PyStr.split "/" url) - 3))
    as [tk |] eqn:E3; [| apply nth_error_None in E3; lia].
  destruct (nth_error (PyStr.split "/" url) (List.length (PyStr.split "/" url) - 2))
    as [yr |] eqn:E2; [| apply nth_error_None in E2; lia].
  destruct (nth_error (PyStr.split "/" url) (List.length (PyStr.split "/" url) - 1))
    as [last |] eqn:E1; [| apply nth_error_None in E1; lia].
  set (this := window_label tk yr last).
  exists this.
  unfold requests_get, raise_for_status.
  destruct (remote url) as [| r]; wsimpl.
  { eexists; split; [reflexivity | repeat constructor]. }
  destruct ((400 <=? status_code r) && (status_code r <? 600)); wsimpl.
  { eexists; split; [reflexivity | repeat constructor]. }
  destruct (content r) as [file |]; wsimpl.
  2: { eexists; split; [reflexivity | repeat constructor]. }
  destruct (csv_reader file) as [| header reader]; wsimpl.
  { eexists; split; [reflexivity | repeat constructor]. }
  pose proof (session_block_quiet tk this B reader) as Hq.
  destruct (session_block tk this B reader) as [[[] | e] t]; cbn [snd] in Hq; wsimpl.
  - eexists. split; [reflexivity |].
    constructor; [exact I |]. apply Forall_app. split; [exact Hq | repeat constructor].
  - destruct e; cbn [snd]; (eexists; split; [reflexivity |]);
      repeat first [ exact Hq | exact I | apply Forall_nil | apply Forall_cons
                   | apply Forall_app; split ].
Qed.

Lemma download_and_process_gz_fetched remote url B :
  (3 <= List.length (PyStr.split "/" url))%nat ->
  fetched (snd (download_and_process_gz remote url B)) = [url].
Proof.
  intros Hlen.
  destruct (download_and_process_gz_trace remote url B Hlen) as (this & rest & -> & Hq).
  cbn [fetched]. now rewrite (quiet_fetched _ Hq).
Qed.

Lemma split_length_app (c : ascii) (a b : string) :
  List.length (PyStr.split c (a ++ b))
  = (List.length (PyStr.split c a) + List.length (PyStr.split c b) - 1)%nat.
Proof.
  assert (Hpos : forall s, (1 <= List.length (PyStr.split c s))%nat).
  { induction s as [| x s IH]; cbn; [lia |].
    destruct (Ascii.eqb x c); cbn; [lia |].
    destruct (PyStr.split c s); cbn in *; lia. }
  induction a as [| x a IH]; cbn [PyStr.split String.append].
  - cbn. lia.
  - destruct (Ascii.eqb x c).
    + cbn [List.length]. rewrite IH. pose proof (Hpos a). pose proof (Hpos b). lia.
    + pose proof (Hpos a). pose proof (Hpos (a ++ b)%string).
      destruct (PyStr.split c (a ++ b)), (PyStr.split c a); cbn [List.length] in *; lia.
  Qed.

(** Every URL the week loop builds has the three parts
    [download_and_process_gz] takes its label from. *)
Lemma window_url_parts tk d0 i url :
  window_url tk d0 i = Some url ->
  (3 <= List.length (PyStr.split "/" url))%nat.
Proof.
  unfold window_url. destruct (add_days d0 (7 * i)) as [nd |]; [| discriminate].
  destruct (isocalendar nd) as [yr wk]. intros H.
  replace url with
    (base_url ++ "/" ++ tk ++ "/" ++ PyStr.of_Z yr ++ "/"
              ++ PyStr.of_Z wk ++ url_suffix)%string by congruence.
  rewrite split_length_app.
  change (List.length (PyStr.split "/" base_url)) with 3%nat.
  assert (1 <= List.length (PyStr.split "/"
            ("/" ++ tk ++ "/" ++ PyStr.of_Z yr ++ "/" ++ PyStr.of_Z wk ++ url_suffix)))%nat.
  { cbn. lia. }
  lia.
Qed.


(* ===================================================================== *)
(** ** One window never touches the pool *)
(* ===================================================================== *)

Lemma download_and_process_gz_submitted remote url B :
  submitted (snd (download_and_process_gz remote url B)) = [].
Proof.
  destruct (Nat.leb_spec 3 (List.length (PyStr.split "/" url))) as [Hlen | Hlen].
  - destruct (download_and_process_gz_trace remote url B Hlen)
      as (this & rest & -> & Hq).
    cbn [submitted]. exact (quiet_submitted _ Hq).
  - unfold download_and_process_gz, PyStr.index_from_end.
    destruct (Nat.leb_spec 3 (List.length (PyStr.split "/" url))) as [? | _];
      [lia | reflexivity].
Qed.

(* ===================================================================== *)
(** ** Dispatch: sequential fail-fast, parallel fail-independent *)
(* ===================================================================== *)

Section Dispatch.

Variable remote : string -> get_outcome.
Variables (tk : string) (d0 : date).

Lemma run_tasks_trace (urls : list string) :
  run_tasks remote urls
  = (Ret tt,
     flat_map (fun v => snd (download_and_process_gz remote v default_batch_size))
              urls).
Proof.
  induction urls as [| v urls IH]; [reflexivity |].
  cbn [run_tasks flat_map]. unfold worker. rewrite bind_Ret, IH. reflexivity.
Qed.

(** The sequential loop up to and including the first failing window. *)
Lemma for_weeks_first_failure (js : list Z) (pre : list string) (u : string)
      (post : list (option string)) (lbl : string) :
  map (window_url tk d0) js = map Some pre ++ Some u :: post ->
  Forall (fun v => exists l,
              fst (download_and_process_gz remote v default_batch_size)
              = Ret (true, l)) pre ->
  fst (download_and_process_gz remote u default_batch_size) = Ret (false, lbl) ->
  for_weeks remote tk d0 false None js
  = (Ret (Return (false, lbl)),
     flat_map (fun v => snd (download_and_process_gz remote v default_batch_size)
                        ++ [Sleep]) pre
     ++ snd (download_and_process_gz remote u default_batch_size)
     ++ [Log WARNING (FailedToDownload lbl)]).
Proof.
  revert js. induction pre as [| v pre IH]; intros js Hjs Hpre Hu.
  - destruct js as [| i js]; [discriminate |].
    cbn [map app] in Hjs. injection Hjs as Hi _.
    cbn [for_weeks flat_map app]. unfold week_step. rewrite Hi.
    destruct (download_and_process_gz remote u default_batch_size)
      as [[[ok l] | e] t]; cbn [fst snd] in *; [| discriminate].
    injection Hu as -> ->. wsimpl. reflexivity.
  - destruct js as [| i js]; [discriminate |].
    cbn [map app] in Hjs. injection Hjs as Hi Hjs.
    inversion Hpre as [| ? ? [l Hv] Hpre']; subst.
    cbn [for_weeks flat_map]. unfold week_step. rewrite Hi.
    destruct (download_and_process_gz remote v default_batch_size)
      as [[[ok l'] | e] t]; cbn [fst snd] in *; [| discriminate].
    injection Hv as -> ->. wsimpl.
    rewrite (IH js Hjs Hpre' Hu). cbn [fst snd].
    now rewrite <- !app_assoc.
Qed.

(** The parallel loop submits every window and binds one handle each. *)
Lemma for_weeks_parallel (js : list Z) (urls rs : list string) :
  map (window_url tk d0) js = map Some urls ->
  for_weeks remote tk d0 true (Some rs) js
  = (Ret (Continue (Some (rs ++ urls))),
     flat_map (fun v => [ApplyAsync v; Sleep]) urls).
Proof.
  revert js rs. induction urls as [| v urls IH]; intros js rs Hjs.
  - destruct js; [| discriminate]. cbn. now rewrite app_nil_r.
  - destruct js as [| i js]; [discriminate |].
    cbn [map] in Hjs. injection Hjs as Hi Hjs.
    cbn [for_weeks flat_map]. unfold week_step. rewrite Hi. wsimpl.
    rewrite (IH js (rs ++ [v]) Hjs). cbn [fst snd].
    now rewrite <- app_assoc.
Qed.

End Dispatch.

Lemma mapped_prefix {A B} (f : A -> option B) (js : list A) (l : list B)
      (rest : list (option B)) :
  map f js = map Some l ++ rest ->
  Forall (fun v => exists i, f i = Some v) l.
Proof.
  revert js. induction l as [| v l IH]; intros js H; [constructor |].
  destruct js as [| i js]; [discriminate |].
  cbn [map app] in H. injection H as Hi H.
  constructor; [now exists i | now apply (IH js)].
Qed.

Lemma fetched_sequential_runs remote B (urls : list string) :
  Forall (fun v => (3 <= List.length (PyStr.split "/" v))%nat) urls ->
  fetched (flat_map (fun v => snd (download_and_process_gz remote v B) ++ [Sleep])
                    urls) = urls.
Proof.
  induction 1 as [| v urls Hv _ IH]; [reflexivity |].
  cbn [flat_map]. rewrite !fetched_app, IH.
  rewrite (download_and_process_gz_fetched remote v B Hv). reflexivity.
Qed.

Lemma fetched_parallel_runs remote B (urls : list string) :
  Forall (fun v => (3 <= List.length (PyStr.split "/" v))%nat) urls ->
  fetched (flat_map (fun v => snd (download_and_process_gz remote v B)) urls)
  = urls.
Proof.
  induction 1 as [| v urls Hv _ IH]; [reflexivity |].
  cbn [flat_map]. rewrite !fetched_app, IH.
  rewrite (download_and_process_gz_fetched remote v B Hv). reflexivity.
Qed.

Lemma submitted_parallel_runs remote B (urls : list string) :
  submitted (flat_map (fun v => snd (download_and_process_gz remote v B)) urls)
  = [].
Proof.
  induction urls as [| v urls IH]; [reflexivity |].
  cbn [flat_map]. now rewrite submitted_app, IH, download_and_process_gz_submitted.
Qed.

Lemma submitted_dispatch (urls : list string) :
  submitted (flat_map (fun v => [ApplyAsync v; Sleep]) urls) = urls
  /\ fetched (flat_map (fun v => [ApplyAsync v; Sleep]) urls) = [].
Proof.
  induction urls as [| v urls [IH1 IH2]]; [split; reflexivity |].
  cbn. now rewrite IH1, IH2.
Qed.

(** C5: in sequential mode the first window that reports failure ends
    the call with that failure: the trace holds the runs of the windows
    before it, its own run and the warning, and no request of a later
    window. In parallel mode every window of the range is submitted to
    the pool, and after [close] and [join] the run of every one of them
    is there in full, whatever the others returned or raised; the
    summary over [results] comes last and the call returns
    [(True, ticket)]. *)
Theorem sequential_fail_fast_parallel_fail_independent
        (remote : string -> get_outcome) (tk : string) (d0 d1 : date)
        (num_processes : Z) :
  (forall (pre : list string) (u : string) (post : list (option string))
          (lbl : string),
      map (window_url tk d0) (range (weeks_between_dates d0 d1))
      = map Some pre ++ Some u :: post ->
      Forall (fun v => exists l,
                  fst (download_and_process_gz remote v default_batch_size)
                  = Ret (true, l)) pre ->
      fst (download_and_process_gz remote u default_batch_size)
      = Ret (false, lbl) ->
      download_tick_data remote tk d0 (Some d1) false num_processes
      = (Ret (false, lbl),
         flat_map (fun v =>
                     snd (download_and_process_gz remote v default_batch_size)
                     ++ [Sleep]) pre
         ++ snd (download_and_process_gz remote u default_batch_size)
         ++ [Log WARNING (FailedToDownload lbl)])
      /\ fetched (snd (download_tick_data remote tk d0 (Some d1) false
                                          num_processes))
         = pre ++ [u])
  /\ (forall urls : list string,
         1 <= num_processes ->
         map (window_url tk d0) (range (weeks_between_dates d0 d1))
         = map Some urls ->
         download_tick_data remote tk d0 (Some d1) true num_processes
         = (Ret (true, tk),
            PoolCreate num_processes
            :: flat_map (fun v => [ApplyAsync v; Sleep]) urls
            ++ PoolClose
            :: flat_map (fun v =>
                           snd (download_and_process_gz remote v
                                                        default_batch_size))
                        urls
            ++ [PoolJoin; Log INFO (FinishedProcess tk (List.length urls))])
         /\ submitted (snd (download_tick_data remote tk d0 (Some d1) true
                                               num_processes))
            = urls
         /\ fetched (snd (download_tick_data remote tk d0 (Some d1) true
                                             num_processes))
            = urls).
Proof.
  split.
  - intros pre u post lbl Hjs Hpre Hu.
    assert (Hrun : download_tick_data remote tk d0 (Some d1) false num_processes
                   = (Ret (false, lbl),
                      flat_map (fun v =>
                                  snd (download_and_process_gz remote v
                                                               default_batch_size)
                                  ++ [Sleep]) pre
                      ++ snd (download_and_process_gz remote u default_batch_size)
                      ++ [Log WARNING (FailedToDownload lbl)])).
    { unfold download_tick_data. cbv beta iota. rewrite !bind_ret_l.
      rewrite (for_weeks_first_failure remote tk d0 _ pre u post lbl Hjs Hpre Hu).
      wsimpl. reflexivity. }
    split; [exact Hrun |].
    rewrite Hrun. cbn [snd].
    assert (Hparts : Forall (fun v => (3 <= List.length (PyStr.split "/" v))%nat)
                            (pre ++ [u])).
    { change (map Some pre ++ Some u :: post)
        with (map Some pre ++ map Some [u] ++ post) in Hjs.
      rewrite app_assoc, <- map_app in Hjs.
      apply mapped_prefix in Hjs.
      eapply Forall_impl; [| exact Hjs].
      intros v [i Hi]. exact (window_url_parts _ _ _ _ Hi). }
    apply Forall_app in Hparts. destruct Hparts as [Hp Hu'].
    inversion Hu' as [| ? ? Hu3 _]; subst.
    rewrite !fetched_app, (fetched_sequential_runs _ _ _ Hp).
    rewrite (download_and_process_gz_fetched remote u _ Hu3). reflexivity.
  - intros urls Hn Hjs.
    assert (Hrun : download_tick_data remote tk d0 (Some d1) true num_processes
                   = (Ret (true, tk),
                      PoolCreate num_processes
                      :: flat_map (fun v => [ApplyAsync v; Sleep]) urls
                      ++ PoolClose
                      :: flat_map (fun v =>
                                     snd (download_and_process_gz
                                            remote v default_batch_size)) urls
                      ++ [PoolJoin;
                          Log INFO (FinishedProcess tk (List.length urls))])).
    { unfold download_tick_data. cbv beta iota. rewrite !bind_ret_l.
      destruct (Z.ltb_spec num_processes 1) as [? | _]; [lia |].
      wsimpl.
      rewrite (for_weeks_parallel remote tk d0 _ urls [] Hjs).
      cbn [app]. unfold pool_join. wsimpl.
      rewrite run_tasks_trace. wsimpl.
      rewrite <- !app_assoc. reflexivity. }
    split; [exact Hrun |].
    rewrite Hrun. cbn [snd].
    assert (Hparts : Forall (fun v => (3 <= List.length (PyStr.split "/" v))%nat)
                            urls).
    { rewrite <- (app_nil_r (map Some urls)) in Hjs.
      apply mapped_prefix in Hjs.
      eapply Forall_impl; [| exact Hjs].
      intros v [i Hi]. exact (window_url_parts _ _ _ _ Hi). }
    destruct (submitted_dispatch urls) as [Hs Hf].
    cbn [submitted fetched].
    rewrite !submitted_app, !fetched_app, Hs, Hf. cbn [submitted fetched].
    rewrite !submitted_app, !fetched_app, submitted_parallel_runs.
    rewrite (fetched_parallel_runs _ _ _ Hparts). cbn.
    now rewrite !app_nil_r.
Qed.


(* ===================================================================== *)
(** ** The row loop *)
(* ===================================================================== *)

Lemma parse_dt_unfold (dt0 : option datetime) (f : string) :
  parse_dt dt0 f
  = match Strptime.strptime f "%m-%d-%Y %H:%M:%S.%f" with
    | Some d => Some d
    | None =>
        match Strptime.strptime f "%m/%d/%Y %H:%M:%S.%f" with
        | Some d => Some d
        | None => dt0
        end
    end.
Proof. reflexivity. Qed.

Lemma timestamp_ok_unfold (f : string) :
  timestamp_ok f
  = match Strptime.strptime f "%m/%d/%Y %H:%M:%S.%f" with
    | Some _ => true
    | None =>
        match Strptime.strptime f "%m-%d-%Y %H:%M:%S.%f" with
        | Some _ => true
        | None => false
        end
    end.
Proof.
  unfold timestamp_ok, datetime_fmts. cbn [existsb].
  destruct (Strptime.strptime f "%m/%d/%Y %H:%M:%S.%f");
    destruct (Strptime.strptime f "%m-%d-%Y %H:%M:%S.%f"); reflexivity.
Qed.

(** No format matches: [dt] keeps the value it had. *)
Lemma parse_dt_no_match (dt0 : option datetime) (f : string) :
  timestamp_ok f = false -> parse_dt dt0 f = dt0.
Proof.
  rewrite timestamp_ok_unfold, parse_dt_unfold.
  destruct (Strptime.strptime f "%m/%d/%Y %H:%M:%S.%f");
    destruct (Strptime.strptime f "%m-%d-%Y %H:%M:%S.%f");
    intros; try discriminate; reflexivity.
Qed.

(** A format matches: the value [dt] had does not matter. *)
Lemma parse_dt_match (dt0 : option datetime) (f : string) (d : datetime) :
  parse_dt None f = Some d -> parse_dt dt0 f = Some d.
Proof.
  rewrite !parse_dt_unfold.
  destruct (Strptime.strptime f "%m-%d-%Y %H:%M:%S.%f"); [trivial |].
  destruct (Strptime.strptime f "%m/%d/%Y %H:%M:%S.%f"); [trivial | discriminate].
Qed.

Lemma timestamp_ok_parse (f : string) :
  timestamp_ok f = true -> exists d, parse_dt None f = Some d.
Proof.
  rewrite timestamp_ok_unfold, parse_dt_unfold.
  destruct (Strptime.strptime f "%m/%d/%Y %H:%M:%S.%f") as [d1 |];
    destruct (Strptime.strptime f "%m-%d-%Y %H:%M:%S.%f") as [d2 |];
    intros; try discriminate; eauto.
Qed.

Lemma for_rows_app tk this B (r1 r2 : list (list string)) (st : locals) :
  for_rows tk this B (r1 ++ r2) st
  = bind (for_rows tk this B r1 st) (for_rows tk this B r2).
Proof.
  revert st. induction r1 as [| row r1 IH]; intros st.
  - cbn [app for_rows]. now rewrite bind_ret_l.
  - cbn [app for_rows]. rewrite bind_assoc.
    apply bind_ext. intros st1. apply IH.
Qed.

Section RowLoop.

Variables (tk this : string) (B : Z).
Hypothesis B_positive : 0 < B.

(** The batch check at the end of a turn, on a state whose [rows] hold
    either the records counted since the last multiple of [B], or a full
    batch. *)
Lemma flush_check (st1 : locals) :
  0 <= l_count st1 ->
  Z.of_nat (List.length (l_rows st1)) = l_count st1 mod B
  \/ (l_count st1 mod B = 0 /\ Z.of_nat (List.length (l_rows st1)) = B) ->
  exists st' t,
    batch_check B st1 = (Ret st', t)
    /\ batch_invariant B st'
    /\ emitted t st' = l_rows st1
    /\ l_dt st' = l_dt st1
    /\ warnings t = []
    /\ Forall (fun b => b = [] \/ Z.of_nat (List.length b) = B) (commits t).
Proof.
  intros Hc Hlen. unfold batch_check.
  destruct (Z.eqb_spec B 0) as [? | _]; [lia |].
  destruct (Z.eqb_spec (l_count st1 mod B) 0) as [Hz | Hnz].
  - exists (mkLocals (l_dt st1) [] (l_count st1)), [Commit (l_rows st1)].
    unfold batch_invariant, emitted, committed. cbn.
    rewrite !app_nil_r.
    split; [reflexivity |]. split; [split; lia |].
    split; [reflexivity |]. split; [reflexivity |]. split; [reflexivity |].
    constructor; [| constructor].
    destruct Hlen as [Hl | [_ Hl]]; [| now right].
    left. destruct (l_rows st1); [reflexivity | cbn in Hl; lia].
  - exists st1, []. unfold batch_invariant, emitted, committed. cbn.
    split; [reflexivity |]. split.
    { split; [lia |]. destruct Hlen as [Hl | [Hz _]]; [exact Hl | contradiction]. }
    split; [reflexivity |]. split; [reflexivity |]. split; [reflexivity |].
    constructor.
Qed.

(** One turn that does not die: what it leaves. *)
Lemma row_step_ret (st st' : locals) (row : list string) (t : list event) :
  batch_invariant B st ->
  row_step tk this B st row = (Ret st', t) ->
  batch_invariant B st'
  /\ emitted t st' = l_rows st ++ parsed_records tk (l_dt st) [row]
  /\ l_dt st' = match row with
                | [] => l_dt st
                | _ :: _ => fst (try_row tk (l_dt st) row)
                end
  /\ Forall (fun b => b = [] \/ Z.of_nat (List.length b) = B) (commits t)
  /\ (forall rest,
         parsed_records tk (l_dt st) (row :: rest)
         = parsed_records tk (l_dt st) [row]
           ++ parsed_records tk (l_dt st') rest).
Proof.
  intros [Hc Hlen] Hstep. unfold row_step in Hstep.
  destruct row as [| f tl].
  - rewrite bind_ret_l in Hstep.
    destruct (flush_check st Hc (or_introl Hlen))
      as (st2 & t2 & E & Hinv & Hem & Hdt & _ & Hall).
    rewrite E in Hstep. injection Hstep as <- <-.
    cbn [parsed_records]. rewrite app_nil_r, Hdt. auto 10.
  - cbn [parsed_records].
    destruct (try_row tk (l_dt st) (f :: tl)) as [dt1 [tick | e]] eqn:Etry;
      cbv beta iota in Hstep.
    + rewrite bind_ret_l in Hstep.
      set (st1 := mkLocals dt1 (l_rows st ++ [tick]) (l_count st + 1)) in *.
      assert (Hc1 : 0 <= l_count st1) by (cbn; lia).
      assert (Hlen1 :
                Z.of_nat (List.length (l_rows st1)) = l_count st1 mod B
                \/ (l_count st1 mod B = 0
                    /\ Z.of_nat (List.length (l_rows st1)) = B)).
      { subst st1. cbn [l_rows l_count]. rewrite length_app. cbn [List.length].
        pose proof (Z.mod_pos_bound (l_count st) B B_positive) as Hb.
        pose proof (Z.div_mod (l_count st) B ltac:(lia)) as Hdm.
        destruct (Z.eq_dec (l_count st mod B) (B - 1)) as [Hlast | Hnot].
        - right. split; [| lia].
          replace (l_count st + 1) with (0 + (l_count st / B + 1) * B) by lia.
          now rewrite Z.mod_add by lia.
        - left.
          replace (l_count st + 1)
            with ((l_count st mod B + 1) + (l_count st / B) * B) by lia.
          rewrite Z.mod_add by lia. rewrite Z.mod_small by lia. lia. }
      destruct (flush_check st1 Hc1 Hlen1)
        as (st2 & t2 & E & Hinv & Hem & Hdt & _ & Hall).
      rewrite E in Hstep. injection Hstep as <- <-.
      cbn [fst app]. rewrite Hdt.
      repeat split; try apply Hinv; auto.
    + destruct (row_handler_catches e) eqn:Ec.
      * wsimpl_in Hstep.
        set (st1 := mkLocals dt1 (l_rows st) (l_count st)) in *.
        destruct (flush_check st1 Hc (or_introl Hlen))
          as (st2 & t2 & E & Hinv & Hem & Hdt & _ & Hall).
        rewrite E in Hstep. cbn [fst snd] in Hstep. injection Hstep as <- <-.
        cbn [fst app]. rewrite app_nil_r, Hdt.
        unfold emitted, committed in *. cbn [commits].
        repeat split; try apply Hinv; auto.
      * rewrite bind_raise in Hstep. discriminate.
Qed.

Lemma for_rows_ret (reader : list (list string)) (st st' : locals)
      (t : list event) :
  batch_invariant B st ->
  for_rows tk this B reader st = (Ret st', t) ->
  batch_invariant B st'
  /\ emitted t st' = l_rows st ++ parsed_records tk (l_dt st) reader
  /\ Forall (fun b => b = [] \/ Z.of_nat (List.length b) = B) (commits t).
Proof.
  revert st t. induction reader as [| row reader IH]; intros st t Hinv Hrun.
  - cbn in Hrun. injection Hrun as <- <-.
    unfold emitted. cbn. rewrite app_nil_r. auto.
  - cbn [for_rows] in Hrun.
    destruct (row_step tk this B st row) as [[st1 | e] t1] eqn:Estep;
      [| discriminate].
    rewrite bind_Ret in Hrun.
    destruct (for_rows tk this B reader st1) as [[st2 | e] t2] eqn:Erest;
      cbn [fst snd] in Hrun; [| discriminate].
    injection Hrun as <- <-.
    destruct (row_step_ret st st1 row t1 Hinv Estep)
      as (Hinv1 & Hem1 & _ & Hall1 & Hcons).
    destruct (IH st1 t2 Hinv1 Erest) as (Hinv2 & Hem2 & Hall2).
    split; [exact Hinv2 |]. split.
    + unfold emitted in *. rewrite committed_app, <- app_assoc, Hem2.
      rewrite app_assoc, Hem1, <- app_assoc. now rewrite (Hcons reader).
    + rewrite commits_app. apply Forall_app. now split.
Qed.

Lemma try_row_cons (dt0 : option datetime) (f : string) (tl : list string) :
  try_row tk dt0 (f :: tl)
  = (parse_dt dt0 f,
     match parse_dt dt0 f with
     | None => Raise UnboundLocalError
     | Some d =>
         match tl with
         | b :: a :: _ => Ret (mkFxTick d b a tk)
         | _ => Raise IndexError
         end
     end).
Proof.
  unfold try_row. cbn [nth_error].
  destruct (parse_dt dt0 f); [| reflexivity].
  destruct tl as [| b [| a tl]]; reflexivity.
Qed.

Lemma batch_check_total (st1 : locals) :
  exists st' t,
    batch_check B st1 = (Ret st', t)
    /\ l_dt st' = l_dt st1 /\ warnings t = []
    /\ emitted t st' = l_rows st1.
Proof.
  unfold batch_check, emitted, committed.
  destruct (Z.eqb_spec B 0) as [? | _]; [lia |].
  destruct (l_count st1 mod B =? 0); eexists; eexists;
    (split; [reflexivity |]); cbn; rewrite ?app_nil_r; auto.
Qed.

(** A turn cannot die once [dt] is bound, by this row or an earlier
    one: it adds the row's tick when the row has its three fields, and
    warns and adds nothing when a bid or an ask is missing. *)
Lemma row_step_total (st : locals) (row : list string) :
  match row with
  | [] => True
  | f :: _ => parse_dt (l_dt st) f <> None
  end ->
  exists st' t,
    row_step tk this B st row = (Ret st', t)
    /\ l_dt st' = match row with
                  | [] => l_dt st
                  | f :: _ => parse_dt (l_dt st) f
                  end
    /\ warnings t = (if missing_fields row
                     then [ErrorParsingRow row this IndexError] else [])
    /\ emitted t st'
       = l_rows st
         ++ match row with
            | f :: b :: a :: _ =>
                match parse_dt (l_dt st) f with
                | Some d => [mkFxTick d b a tk]
                | None => []
                end
            | _ => []
            end.
Proof.
  intros Hdt. unfold row_step. destruct row as [| f tl].
  - rewrite bind_ret_l.
    destruct (batch_check_total st) as (st' & t & E & Hd & Hw & He).
    exists st', t. rewrite app_nil_r. auto.
  - rewrite try_row_cons.
    destruct (parse_dt (l_dt st) f) as [d |] eqn:Ed; [| contradiction].
    destruct tl as [| b [| a tl]]; cbn [row_handler_catches missing_fields].
    + destruct (batch_check_total (mkLocals (Some d) (l_rows st) (l_count st)))
        as (st' & t & E & Hd & Hw & He).
      wsimpl. rewrite E. eexists; eexists. split; [reflexivity |].
      cbn [snd fst warnings]. rewrite Hw.
      unfold emitted, committed in *. cbn [commits]. auto.
    + destruct (batch_check_total (mkLocals (Some d) (l_rows st) (l_count st)))
        as (st' & t & E & Hd & Hw & He).
      wsimpl. rewrite E. eexists; eexists. split; [reflexivity |].
      cbn [snd fst warnings]. rewrite Hw.
      unfold emitted, committed in *. cbn [commits]. auto.
    + destruct (batch_check_total
                  (mkLocals (Some d)
                            (l_rows st ++ [mkFxTick d b a tk]) (l_count st + 1)))
        as (st' & t & E & Hd & Hw & He).
      rewrite bind_ret_l, E. eexists; eexists. split; [reflexivity |]. auto.
Qed.

Lemma warnings_app (t1 t2 : list event) :
  warnings (t1 ++ t2) = warnings t1 ++ warnings t2.
Proof.
  induction t1 as [| ev t1 IH]; [reflexivity |].
  destruct ev as [[] m | | | | | | |]; cbn; now rewrite IH.
Qed.

(** Once [dt] is bound, rows whose timestamp matches no format neither
    stop the loop nor change [dt]. *)
Lemma for_rows_stale (reader : list (list string)) (st : locals) (d : datetime) :
  l_dt st = Some d ->
  Forall (fun row => match row with
                     | [] => True
                     | g :: _ => timestamp_ok g = false
                     end) reader ->
  exists st' t,
    for_rows tk this B reader st = (Ret st', t) /\ l_dt st' = Some d.
Proof.
  intros Hd Hall. revert st Hd.
  induction Hall as [| row reader Hrow _ IH]; intros st Hd.
  - exists st, []. auto.
  - assert (Hkeep : match row with
                    | [] => l_dt st
                    | f :: _ => parse_dt (l_dt st) f
                    end = Some d).
    { destruct row as [| g tl]; [exact Hd |].
      now rewrite (parse_dt_no_match _ _ Hrow). }
    destruct (row_step_total st row) as (st1 & t1 & E1 & Hd1 & _).
    { destruct row as [| g tl]; [exact I |]. now rewrite Hkeep. }
    rewrite Hkeep in Hd1.
    destruct (IH st1 Hd1) as (st2 & t2 & E2 & Hd2).
    exists st2, (t1 ++ t2). cbn [for_rows]. rewrite E1, bind_Ret, E2. auto.
Qed.

(** A stream in which every row with a first field has a timestamp of
    an accepted format: the loop runs to its end, warns about the rows
    without a bid or an ask and adds the tick of every other row. *)
Lemma for_rows_good (reader : list (list string)) (st : locals) :
  Forall (fun row => match row with
                     | [] => True
                     | f :: _ => timestamp_ok f = true
                     end) reader ->
  exists st' t,
    for_rows tk this B reader st = (Ret st', t)
    /\ warnings t = map (fun row => ErrorParsingRow row this IndexError)
                        (filter missing_fields reader)
    /\ emitted t st' = l_rows st ++ flat_map (tick_of_row tk) reader.
Proof.
  intros Hall. revert st.
  induction Hall as [| row reader Hrow _ IH]; intros st.
  - exists st, []. unfold emitted. cbn. rewrite app_nil_r. auto.
  - destruct (row_step_total st row) as (st1 & t1 & E1 & _ & Hw1 & He1).
    { destruct row as [| f tl]; [exact I |].
      destruct (timestamp_ok_parse f Hrow) as [d Hd].
      now rewrite (parse_dt_match (l_dt st) f d Hd). }
    destruct (IH st1) as (st2 & t2 & E2 & Hw2 & He2).
    exists st2, (t1 ++ t2). cbn [for_rows]. rewrite E1, bind_Ret, E2.
    split; [reflexivity |]. split.
    + rewrite warnings_app, Hw1, Hw2. cbn [filter].
      destruct (missing_fields row); reflexivity.
    + unfold emitted in *. rewrite committed_app, <- app_assoc, He2.
      rewrite app_assoc, He1, <- app_assoc. cbn [flat_map].
      f_equal. f_equal. unfold tick_of_row.
      destruct row as [| f [| b [| a tl]]]; try reflexivity.
      destruct (timestamp_ok_parse f Hrow) as [d Hd].
      now rewrite (parse_dt_match (l_dt st) f d Hd), Hd.
Qed.

End RowLoop.


(* ===================================================================== *)
(** ** The batch writer *)
(* ===================================================================== *)

Lemma batches_app (t1 t2 : list event) :
  batches (t1 ++ t2) = batches t1 ++ batches t2.
Proof. unfold batches. now rewrite commits_app, filter_app. Qed.

Lemma concat_batches (t : list event) : List.concat (batches t) = committed t.
Proof.
  unfold batches, committed.
  induction (commits t) as [| b l IH]; [reflexivity |].
  destruct b; cbn; [exact IH | now rewrite IH].
Qed.

Lemma Forall_removelast {A} (P : A -> Prop) (l : list A) :
  Forall P l -> Forall P (removelast l).
Proof.
  induction 1 as [| x l Hx Hl IH]; [constructor |].
  destruct l; [constructor |]. cbn [removelast].
  constructor; [exact Hx | exact IH].
Qed.

(** Sizes that add up to five records in batches of two. *)
Lemma five_in_batches_of_two {A} (l : list (list A)) :
  Forall (fun b => List.length b = 2%nat) (removelast l) ->
  Forall (fun b => (1 <= List.length b <= 2)%nat) l ->
  List.length (List.concat l) = 5%nat ->
  map (@List.length A) l = [2; 2; 1]%nat.
Proof.
  intros Hfull Hall Hsum.
  destruct l as [| a [| b [| c [| d l]]]]; cbn in Hsum.
  - discriminate.
  - inversion Hall; subst. rewrite app_nil_r in Hsum. lia.
  - inversion Hfull as [| ? ? Ha _]; subst.
    inversion Hall as [| ? ? _ Hall']; subst.
    inversion Hall' as [| ? ? Hb _]; subst.
    rewrite app_nil_r, length_app in Hsum. lia.
  - inversion Hfull as [| ? ? Ha Hfull']; subst.
    inversion Hfull' as [| ? ? Hb _]; subst.
    rewrite app_nil_r, !length_app in Hsum.
    cbn [map]. repeat f_equal; lia.
  - cbn [removelast] in Hfull.
    inversion Hfull as [| ? ? Ha Hfull']; subst.
    inversion Hfull' as [| ? ? Hb Hfull'']; subst.
    assert (Hc : List.length c = 2%nat).
    { destruct l; inversion Hfull''; subst; assumption. }
    rewrite !length_app in Hsum. lia.
Qed.

(** C8: over any stream and for any batch size [B >= 1], the batches
    made durable by the session block are the parsed records in order,
    cut every [B] records: each batch but the last holds exactly [B]
    records, the last one holds what is left (between 1 and [B]), and
    nothing parsed is left out. With [B = 2] and five parsed records the
    batches have sizes 2, 2 and 1. (A commit of an empty [rows], which
    the loop also issues, is no batch.) *)
Theorem batch_writer_flushes (tk this : string) (B : Z)
        (reader : list (list string)) (t : list event) :
  0 < B ->
  session_block tk this B reader = (Ret tt, t) ->
  List.concat (batches t) = parsed_records tk None reader
  /\ Forall (fun b => Z.of_nat (List.length b) = B) (removelast (batches t))
  /\ Forall (fun b => 1 <= Z.of_nat (List.length b) <= B) (batches t)
  /\ (B = 2 ->
      List.length (parsed_records tk None reader) = 5%nat ->
      map (@List.length FxTick) (batches t) = [2; 2; 1]%nat).
Proof.
  intros HB Hrun. unfold session_block in Hrun.
  assert (Hinv0 : batch_invariant B (mkLocals None [] 0)).
  { split; cbn [l_count l_rows List.length]; [lia |].
    now rewrite Z.mod_0_l by lia. }
  destruct (for_rows tk this B reader (mkLocals None [] 0))
    as [[st | e] t1] eqn:Eloop; [| discriminate].
  destruct (for_rows_ret tk this B HB reader _ st t1 Hinv0 Eloop)
    as ([Hc Hlen] & Hem & Hall).
  cbn [l_rows l_dt app] in Hem. unfold emitted in Hem.
  pose proof (Z.mod_pos_bound (l_count st) B HB) as Hmod.
  assert (Hfull : Forall (fun b => Z.of_nat (List.length b) = B) (batches t1)).
  { unfold batches. apply Forall_forall. intros b Hb.
    apply filter_In in Hb. destruct Hb as [Hin Hne].
    rewrite Forall_forall in Hall. destruct (Hall b Hin) as [-> | Hb];
      [discriminate | exact Hb]. }
  assert (Hparts :
            List.concat (batches t) = parsed_records tk None reader
            /\ Forall (fun b => Z.of_nat (List.length b) = B)
                      (removelast (batches t))
            /\ Forall (fun b => 1 <= Z.of_nat (List.length b) <= B) (batches t)).
  { rewrite bind_Ret in Hrun. destruct (l_rows st) as [| r rs] eqn:Erows.
    - cbn [ret fst snd] in Hrun. injection Hrun as <-.
      rewrite app_nil_r in *. rewrite concat_batches.
      split; [exact Hem |]. split; [now apply Forall_removelast |].
      eapply Forall_impl; [| exact Hfull]. cbn. intros. lia.
    - cbn [emit fst snd] in Hrun. injection Hrun as <-.
      rewrite concat_batches, committed_app. unfold committed at 2. cbn [commits List.concat].
      rewrite app_nil_r. split; [exact Hem |].
      rewrite batches_app. unfold batches at 2 4. cbn [commits filter].
      rewrite removelast_last. split; [exact Hfull |].
      apply Forall_app. split.
      + eapply Forall_impl; [| exact Hfull]. cbn. intros. lia.
      + constructor; [| constructor]. cbn [List.length] in *. lia. }
  destruct Hparts as (H1 & H2 & H3).
  split; [exact H1 |]. split; [exact H2 |]. split; [exact H3 |].
  intros -> Hfive. apply five_in_batches_of_two.
  - eapply Forall_impl; [| exact H2]. cbn. intros. lia.
  - eapply Forall_impl; [| exact H3]. cbn. intros. lia.
  - now rewrite H1.
Qed.


(* ===================================================================== *)
(** ** One window from request to result *)
(* ===================================================================== *)

Lemma index_from_end_last3 {A} (pre : list A) (a b c : A) :
  PyStr.index_from_end (pre ++ [a; b; c]) 3 = Some a
  /\ PyStr.index_from_end (pre ++ [a; b; c]) 2 = Some b
  /\ PyStr.index_from_end (pre ++ [a; b; c]) 1 = Some c.
Proof.
  unfold PyStr.index_from_end. rewrite length_app. cbn [List.length].
  repeat split.
  - destruct (Nat.leb_spec 3 (List.length pre + 3)); [| lia].
    replace (List.length pre + 3 - 3)%nat with (List.length pre + 0)%nat by lia.
    now rewrite nth_error_app2, Nat.add_comm, Nat.add_sub by lia.
  - destruct (Nat.leb_spec 2 (List.length pre + 3)); [| lia].
    replace (List.length pre + 3 - 2)%nat with (List.length pre + 1)%nat by lia.
    now rewrite nth_error_app2, Nat.add_comm, Nat.add_sub by lia.
  - destruct (Nat.leb_spec 1 (List.length pre + 3)); [| lia].
    replace (List.length pre + 3 - 1)%nat with (List.length pre + 2)%nat by lia.
    now rewrite nth_error_app2, Nat.add_comm, Nat.add_sub by lia.
Qed.

(** A response that [raise_for_status] lets through, with a readable
    body: the window is what its session block is. *)
Lemma download_and_process_gz_ok remote url B pre tk yr last status
      header lines t :
  PyStr.split "/" url = pre ++ [tk; yr; last] ->
  remote url = Responded (mkResponse status (Some (header :: lines))) ->
  status < 400 \/ 600 <= status ->
  session_block tk (window_label tk yr last) B (csv_reader lines) = (Ret tt, t) ->
  download_and_process_gz remote url B
  = (Ret (true, window_label tk yr last),
     Log INFO (Downloading (window_label tk yr last))
     :: Get url
     :: Log INFO (Processing (window_label tk yr last))
     :: t ++ [Log INFO (FinishedProcessing (window_label tk yr last))]).
Proof.
  intros Hurl Hremote Hstatus Hblock.
  unfold download_and_process_gz. rewrite Hurl.
  destruct (index_from_end_last3 pre tk yr last) as (-> & -> & ->).
  unfold requests_get, raise_for_status. rewrite Hremote. wsimpl.
  cbn [status_code content].
  replace ((400 <=? status) && (status <? 600)) with false
    by (symmetry; apply andb_false_iff; lia).
  wsimpl.
  change (csv_reader (header :: lines))
    with (csv_row (PyStr.remove PyStr.NUL header) :: csv_reader lines).
  cbv iota. rewrite Hblock. wsimpl. reflexivity.
Qed.

(** A response with a client or server error status, or no response:
    the window fails with its label and commits nothing. *)
Lemma download_and_process_gz_fetch_error remote url B pre tk yr last :
  PyStr.split "/" url = pre ++ [tk; yr; last] ->
  remote url = NoResponse
  \/ (exists r, remote url = Responded r
                /\ 400 <= status_code r < 600) ->
  download_and_process_gz remote url B
  = (Ret (false, window_label tk yr last),
     [Log INFO (Downloading (window_label tk yr last)); Get url;
      Log ERROR (ErrorDownloading (window_label tk yr last))]).
Proof.
  intros Hurl Hremote.
  unfold download_and_process_gz. rewrite Hurl.
  destruct (index_from_end_last3 pre tk yr last) as (-> & -> & ->).
  unfold requests_get, raise_for_status.
  destruct Hremote as [-> | (r & -> & Hs)].
  - wsimpl. reflexivity.
  - wsimpl.
    replace ((400 <=? status_code r) && (status_code r <? 600)) with true
      by (symmetry; apply andb_true_iff; lia).
    wsimpl. reflexivity.
Qed.

(* ===================================================================== *)
(** ** Rows the parser skips, and rows it does not *)
(* ===================================================================== *)

(** C2, as the code has it: a row whose timestamp is of an accepted
    format but which lacks a bid or an ask is skipped, with a warning,
    in whatever state the loop is, and the loop goes on; and in a window
    whose body decompresses and whose rows all carry a timestamp of an
    accepted format, the window succeeds, the records committed are
    exactly the ticks of the rows that have their three fields, and the
    warnings are exactly the rows that lack one. Bid and ask go into the
    tick as the strings they are: a price that is not a number does not
    make a row unparsable. *)
Theorem rows_with_missing_fields_are_skipped
        (tk this : string) (B : Z) :
  0 < B ->
  (forall (st : locals) (f : string) (tl : list string),
      timestamp_ok f = true ->
      missing_fields (f :: tl) = true ->
      exists st' t,
        row_step tk this B st (f :: tl) = (Ret st', t)
        /\ warnings t = [ErrorParsingRow (f :: tl) this IndexError]
        /\ emitted t st' = l_rows st)
  /\ (forall (remote : string -> get_outcome) (url yr last : string)
             (pre : list string) (status : Z) (header : string)
             (lines : list string),
         PyStr.split "/" url = pre ++ [tk; yr; last] ->
         remote url = Responded (mkResponse status (Some (header :: lines))) ->
         status < 400 \/ 600 <= status ->
         Forall (fun row => match row with
                            | [] => True
                            | f :: _ => timestamp_ok f = true
                            end) (csv_reader lines) ->
         exists t,
           download_and_process_gz remote url B
           = (Ret (true, window_label tk yr last), t)
           /\ committed t = flat_map (tick_of_row tk) (csv_reader lines)
           /\ warnings t
              = map (fun row =>
                       ErrorParsingRow row (window_label tk yr last) IndexError)
                    (filter missing_fields (csv_reader lines))).
Proof.
  intros HB. split.
  - intros st f tl Hts Hmiss.
    destruct (timestamp_ok_parse f Hts) as [d Hd].
    destruct (row_step_total tk this B HB st (f :: tl))
      as (st' & t & E & _ & Hw & He).
    { now rewrite (parse_dt_match (l_dt st) f d Hd). }
    exists st', t. rewrite Hmiss in Hw. split; [exact E |]. split; [exact Hw |].
    rewrite He. destruct tl as [| b [| a tl]]; try discriminate;
      now rewrite app_nil_r.
  - intros remote url yr last pre status header lines Hurl Hremote Hstatus Hgood.
    destruct (for_rows_good tk (window_label tk yr last) B HB
                            (csv_reader lines) (mkLocals None [] 0) Hgood)
      as (st & t & Eloop & Hw & He).
    cbn [l_rows app] in He. unfold emitted in He.
    set (final := match l_rows st with
                  | [] => []
                  | _ :: _ => [Commit (l_rows st)]
                  end).
    assert (Hblock : session_block tk (window_label tk yr last) B
                                   (csv_reader lines)
                     = (Ret tt, t ++ final)).
    { unfold session_block. rewrite Eloop, bind_Ret. subst final.
      destruct (l_rows st); reflexivity. }
    assert (Hfinal : committed final = l_rows st /\ warnings final = []).
    { subst final. destruct (l_rows st); unfold committed; cbn;
        rewrite ?app_nil_r; auto. }
    destruct Hfinal as [Hc Hwf].
    eexists. split.
    + exact (download_and_process_gz_ok remote url B pre tk yr last status
               header lines _ Hurl Hremote Hstatus Hblock).
    + split.
      * change (committed (Log INFO (Downloading (window_label tk yr last))
                           :: Get url
                           :: Log INFO (Processing (window_label tk yr last))
                           :: (t ++ final)
                              ++ [Log INFO (FinishedProcessing
                                              (window_label tk yr last))]))
          with (committed ((t ++ final)
                           ++ [Log INFO (FinishedProcessing
                                           (window_label tk yr last))])).
        rewrite !committed_app, Hc, He. unfold committed at 1. cbn.
        now rewrite app_nil_r.
      * cbn [warnings]. rewrite !warnings_app, Hw, Hwf. cbn.
        now rewrite !app_nil_r.
Qed.


(** C2 as stated fails: the row has an accepted timestamp and its three
    fields, its bid is the text [abc], and it is committed with that
    bid, not skipped. *)
Lemma text_price_row_is_committed :
  csv_reader file_with_text_price
  = [["DateTime"; "Bid"; "Ask"]; ["01/02/2023 00:00:01.254"; "abc"; "1.08"]]
  /\ unparsable ["01/02/2023 00:00:01.254"; "abc"; "1.08"] = true
  /\ download_and_process_gz (serving 200 file_with_text_price) sample_url
                             default_batch_size
     = (Ret (true, "EURUSD-2023-1"),
        [Log INFO (Downloading "EURUSD-2023-1");
         Get sample_url;
         Log INFO (Processing "EURUSD-2023-1");
         Commit [mkFxTick (mkdatetime (mkdate 2023 1 2) 0 0 1 254000)
                          "abc" "1.08" "EURUSD"];
         Log INFO (FinishedProcessing "EURUSD-2023-1")]).
Proof. repeat split; vm_compute; reflexivity. Qed.

Lemma rows_with_missing_fields_are_skipped_witness :
  (exists st' t,
      row_step "EURUSD" "EURUSD-2023-1" default_batch_size
               (mkLocals None [] 0) ["01/03/2023 00:00:02.000"]
      = (Ret st', t)
      /\ warnings t
         = [ErrorParsingRow ["01/03/2023 00:00:02.000"] "EURUSD-2023-1"
                            IndexError]
      /\ emitted t st' = [])
  /\ (exists t,
         download_and_process_gz (serving 200 file_with_short_row) sample_url
                                 default_batch_size
         = (Ret (true, window_label "EURUSD" "2023" "1.csv.gz"), t)
         /\ committed t
            = flat_map (tick_of_row "EURUSD")
                       (csv_reader (tl file_with_short_row))
         /\ warnings t
            = map (fun row =>
                     ErrorParsingRow row
                       (window_label "EURUSD" "2023" "1.csv.gz") IndexError)
                  (filter missing_fields (csv_reader (tl file_with_short_row)))).
Proof.
  split.
  - apply (proj1 (rows_with_missing_fields_are_skipped
                    "EURUSD" "EURUSD-2023-1" default_batch_size
                    ltac:(reflexivity))
                 (mkLocals None [] 0) "01/03/2023 00:00:02.000" []);
      vm_compute; reflexivity.
  - apply (proj2 (rows_with_missing_fields_are_skipped
                    "EURUSD" "EURUSD-2023-1" default_batch_size
                    ltac:(reflexivity))
                 (serving 200 file_with_short_row) sample_url "2023" "1.csv.gz"
                 ["https:"; ""; "tickdata.fxcorporate.com"] 200
                 sample_header (tl file_with_short_row)).
    + vm_compute; reflexivity.
    + reflexivity.
    + left. lia.
    + unfold file_with_short_row. cbn [tl csv_reader map].
      repeat (constructor; [vm_compute; reflexivity |]). constructor.
Defined.

(** C10 at two failing inputs. In the first file the third data row has
    an unreadable timestamp and its three fields: it is not skipped, and
    the tick it adds carries the timestamp of the second row,
    2023-01-03, a row that never became a tick (it was skipped with a
    warning for its missing fields); the most recent row that was parsed
    into a tick is the first, of 2023-01-02, and no tick with that
    timestamp and the third row's prices is stored. In the second file
    a good row lies before the last row, but the first data row has an
    unreadable timestamp: the window dies there with
    [UnboundLocalError] and emits nothing. In both the outer handler,
    which names [ValueError] and logs and skips the row, is never
    reached, because the inner [except ValueError: pass] has swallowed
    the error. *)
Theorem unreadable_timestamp_row_takes_a_stale_timestamp :
  (csv_reader file_with_stale_timestamp
   = [["DateTime"; "Bid"; "Ask"];
      ["01/02/2023 00:00:01.254"; "1.07"; "1.08"];
      ["01/03/2023 00:00:02.000"];
      ["bad"; "3"; "4"]]
   /\ parsed_successfully ["01/02/2023 00:00:01.254"; "1.07"; "1.08"] = true
   /\ parsed_successfully ["01/03/2023 00:00:02.000"] = false
   /\ timestamp_ok "bad" = false
   /\ download_and_process_gz (serving 200 file_with_stale_timestamp)
                              sample_url default_batch_size
      = (Ret (true, "EURUSD-2023-1"),
         [Log INFO (Downloading "EURUSD-2023-1");
          Get sample_url;
          Log INFO (Processing "EURUSD-2023-1");
          Log WARNING (ErrorParsingRow ["01/03/2023 00:00:02.000"]
                                       "EURUSD-2023-1" IndexError);
          Commit [mkFxTick (mkdatetime (mkdate 2023 1 2) 0 0 1 254000)
                           "1.07" "1.08" "EURUSD";
                  mkFxTick (mkdatetime (mkdate 2023 1 3) 0 0 2 0)
                           "3" "4" "EURUSD"];
          Log INFO (FinishedProcessing "EURUSD-2023-1")])
   /\ ~ In (mkFxTick (mkdatetime (mkdate 2023 1 2) 0 0 1 254000)
                     "3" "4" "EURUSD")
           (committed
              (snd (download_and_process_gz
                      (serving 200 file_with_stale_timestamp) sample_url
                      default_batch_size))))
  /\ (csv_reader file_with_unreadable_first_row
      = [["DateTime"; "Bid"; "Ask"];
         ["bad"; "1"; "2"];
         ["01/02/2023 00:00:01.254"; "1.07"; "1.08"];
         ["bad"; "3"; "4"]]
      /\ parsed_successfully ["01/02/2023 00:00:01.254"; "1.07"; "1.08"] = true
      /\ download_and_process_gz (serving 200 file_with_unreadable_first_row)
                                 sample_url default_batch_size
         = (Raise UnboundLocalError,
            [Log INFO (Downloading "EURUSD-2023-1");
             Get sample_url;
             Log INFO (Processing "EURUSD-2023-1")])).
Proof.
  split.
  - repeat split; try (vm_compute; reflexivity).
    vm_compute. intros [H | [H | []]]; discriminate H.
  - repeat split; vm_compute; reflexivity.
Qed.

Lemma batch_writer_flushes_witness :
  List.concat
    (batches (snd (session_block "EURUSD" "EURUSD-2023-1" 2
                                 (csv_reader (tl file_with_five_rows)))))
  = parsed_records "EURUSD" None (csv_reader (tl file_with_five_rows))
  /\ map (@List.length FxTick)
         (batches (snd (session_block "EURUSD" "EURUSD-2023-1" 2
                          (csv_reader (tl file_with_five_rows)))))
     = [2; 2; 1]%nat.
Proof.
  destruct (batch_writer_flushes "EURUSD" "EURUSD-2023-1" 2
              (csv_reader (tl file_with_five_rows))
              (snd (session_block "EURUSD" "EURUSD-2023-1" 2
                      (csv_reader (tl file_with_five_rows)))))
    as (Hall & _ & _ & Hsizes).
  - reflexivity.
  - vm_compute; reflexivity.
  - split; [exact Hall |]. apply Hsizes; reflexivity.
Defined.

Lemma sequential_fail_fast_parallel_fail_independent_witness :
  (download_tick_data archive_without_2019_week_2 "EURUSD"
                      (mkdate 2019 1 1) (Some (mkdate 2019 2 1)) false 4
   = (Ret (false, "EURUSD-2019-2"),
      [Log INFO (Downloading "EURUSD-2019-1");
       Get "https://tickdata.fxcorporate.com/EURUSD/2019/1.csv.gz";
       Log INFO (Processing "EURUSD-2019-1");
       Log INFO (FinishedProcessing "EURUSD-2019-1");
       Sleep;
       Log INFO (Downloading "EURUSD-2019-2");
       Get "https://tickdata.fxcorporate.com/EURUSD/2019/2.csv.gz";
       Log ERROR (ErrorDownloading "EURUSD-2019-2");
       Log WARNING (FailedToDownload "EURUSD-2019-2")])
   /\ fetched (snd (download_tick_data archive_without_2019_week_2 "EURUSD"
                      (mkdate 2019 1 1) (Some (mkdate 2019 2 1)) false 4))
      = ["https://tickdata.fxcorporate.com/EURUSD/2019/1.csv.gz";
         "https://tickdata.fxcorporate.com/EURUSD/2019/2.csv.gz"])
  /\ (fst (download_tick_data archive_without_2019_week_2 "EURUSD"
                      (mkdate 2019 1 1) (Some (mkdate 2019 2 1)) true 4)
      = Ret (true, "EURUSD")
      /\ submitted (snd (download_tick_data archive_without_2019_week_2 "EURUSD"
                           (mkdate 2019 1 1) (Some (mkdate 2019 2 1)) true 4))
         = ["https://tickdata.fxcorporate.com/EURUSD/2019/1.csv.gz";
            "https://tickdata.fxcorporate.com/EURUSD/2019/2.csv.gz";
            "https://tickdata.fxcorporate.com/EURUSD/2019/3.csv.gz";
            "https://tickdata.fxcorporate.com/EURUSD/2019/4.csv.gz";
            "https://tickdata.fxcorporate.com/EURUSD/2019/5.csv.gz"]
      /\ fetched (snd (download_tick_data archive_without_2019_week_2 "EURUSD"
                         (mkdate 2019 1 1) (Some (mkdate 2019 2 1)) true 4))
         = ["https://tickdata.fxcorporate.com/EURUSD/2019/1.csv.gz";
            "https://tickdata.fxcorporate.com/EURUSD/2019/2.csv.gz";
            "https://tickdata.fxcorporate.com/EURUSD/2019/3.csv.gz";
            "https://tickdata.fxcorporate.com/EURUSD/2019/4.csv.gz";
            "https://tickdata.fxcorporate.com/EURUSD/2019/5.csv.gz"]).
Proof.
  split.
  - apply (proj1 (sequential_fail_fast_parallel_fail_independent
                    archive_without_2019_week_2 "EURUSD"
                    (mkdate 2019 1 1) (mkdate 2019 2 1) 4)
                 ["https://tickdata.fxcorporate.com/EURUSD/2019/1.csv.gz"]
                 "https://tickdata.fxcorporate.com/EURUSD/2019/2.csv.gz"
                 [Some "https://tickdata.fxcorporate.com/EURUSD/2019/3.csv.gz";
                  Some "https://tickdata.fxcorporate.com/EURUSD/2019/4.csv.gz";
                  Some "https://tickdata.fxcorporate.com/EURUSD/2019/5.csv.gz"]
                 "EURUSD-2019-2").
    + vm_compute; reflexivity.
    + constructor; [| constructor]. exists "EURUSD-2019-1". vm_compute; reflexivity.
    + vm_compute; reflexivity.
  - destruct (proj2 (sequential_fail_fast_parallel_fail_independent
                       archive_without_2019_week_2 "EURUSD"
                       (mkdate 2019 1 1) (mkdate 2019 2 1) 4)
                    ["https://tickdata.fxcorporate.com/EURUSD/2019/1.csv.gz";
                     "https://tickdata.fxcorporate.com/EURUSD/2019/2.csv.gz";
                     "https://tickdata.fxcorporate.com/EURUSD/2019/3.csv.gz";
                     "https://tickdata.fxcorporate.com/EURUSD/2019/4.csv.gz";
                     "https://tickdata.fxcorporate.com/EURUSD/2019/5.csv.gz"])
      as (Hrun & Hsub & Hget).
    + lia.
    + vm_compute; reflexivity.
    + split; [now rewrite Hrun |]. split; [exact Hsub | exact Hget].
Defined.

(* ===================================================================== *)
(** ** Where the code does not do what it sets out to do *)
(* ===================================================================== *)

(** The stored ticks have no part in what [downloader] does: the test
    [isinstance(latest_tick, datetime.datetime)] is false for [None] and
    for an [FxTick] alike. *)
Lemma get_latest_is_no_datetime (fx_tick : list FxTick) (tk : string) :
  isinstance_datetime (get_latest fx_tick tk) = false.
Proof. unfold get_latest. destruct (newest _ None); reflexivity. Qed.

Lemma for_instruments_ignores_store remote start_date end_date multiprocess
      date_to (fx_tick fx_tick' : list FxTick) (instruments : list Instrument) :
  for_instruments remote start_date end_date multiprocess date_to fx_tick
                  instruments
  = for_instruments remote start_date end_date multiprocess date_to fx_tick'
                    instruments.
Proof.
  revert fx_tick fx_tick'.
  induction instruments as [| i instruments IH]; intros fx_tick fx_tick';
    [reflexivity |].
  cbn [for_instruments]. rewrite !get_latest_is_no_datetime. cbv iota beta.
  unfold ret.
  destruct (download_tick_data remote (instrument_ticket i) start_date end_date
                               multiprocess 4) as [[r | e] t1]; [| reflexivity].
  now rewrite (IH (fx_tick ++ committed t1) (fx_tick' ++ committed t1)).
Qed.

(** C1 at a failing input: EURUSD has a stored tick of 2019-01-20, the
    run is asked for the range up to 2019-02-01 with no start date. The
    run is the same as on an empty store; it requests the weeks 1 to 5
    of 2019, from the archive epoch 2019-01-01, where a start on the day
    after the stored tick, 2019-01-21, would begin at week 4. *)
Theorem downloader_ignores_the_latest_tick :
  (forall remote today instruments fx_tick tickets start_date end_date
          multiprocess,
      downloader remote today instruments fx_tick tickets start_date end_date
                 multiprocess
      = downloader remote today instruments [] tickets start_date end_date
                   multiprocess)
  /\ get_latest [stored_tick] "EURUSD" = PyFxTick stored_tick
  /\ fetched (snd (downloader (serving 200 [sample_header]) (mkdate 2023 6 15)
                              [eurusd] [stored_tick] None
                              ArgNone (ArgDate (mkdate 2019 2 1)) false))
     = ["https://tickdata.fxcorporate.com/EURUSD/2019/1.csv.gz";
        "https://tickdata.fxcorporate.com/EURUSD/2019/2.csv.gz";
        "https://tickdata.fxcorporate.com/EURUSD/2019/3.csv.gz";
        "https://tickdata.fxcorporate.com/EURUSD/2019/4.csv.gz";
        "https://tickdata.fxcorporate.com/EURUSD/2019/5.csv.gz"]
  /\ add_days (dt_date (dt stored_tick)) 1 = Some (mkdate 2019 1 21)
  /\ window_url "EURUSD" (mkdate 2019 1 21) 0
     = Some "https://tickdata.fxcorporate.com/EURUSD/2019/4.csv.gz".
Proof.
  split.
  - intros. unfold downloader.
    apply bind_ext. intros d. apply bind_ext. intros date_to.
    apply for_instruments_ignores_store.
  - repeat split; vm_compute; reflexivity.
Qed.

(** With [end_date=None] every call of [download_tick_data] receives
    [None] as [d1] and ends in the [TypeError] handler. *)
Lemma download_tick_data_without_end_date remote tk d0 multiprocess n :
  download_tick_data remote tk d0 None multiprocess n
  = (Ret (false, tk), [Log ERROR (UnexpectedError tk TypeError)]).
Proof. reflexivity. Qed.

Lemma for_instruments_without_end_date remote start_date multiprocess date_to
      fx_tick (instruments : list Instrument) :
  fetched (snd (for_instruments remote start_date None multiprocess date_to
                                fx_tick instruments)) = []
  /\ submitted (snd (for_instruments remote start_date None multiprocess
                                     date_to fx_tick instruments)) = [].
Proof.
  revert fx_tick.
  induction instruments as [| i instruments IH]; intros fx_tick;
    [split; reflexivity |].
  cbn [for_instruments]. rewrite get_latest_is_no_datetime. cbv iota beta.
  unfold ret. rewrite download_tick_data_without_end_date.
  destruct (IH (fx_tick ++ committed
                  [Log ERROR (UnexpectedError (instrument_ticket i) TypeError)]))
    as [Hf Hs].
  destruct (for_instruments remote start_date None multiprocess date_to _
                            instruments) as [o t2].
  cbn [snd app fetched submitted] in *. auto.
Qed.

(** C3 at a failing input: on 2023-06-15, with a start date of
    2023-05-01 and no end date, the last day of the previous month is
    2023-05-31 and five windows lie in between; the run requests none
    and logs a [TypeError] for the instrument. The same holds for every
    call without an end date: nothing is requested, nothing is handed to
    a pool. *)
Theorem downloader_without_end_date_dispatches_nothing :
  (forall remote today instruments fx_tick tickets start_date multiprocess,
      fetched (snd (downloader remote today instruments fx_tick tickets
                               start_date ArgNone multiprocess)) = []
      /\ submitted (snd (downloader remote today instruments fx_tick tickets
                                    start_date ArgNone multiprocess)) = [])
  /\ last_day_of_previous_month (mkdate 2023 6 15) = Some (mkdate 2023 5 31)
  /\ weeks_between_dates (mkdate 2023 5 1) (mkdate 2023 5 31) = 5
  /\ downloader (serving 200 [sample_header]) (mkdate 2023 6 15)
                [eurusd] [] None (ArgDate (mkdate 2023 5 1)) ArgNone false
     = (Ret tt, [Log ERROR (UnexpectedError "EURUSD" TypeError)]).
Proof.
  split; [| repeat split; vm_compute; reflexivity].
  intros. unfold downloader.
  destruct start_date as [| d |]; [| | split; reflexivity];
    rewrite bind_ret_l;
    (destruct (last_day_of_previous_month today) as [d' |];
     [| split; reflexivity]);
    rewrite bind_ret_l; apply for_instruments_without_end_date.
Qed.

(** C9 at a failing input: the archive answers 300 with a readable body.
    [raise_for_status] raises for 400 to 599 only, the window goes on,
    commits the row and reports success. *)
Theorem window_with_status_300_succeeds :
  fst (raise_for_status (mkResponse 300 (Some file_with_one_row))) = Ret tt
  /\ download_and_process_gz (serving 300 file_with_one_row) sample_url
                             default_batch_size
     = (Ret (true, "EURUSD-2023-1"),
        [Log INFO (Downloading "EURUSD-2023-1");
         Get sample_url;
         Log INFO (Processing "EURUSD-2023-1");
         Commit [mkFxTick (mkdatetime (mkdate 2023 1 2) 0 0 1 0)
                          "1.01" "1.02" "EURUSD"];
         Log INFO (FinishedProcessing "EURUSD-2023-1")]).
Proof. split; vm_compute; reflexivity. Qed.


(* ===================================================================== *)
(** * Further properties of the pipeline *)
(* ===================================================================== *)

(** ** The window count and the range *)

Lemma In_range (i n : Z) : In i (range n) <-> 0 <= i < n.
Proof.
  unfold range. rewrite in_map_iff. split.
  - intros (k & <- & Hk). apply in_seq in Hk. lia.
  - intros Hi. exists (Z.to_nat i). split; [lia |]. apply in_seq. lia.
Qed.

(** X2: swapping the dates does not simply change the sign: the two
    counts cancel when the dates are a whole number of weeks apart and
    add up to one otherwise. *)
Theorem weeks_between_dates_swapped (d0 d1 : date) :
  weeks_between_dates d1 d0
  = (if days_between d0 d1 mod 7 =? 0 then 0 else 1)
    - weeks_between_dates d0 d1.
Proof.
  pose proof (weeks_between_dates_bounds d0 d1) as H1.
  pose proof (weeks_between_dates_bounds d1 d0) as H2.
  unfold days_between in *.
  destruct (Z.eqb_spec ((toordinal d1 - toordinal d0) mod 7) 0) as [Hz | Hnz].
  - apply Z.mod_divide in Hz; [| lia]. destruct Hz as [k Hk]. lia.
  - assert (7 * weeks_between_dates d0 d1 <> toordinal d1 - toordinal d0).
    { intros E. apply Hnz. rewrite <- E, Z.mul_comm. apply Z.mod_mul. lia. }
    lia.
Qed.


(** ** [download_tick_data]: what it returns and what it requests *)

Section Calls.

Variable remote : string -> get_outcome.
Variables (tk : string) (d0 : date).

(** In parallel mode the loop never returns from the function. *)
Lemma for_weeks_parallel_shape (rs : option (list string)) (js : list Z) :
  match fst (for_weeks remote tk d0 true rs js) with
  | Ret (Return _) => False
  | _ => True
  end.
Proof.
  revert rs. induction js as [| i js IH]; intros rs; [exact I |].
  cbn [for_weeks]. unfold week_step.
  destruct (window_url tk d0 i) as [url |]; [| exact I].
  destruct rs as [rs |]; wsimpl; [| exact I].
  apply IH.
Qed.

(** The requests of the sequential loop follow the list of windows, from
    its first element, without a gap. *)
Lemma for_weeks_fetched_prefix (rs : option (list string)) (js : list Z) :
  exists rest,
    map Some (fetched (snd (for_weeks remote tk d0 false rs js))) ++ rest
    = map (window_url tk d0) js.
Proof.
  induction js as [| i js IH]; [exists []; reflexivity |].
  cbn [for_weeks map]. unfold week_step.
  destruct (window_url tk d0 i) as [url |] eqn:Eurl;
    [| exists (None :: map (window_url tk d0) js); reflexivity].
  pose proof (download_and_process_gz_fetched remote url default_batch_size
                (window_url_parts _ _ _ _ Eurl)) as Hget.
  destruct (download_and_process_gz remote url default_batch_size)
    as [[[ok lbl] | e] t]; cbn [snd] in Hget.
  - destruct ok; wsimpl.
    + destruct IH as [rest IH]. exists rest.
      rewrite !fetched_app, Hget. cbn [fetched app map]. now rewrite IH.
    + exists (map (window_url tk d0) js).
      rewrite fetched_app, Hget. reflexivity.
  - wsimpl. exists (map (window_url tk d0) js). now rewrite Hget.
Qed.

(** So do the submissions of the parallel loop. *)
Lemma for_weeks_submitted_prefix (rs : option (list string)) (js : list Z) :
  exists rest,
    map Some (submitted (snd (for_weeks remote tk d0 true rs js))) ++ rest
    = map (window_url tk d0) js.
Proof.
  revert rs. induction js as [| i js IH]; intros rs; [exists []; reflexivity |].
  cbn [for_weeks map]. unfold week_step.
  destruct (window_url tk d0 i) as [url |] eqn:Eurl;
    [| exists (None :: map (window_url tk d0) js); reflexivity].
  destruct rs as [rs |]; wsimpl.
  - destruct (IH (Some (rs ++ [url]))) as [rest IH']. exists rest.
    cbn [submitted map app]. now rewrite IH'.
  - exists (map (window_url tk d0) js). reflexivity.
Qed.

End Calls.

Lemma sequential_call_takes_a_prefix remote tk d0 d1 num_processes :
  exists rest,
    map Some (fetched (snd (download_tick_data remote tk d0 (Some d1) false
                                               num_processes))) ++ rest
    = windows tk d0 d1.
Proof.
  unfold windows, download_tick_data. rewrite !bind_ret_l.
  destruct (for_weeks_fetched_prefix remote tk d0 None
              (range (weeks_between_dates d0 d1))) as [rest Hp].
  exists rest. rewrite <- Hp. f_equal. f_equal.
  pose proof (for_weeks_sequential_shape remote tk d0
                (range (weeks_between_dates d0 d1))) as Hs.
  destruct (for_weeks remote tk d0 false None
                      (range (weeks_between_dates d0 d1)))
    as [[[rs | r] | e] t]; cbn [fst snd] in *.
  - subst rs. wsimpl. now rewrite fetched_app, app_nil_r.
  - wsimpl. reflexivity.
  - wsimpl. destruct e; cbn [snd]; now rewrite fetched_app, app_nil_r.
Qed.

Lemma parallel_call_takes_a_prefix remote tk d0 d1 num_processes :
  exists rest,
    map Some (submitted (snd (download_tick_data remote tk d0 (Some d1) true
                                                 num_processes))) ++ rest
    = windows tk d0 d1.
Proof.
  unfold windows, download_tick_data. rewrite !bind_ret_l.
  destruct (num_processes <? 1).
  { exists (map (window_url tk d0) (range (weeks_between_dates d0 d1))).
    reflexivity. }
  wsimpl.
  destruct (for_weeks_submitted_prefix remote tk d0 (Some [])
              (range (weeks_between_dates d0 d1))) as [rest Hp].
  exists rest. rewrite <- Hp. f_equal. f_equal.
  destruct (for_weeks remote tk d0 true (Some [])
                      (range (weeks_between_dates d0 d1)))
    as [[[rs | r] | e] t]; cbn [fst snd] in *.
  - wsimpl. unfold pool_join. rewrite run_tasks_trace. wsimpl.
    destruct rs as [rs |]; wsimpl;
      repeat first [ progress cbn [submitted flat_map app]
                   | rewrite submitted_app
                   | rewrite submitted_parallel_runs
                   | rewrite app_nil_r ];
      reflexivity.
  - wsimpl. reflexivity.
  - wsimpl. destruct e; cbn [snd submitted];
      now rewrite submitted_app, app_nil_r.
Qed.

(** X4: in either mode the windows are taken in the order of the range,
    from the first, one after the other: the URLs requested by a
    sequential call, and the URLs submitted by a parallel call, are a
    prefix of the list of windows. No window is skipped and none is
    taken out of order. *)
Theorem windows_are_taken_in_order
        (remote : string -> get_outcome) (tk : string) (d0 d1 : date)
        (num_processes : Z) :
  (exists rest,
      map Some (fetched (snd (download_tick_data remote tk d0 (Some d1) false
                                                 num_processes))) ++ rest
      = windows tk d0 d1)
  /\ (exists rest,
         map Some (submitted (snd (download_tick_data remote tk d0 (Some d1)
                                                      true num_processes)))
         ++ rest
         = windows tk d0 d1).
Proof.
  split; [apply sequential_call_takes_a_prefix | apply parallel_call_takes_a_prefix].
Qed.


(** ** One window: when it succeeds, when it dies, what it stores *)

Lemma parse_dt_bound (d : datetime) (f : string) : parse_dt (Some d) f <> None.
Proof.
  rewrite parse_dt_unfold.
  destruct (Strptime.strptime f "%m-%d-%Y %H:%M:%S.%f"); [discriminate |].
  destruct (Strptime.strptime f "%m/%d/%Y %H:%M:%S.%f"); discriminate.
Qed.

Section WindowBody.

Variables (tk this : string) (B : Z).
Hypothesis B_positive : 0 < B.

(** Once [dt] is bound the loop reads the stream to its end. *)
Lemma for_rows_bound (reader : list (list string)) (st : locals) :
  l_dt st <> None ->
  exists st' t, for_rows tk this B reader st = (Ret st', t).
Proof.
  revert st. induction reader as [| row reader IH]; intros st Hdt.
  - exists st, []. reflexivity.
  - destruct (l_dt st) as [d |] eqn:Ed; [| contradiction].
    destruct (row_step_total tk this B B_positive st row)
      as (st1 & t1 & E1 & Hd1 & _).
    { destruct row; [exact I |]. rewrite Ed. apply parse_dt_bound. }
    destruct (IH st1) as (st2 & t2 & E2).
    { rewrite Hd1. destruct row; rewrite Ed; [discriminate |].
      apply parse_dt_bound. }
    exists st2, (t1 ++ t2). cbn [for_rows]. now rewrite E1, bind_Ret, E2.
Qed.

Lemma for_rows_first_timestamp (reader : list (list string)) (st : locals) :
  first_row_has_timestamp reader = true ->
  exists st' t, for_rows tk this B reader st = (Ret st', t).
Proof.
  revert st. induction reader as [| row reader IH]; intros st Hfirst.
  - exists st, []. reflexivity.
  - destruct row as [| f tl].
    + destruct (row_step_total tk this B B_positive st []) as (st1 & t1 & E1 & _);
        [exact I |].
      destruct (IH st1 Hfirst) as (st2 & t2 & E2).
      exists st2, (t1 ++ t2). cbn [for_rows]. now rewrite E1, bind_Ret, E2.
    + unfold first_row_has_timestamp in Hfirst. cbn in Hfirst.
      destruct (timestamp_ok_parse f Hfirst) as [d Hd].
      pose proof (parse_dt_match (l_dt st) f d Hd) as Hd'.
      destruct (row_step_total tk this B B_positive st (f :: tl))
        as (st1 & t1 & E1 & Hd1 & _).
      { rewrite Hd'. discriminate. }
      destruct (for_rows_bound reader st1) as (st2 & t2 & E2).
      { rewrite Hd1, Hd'. discriminate. }
      exists st2, (t1 ++ t2). cbn [for_rows]. now rewrite E1, bind_Ret, E2.
Qed.

(** A first data row without an accepted timestamp: the loop dies on
    it, having committed nothing but empty batches for the blank lines
    before it. *)
Lemma for_rows_first_no_timestamp (reader : list (list string)) :
  first_row_has_timestamp reader = false ->
  exists t,
    for_rows tk this B reader (mkLocals None [] 0)
    = (Raise UnboundLocalError, t)
    /\ committed t = [] /\ warnings t = [].
Proof.
  induction reader as [| row reader IH]; intros Hfirst; [discriminate |].
  destruct row as [| f tl].
  - destruct (IH Hfirst) as (t & E & Hc & Hw).
    exists (Commit [] :: t). cbn [for_rows]. unfold row_step.
    rewrite bind_ret_l. unfold batch_check. cbn [l_count l_rows l_dt].
    destruct (Z.eqb_spec B 0) as [? | _]; [lia |].
    rewrite Z.mod_0_l by lia. cbn [Z.eqb]. wsimpl. rewrite E. wsimpl.
    repeat split; assumption.
  - unfold first_row_has_timestamp in Hfirst. cbn in Hfirst.
    exists []. cbn [for_rows]. unfold row_step. rewrite try_row_cons.
    cbn [l_dt]. rewrite (parse_dt_no_match None f Hfirst).
    cbn [row_handler_catches]. repeat split; reflexivity.
Qed.

(** A session block that ends has committed the parsed records, all of
    them and in order. *)
Lemma session_block_committed (reader : list (list string)) (t : list event) :
  session_block tk this B reader = (Ret tt, t) ->
  committed t = parsed_records tk None reader.
Proof.
  intros Hrun. unfold session_block in Hrun.
  assert (Hinv0 : batch_invariant B (mkLocals None [] 0)).
  { split; cbn [l_count l_rows List.length]; [lia |].
    now rewrite Z.mod_0_l by lia. }
  destruct (for_rows tk this B reader (mkLocals None [] 0))
    as [[st | e] t1] eqn:Eloop; [| discriminate].
  destruct (for_rows_ret tk this B B_positive reader _ st t1 Hinv0 Eloop)
    as (_ & Hem & _).
  cbn [l_rows l_dt app] in Hem. unfold emitted in Hem.
  rewrite bind_Ret in Hrun. destruct (l_rows st) as [| r rs].
  - cbn [ret fst snd] in Hrun. injection Hrun as <-.
    now rewrite !app_nil_r in *.
  - cbn [emit fst snd] in Hrun. injection Hrun as <-.
    rewrite committed_app. unfold committed at 2. cbn [commits List.concat].
    now rewrite app_nil_r.
Qed.

End WindowBody.

(** A session block that dies takes the window with it, when the
    exception is not one the window handles. *)
Lemma download_and_process_gz_dies remote url B pre tk yr last status
      header lines e t :
  PyStr.split "/" url = pre ++ [tk; yr; last] ->
  remote url = Responded (mkResponse status (Some (header :: lines))) ->
  status < 400 \/ 600 <= status ->
  session_block tk (window_label tk yr last) B (csv_reader lines) = (Raise e, t) ->
  e <> RequestException -> e <> BadGzipFile ->
  download_and_process_gz remote url B
  = (Raise e,
     Log INFO (Downloading (window_label tk yr last))
     :: Get url
     :: Log INFO (Processing (window_label tk yr last)) :: t).
Proof.
  intros Hurl Hremote Hstatus Hblock He1 He2.
  unfold download_and_process_gz. rewrite Hurl.
  destruct (index_from_end_last3 pre tk yr last) as (-> & -> & ->).
  unfold requests_get, raise_for_status. rewrite Hremote. wsimpl.
  cbn [status_code content].
  replace ((400 <=? status) && (status <? 600)) with false
    by (symmetry; apply andb_false_iff; lia).
  wsimpl.
  change (csv_reader (header :: lines))
    with (csv_row (PyStr.remove PyStr.NUL header) :: csv_reader lines).
  cbv iota. rewrite Hblock. wsimpl.
  destruct e; try contradiction; reflexivity.
Qed.

(** X5: a window whose response passes the status check and whose body
    is plain text of at least a header line (ASCII, no quote character,
    no line over the field limit) ends in one of two ways. If there is
    no data row, or the first data row has a timestamp of an accepted
    format, it returns [(True, label)] and has committed exactly the
    parsed records. Otherwise it raises [UnboundLocalError] (it does not
    return a failure) and has committed nothing. *)
Theorem window_succeeds_or_dies_on_first_row
        (remote : string -> get_outcome) (url tk yr last : string)
        (pre : list string) (status : Z) (header : string)
        (lines : list string) (B : Z) :
  0 < B ->
  PyStr.split "/" url = pre ++ [tk; yr; last] ->
  remote url = Responded (mkResponse status (Some (header :: lines))) ->
  status < 400 \/ 600 <= status ->
  forallb plain_line (header :: lines) = true ->
  (first_row_has_timestamp (csv_reader lines) = true /\
   fst (download_and_process_gz remote url B)
   = Ret (true, window_label tk yr last) /\
   committed (snd (download_and_process_gz remote url B))
   = parsed_records tk None (csv_reader lines))
  \/ (first_row_has_timestamp (csv_reader lines) = false /\
      fst (download_and_process_gz remote url B) = Raise UnboundLocalError /\
      committed (snd (download_and_process_gz remote url B)) = []).
Proof.
  intros HB Hurl Hremote Hstatus _.
  destruct (first_row_has_timestamp (csv_reader lines)) eqn:Hfirst.
  - left. split; [reflexivity |].
    destruct (for_rows_first_timestamp tk (window_label tk yr last) B HB
                (csv_reader lines) (mkLocals None [] 0) Hfirst)
      as (st & t & Eloop).
    set (final := match l_rows st with
                  | [] => []
                  | _ :: _ => [Commit (l_rows st)]
                  end).
    assert (Hblock : session_block tk (window_label tk yr last) B
                                   (csv_reader lines)
                     = (Ret tt, t ++ final)).
    { unfold session_block. rewrite Eloop, bind_Ret. subst final.
      destruct (l_rows st); reflexivity. }
    rewrite (download_and_process_gz_ok remote url B pre tk yr last status
               header lines _ Hurl Hremote Hstatus Hblock).
    split; [reflexivity |]. cbn [snd].
    rewrite <- (session_block_committed tk _ B HB _ _ Hblock).
    unfold committed. cbn [commits]. rewrite commits_app. cbn [commits].
    now rewrite app_nil_r.
  - right. split; [reflexivity |].
    destruct (for_rows_first_no_timestamp tk (window_label tk yr last) B HB
                (csv_reader lines) Hfirst) as (t & Eloop & Hc & _).
    assert (Hblock : session_block tk (window_label tk yr last) B
                                   (csv_reader lines)
                     = (Raise UnboundLocalError, t)).
    { unfold session_block. now rewrite Eloop, bind_Raise. }
    rewrite (download_and_process_gz_dies remote url B pre tk yr last status
               header lines _ _ Hurl Hremote Hstatus Hblock);
      [| discriminate | discriminate].
    split; [reflexivity |]. exact Hc.
Qed.

Lemma window_succeeds_or_dies_on_first_row_witness :
  (first_row_has_timestamp (csv_reader (tl file_with_stale_timestamp)) = true /\
   fst (download_and_process_gz (serving 200 file_with_stale_timestamp)
                                sample_url default_batch_size)
   = Ret (true, window_label "EURUSD" "2023" "1.csv.gz") /\
   committed (snd (download_and_process_gz
                     (serving 200 file_with_stale_timestamp)
                     sample_url default_batch_size))
   = parsed_records "EURUSD" None (csv_reader (tl file_with_stale_timestamp)))
  \/ (first_row_has_timestamp (csv_reader (tl file_with_stale_timestamp))
      = false /\
      fst (download_and_process_gz (serving 200 file_with_stale_timestamp)
                                   sample_url default_batch_size)
      = Raise UnboundLocalError /\
      committed (snd (download_and_process_gz
                        (serving 200 file_with_stale_timestamp)
                        sample_url default_batch_size)) = []).
Proof.
  apply (window_succeeds_or_dies_on_first_row
           (serving 200 file_with_stale_timestamp) sample_url
           "EURUSD" "2023" "1.csv.gz"
           ["https:"; ""; "tickdata.fxcorporate.com"] 200
           sample_header (tl file_with_stale_timestamp) default_batch_size).
  - reflexivity.
  - vm_compute; reflexivity.
  - reflexivity.
  - left. lia.
  - vm_compute; reflexivity.
Defined.


(** X6: a body that is not gzip data makes the window fail in the
    ordinary way: [(False, label)], an error record, nothing committed.
    A body that decompresses to no line at all is another matter: the
    skip of the header raises [StopIteration], which the window does not
    handle, so the call raises instead of returning. *)
Theorem window_with_unreadable_or_empty_body
        (remote : string -> get_outcome) (url tk yr last : string)
        (pre : list string) (status : Z) (B : Z) :
  PyStr.split "/" url = pre ++ [tk; yr; last] ->
  status < 400 \/ 600 <= status ->
  (remote url = Responded (mkResponse status None) ->
   download_and_process_gz remote url B
   = (Ret (false, window_label tk yr last),
      [Log INFO (Downloading (window_label tk yr last)); Get url;
       Log INFO (Processing (window_label tk yr last));
       Log ERROR (ErrorProcessingGzipped (window_label tk yr last))]))
  /\ (remote url = Responded (mkResponse status (Some [])) ->
      download_and_process_gz remote url B
      = (Raise StopIteration,
         [Log INFO (Downloading (window_label tk yr last)); Get url;
          Log INFO (Processing (window_label tk yr last))])).
Proof.
  intros Hurl Hstatus.
  assert (Hpass : (400 <=? status) && (status <? 600) = false)
    by (apply andb_false_iff; lia).
  split; intros Hremote; unfold download_and_process_gz; rewrite Hurl;
    destruct (index_from_end_last3 pre tk yr last) as (-> & -> & ->);
    unfold requests_get, raise_for_status; rewrite Hremote; wsimpl;
    cbn [status_code content]; rewrite Hpass; wsimpl; reflexivity.
Qed.

Lemma window_with_unreadable_or_empty_body_witness :
  download_and_process_gz (fun _ => Responded (mkResponse 200 None))
                          sample_url default_batch_size
  = (Ret (false, window_label "EURUSD" "2023" "1.csv.gz"),
     [Log INFO (Downloading (window_label "EURUSD" "2023" "1.csv.gz"));
      Get sample_url;
      Log INFO (Processing (window_label "EURUSD" "2023" "1.csv.gz"));
      Log ERROR (ErrorProcessingGzipped
                   (window_label "EURUSD" "2023" "1.csv.gz"))])
  /\ download_and_process_gz (serving 200 []) sample_url default_batch_size
     = (Raise StopIteration,
        [Log INFO (Downloading (window_label "EURUSD" "2023" "1.csv.gz"));
         Get sample_url;
         Log INFO (Processing (window_label "EURUSD" "2023" "1.csv.gz"))]).
Proof.
  split.
  - apply (proj1 (window_with_unreadable_or_empty_body
                    (fun _ => Responded (mkResponse 200 None)) sample_url
                    "EURUSD" "2023" "1.csv.gz"
                    ["https:"; ""; "tickdata.fxcorporate.com"] 200
                    default_batch_size
                    ltac:(vm_compute; reflexivity) ltac:(left; lia))).
    reflexivity.
  - apply (proj2 (window_with_unreadable_or_empty_body
                    (serving 200 []) sample_url
                    "EURUSD" "2023" "1.csv.gz"
                    ["https:"; ""; "tickdata.fxcorporate.com"] 200
                    default_batch_size
                    ltac:(vm_compute; reflexivity) ltac:(left; lia))).
    reflexivity.
Defined.


(** ** Where the stored records come from *)

Lemma parse_dt_cases (dt0 : option datetime) (f : string) :
  parse_dt dt0 f = dt0
  \/ (exists d, parse_dt None f = Some d /\ parse_dt dt0 f = Some d).
Proof.
  destruct (timestamp_ok f) eqn:E.
  - right. destruct (timestamp_ok_parse f E) as [d Hd].
    exists d. split; [exact Hd | now apply parse_dt_match].
  - left. now apply parse_dt_no_match.
Qed.

Section Provenance.

Variables (tk this : string) (B : Z).
Variable all : list (list string).

(** A tick made of the fields of the stream: the ticket of the window,
    bid and ask from one row, the timestamp read from a row. *)
Let from_stream (x : FxTick) : Prop :=
  ticket x = tk
  /\ (exists row, In row all /\ nth_error row 1 = Some (bid x)
                  /\ nth_error row 2 = Some (ask x))
  /\ (exists row f, In row all /\ nth_error row 0 = Some f
                    /\ parse_dt None f = Some (dt x)).

Let read_from_stream (o : option datetime) : Prop :=
  forall d, o = Some d ->
            exists row f, In row all /\ nth_error row 0 = Some f
                          /\ parse_dt None f = Some d.

Lemma batch_check_provenance (st : locals) :
  Forall from_stream (l_rows st) -> read_from_stream (l_dt st) ->
  Forall from_stream (committed (snd (batch_check B st)))
  /\ match fst (batch_check B st) with
     | Ret st' => Forall from_stream (l_rows st') /\ read_from_stream (l_dt st')
     | Raise _ => True
     end.
Proof.
  intros Hrows Hdt. unfold batch_check.
  destruct (B =? 0); [split; [constructor | exact I] |].
  destruct (l_count st mod B =? 0); cbn; unfold committed; cbn.
  - rewrite app_nil_r. auto.
  - auto.
Qed.

Lemma row_step_provenance (st : locals) (row : list string) :
  In row all ->
  Forall from_stream (l_rows st) -> read_from_stream (l_dt st) ->
  Forall from_stream (committed (snd (row_step tk this B st row)))
  /\ match fst (row_step tk this B st row) with
     | Ret st' => Forall from_stream (l_rows st') /\ read_from_stream (l_dt st')
     | Raise _ => True
     end.
Proof.
  intros Hin Hrows Hdt. unfold row_step.
  destruct row as [| f tl].
  - rewrite bind_ret_l. now apply batch_check_provenance.
  - rewrite try_row_cons.
    assert (Hdt1 : read_from_stream (parse_dt (l_dt st) f)).
    { destruct (parse_dt_cases (l_dt st) f) as [-> | (d & Hd & ->)];
        [exact Hdt |].
      intros d' [= <-]. exists (f :: tl), f. auto. }
    destruct (parse_dt (l_dt st) f) as [d |] eqn:Ed;
      [| split; [constructor | exact I]].
    destruct tl as [| b [| a tl]]; cbn [row_handler_catches].
    + wsimpl.
      destruct (batch_check_provenance (mkLocals (Some d) (l_rows st) (l_count st))
                  Hrows Hdt1) as [Hc Hs].
      destruct (batch_check B _) as [[st' | e] t]; cbn [fst snd] in *; auto.
    + wsimpl.
      destruct (batch_check_provenance (mkLocals (Some d) (l_rows st) (l_count st))
                  Hrows Hdt1) as [Hc Hs].
      destruct (batch_check B _) as [[st' | e] t]; cbn [fst snd] in *; auto.
    + rewrite bind_ret_l.
      apply batch_check_provenance; [| exact Hdt1].
      cbn [l_rows]. apply Forall_app. split; [exact Hrows |].
      constructor; [| constructor].
      split; [reflexivity |]. split.
      * exists (f :: b :: a :: tl). auto.
      * apply (Hdt1 d). reflexivity.
Qed.

Lemma for_rows_provenance (reader : list (list string)) (st : locals) :
  incl reader all ->
  Forall from_stream (l_rows st) -> read_from_stream (l_dt st) ->
  Forall from_stream (committed (snd (for_rows tk this B reader st)))
  /\ match fst (for_rows tk this B reader st) with
     | Ret st' => Forall from_stream (l_rows st')
     | Raise _ => True
     end.
Proof.
  revert st. induction reader as [| row reader IH]; intros st Hincl Hrows Hdt.
  - cbn. split; [constructor | exact Hrows].
  - cbn [for_rows].
    destruct (row_step_provenance st row) as [Hc Hs]; auto.
    { apply Hincl. now left. }
    destruct (row_step tk this B st row) as [[st1 | e] t1]; cbn [fst snd] in *.
    + destruct Hs as [Hrows1 Hdt1].
      destruct (IH st1) as [Hc2 Hs2]; auto.
      { intros r Hr. apply Hincl. now right. }
      rewrite bind_Ret. cbn [fst snd]. rewrite committed_app.
      split; [apply Forall_app; now split | exact Hs2].
    + rewrite bind_Raise. cbn [fst snd]. auto.
Qed.

Lemma session_block_provenance :
  Forall from_stream (committed (snd (session_block tk this B all))).
Proof.
  unfold session_block.
  destruct (for_rows_provenance all (mkLocals None [] 0)) as [Hc Hs].
  - apply incl_refl.
  - constructor.
  - intros d [=].
  - destruct (for_rows tk this B all (mkLocals None [] 0)) as [[st | e] t];
      cbn [fst snd] in *.
    + rewrite bind_Ret. cbn [snd]. rewrite committed_app.
      apply Forall_app. split; [exact Hc |].
      destruct (l_rows st) eqn:E; [constructor |].
      unfold committed. cbn. now rewrite app_nil_r.
    + rewrite bind_Raise. exact Hc.
Qed.

End Provenance.

(** X7: every record a window commits from a body of plain text (ASCII,
    no quote character, no line over the field limit) is made of what
    the file holds: its ticket is the third part from the end of the
    URL, its bid and ask are the second and third fields of one data
    row, and its timestamp is the reading of the first field of a data
    row. Nothing is stored for a window that got no response or no
    readable body, and nothing comes from the header line. *)
Theorem committed_records_come_from_the_file
        (remote : string -> get_outcome) (url : string) (B : Z) (x : FxTick) :
  (forall r file,
      remote url = Responded r -> content r = Some file ->
      forallb plain_line file = true) ->
  In x (committed (snd (download_and_process_gz remote url B))) ->
  exists r file,
    remote url = Responded r /\ content r = Some file
    /\ PyStr.index_from_end (PyStr.split "/" url) 3 = Some (ticket x)
    /\ (exists row, In row (csv_reader (tl file))
                    /\ nth_error row 1 = Some (bid x)
                    /\ nth_error row 2 = Some (ask x))
    /\ (exists row f, In row (csv_reader (tl file))
                      /\ nth_error row 0 = Some f
                      /\ parse_dt None f = Some (dt x)).
Proof.
  intros _. unfold download_and_process_gz.
  destruct (PyStr.index_from_end (PyStr.split "/" url) 3) as [tk |] eqn:Etk;
    [| intros []].
  destruct (PyStr.index_from_end (PyStr.split "/" url) 2) as [yr |];
    [| intros []].
  destruct (PyStr.index_from_end (PyStr.split "/" url) 1) as [last |];
    [| intros []].
  unfold requests_get, raise_for_status.
  destruct (remote url) as [| r] eqn:Er; wsimpl; [intros [] |].
  destruct ((400 <=? status_code r) && (status_code r <? 600)); wsimpl;
    [intros [] |].
  destruct (content r) as [file |] eqn:Ec; wsimpl; [| intros []].
  destruct file as [| header lines]; [intros [] |].
  change (csv_reader (header :: lines))
    with (csv_row (PyStr.remove PyStr.NUL header) :: csv_reader lines).
  cbv iota. cbn [tl].
  pose proof (session_block_provenance tk (window_label tk yr last) B
                (csv_reader lines)) as Hprov.
  intros Hin.
  assert (Hin' : In x (committed
                         (snd (session_block tk (window_label tk yr last) B
                                             (csv_reader lines))))).
  { destruct (session_block tk (window_label tk yr last) B (csv_reader lines))
      as [[[] | e] t]; wsimpl_in Hin; cbn [snd].
    - unfold committed in *. cbn [commits] in Hin.
      rewrite commits_app in Hin. cbn [commits] in Hin.
      now rewrite app_nil_r in Hin.
    - destruct e; cbn [snd] in Hin; unfold committed in *;
        cbn [commits] in Hin; rewrite ?commits_app in Hin;
        cbn [commits] in Hin; rewrite ?app_nil_r in Hin; exact Hin. }
  rewrite Forall_forall in Hprov. destruct (Hprov x Hin') as (Ht & Hp & Hd).
  exists r, (header :: lines). subst tk.
  split; [reflexivity |]. split; [exact Ec |]. split; [reflexivity |].
  split; [exact Hp | exact Hd].
Qed.

Lemma committed_records_come_from_the_file_witness :
  exists r file,
    serving 200 file_with_text_price sample_url = Responded r
    /\ content r = Some file
    /\ PyStr.index_from_end (PyStr.split "/" sample_url) 3 = Some "EURUSD"
    /\ (exists row, In row (csv_reader (tl file))
                    /\ nth_error row 1 = Some "abc"
                    /\ nth_error row 2 = Some "1.08")
    /\ (exists row f, In row (csv_reader (tl file))
                      /\ nth_error row 0 = Some f
                      /\ parse_dt None f
                         = Some (mkdatetime (mkdate 2023 1 2) 0 0 1 254000)).
Proof.
  apply (committed_records_come_from_the_file
           (serving 200 file_with_text_price) sample_url default_batch_size
           (mkFxTick (mkdatetime (mkdate 2023 1 2) 0 0 1 254000)
                     "abc" "1.08" "EURUSD")).
  - intros r file [= <-] [= <-]. vm_compute; reflexivity.
  - vm_compute. left. reflexivity.
Defined.

(** ** The batch size *)









(** With a batch size of zero the first turn of the loop cannot end. *)
Lemma row_step_zero (tk this : string) (st : locals) (row : list string) :
  exists t,
    row_step tk this 0 st row
    = (Raise match row with
             | [] => ZeroDivisionError
             | f :: _ =>
                 match parse_dt (l_dt st) f with
                 | Some _ => ZeroDivisionError
                 | None => UnboundLocalError
                 end
             end, t)
    /\ commits t = [].
Proof.
  unfold row_step. destruct row as [| f tl].
  - exists []. split; reflexivity.
  - rewrite try_row_cons. destruct (parse_dt (l_dt st) f) as [d |].
    + destruct tl as [| b [| a tl]]; cbn [row_handler_catches]; wsimpl;
        eexists; split; reflexivity.
    + exists []. split; reflexivity.
Qed.

(** X9: a batch size of zero stores nothing. With a plain header line
    and at least one plain line after it (ASCII, no quote character, not
    over the field limit), the window raises: ZeroDivisionError when
    that line is blank or starts with a timestamp, UnboundLocalError
    otherwise. Neither is handled. *)
Theorem zero_batch_size_raises
        (remote : string -> get_outcome) (url : string)
        (pre : list string) (tk yr last : string) (status : Z)
        (header line : string) (lines : list string) :
  PyStr.split "/" url = pre ++ [tk; yr; last] ->
  remote url
  = Responded (mkResponse status (Some (header :: line :: lines))) ->
  status < 400 \/ 600 <= status ->
  plain_line header = true -> plain_line line = true ->
  fst (download_and_process_gz remote url 0)
  = Raise match csv_row (PyStr.remove PyStr.NUL line) with
          | [] => ZeroDivisionError
          | f :: _ => if timestamp_ok f then ZeroDivisionError
                      else UnboundLocalError
          end
  /\ committed (snd (download_and_process_gz remote url 0)) = [].
Proof.
  intros Hurl Hremote Hstatus _ _. unfold download_and_process_gz. rewrite Hurl.
  destruct (index_from_end_last3 pre tk yr last) as (-> & -> & ->).
  unfold requests_get, raise_for_status. rewrite Hremote. wsimpl.
  cbn [status_code content].
  replace ((400 <=? status) && (status <? 600)) with false
    by (symmetry; apply andb_false_iff; lia).
  wsimpl.
  change (csv_reader (header :: line :: lines))
    with (csv_row (PyStr.remove PyStr.NUL header)
          :: csv_row (PyStr.remove PyStr.NUL line) :: csv_reader lines).
  cbv iota. unfold session_block. cbn [for_rows].
  destruct (row_step_zero tk (window_label tk yr last) (mkLocals None [] 0)
              (csv_row (PyStr.remove PyStr.NUL line))) as (t & E & Hc).
  rewrite E, !bind_Raise. cbn [fst snd l_dt] in *.
  assert (Hcom : committed
                   (Log INFO (Downloading (window_label tk yr last))
                    :: Get url
                    :: Log INFO (Processing (window_label tk yr last)) :: t)
                 = []).
  { unfold committed. cbn [commits]. now rewrite Hc. }
  destruct (csv_row (PyStr.remove PyStr.NUL line)) as [| f tl];
    [cbn [fst snd]; auto |].
  destruct (timestamp_ok f) eqn:Ef.
  - destruct (timestamp_ok_parse f Ef) as [d Hd]. rewrite Hd.
    cbn [fst snd]. auto.
  - rewrite (parse_dt_no_match None f Ef). cbn [fst snd]. auto.
Qed.

Lemma zero_batch_size_raises_witness :
  fst (download_and_process_gz (serving 200 file_with_five_rows) sample_url 0)
  = Raise ZeroDivisionError
  /\ committed (snd (download_and_process_gz
                       (serving 200 file_with_five_rows) sample_url 0)) = [].
Proof.
  apply (zero_batch_size_raises
           (serving 200 file_with_five_rows) sample_url
           ["https:"; ""; "tickdata.fxcorporate.com"] "EURUSD" "2023"
           "1.csv.gz" 200 sample_header
           "01/02/2023 00:00:01.000,1.01,1.02"
           ["01/02/2023 00:00:02.000,1.03,1.04";
            "01/02/2023 00:00:03.000,1.05,1.06";
            "01/02/2023 00:00:04.000,1.07,1.08";
            "01-02-2023 00:00:05.000,1.09,1.10"]).
  - vm_compute. reflexivity.
  - reflexivity.
  - lia.
  - vm_compute; reflexivity.
  - vm_compute; reflexivity.
Defined.

(** ** The instruments of a run *)

Lemma download_tick_data_total remote tk d0 d1 multiprocess num_processes :
  exists r,
    fst (download_tick_data remote tk d0 d1 multiprocess num_processes) = Ret r.
Proof.
  unfold download_tick_data. unfold try_except.
  match goal with
  | |- context [let (o, t) := ?body in _] => destruct body as [[r | e] t]
  end.
  - exists r. reflexivity.
  - destruct e; wsimpl; eexists; reflexivity.
Qed.

Lemma for_instruments_runs remote start_date end_date multiprocess date_to
      (fx_tick : list FxTick) (instruments : list Instrument) :
  for_instruments remote start_date end_date multiprocess date_to fx_tick
                  instruments
  = (Ret tt,
     flat_map (fun i => snd (download_tick_data remote (instrument_ticket i)
                                                start_date end_date
                                                multiprocess 4))
              instruments).
Proof.
  revert fx_tick. induction instruments as [| i instruments IH]; intros fx_tick;
    [reflexivity |].
  cbn [for_instruments flat_map]. rewrite get_latest_is_no_datetime.
  cbv iota beta. unfold ret.
  destruct (download_tick_data_total remote (instrument_ticket i) start_date
              end_date multiprocess 4) as [r Hr].
  destruct (download_tick_data remote (instrument_ticket i) start_date end_date
                               multiprocess 4) as [o t1].
  cbn [fst snd] in *. subst o. rewrite IH. reflexivity.
Qed.

(** X10: with dates (or nothing) for both bounds and ASCII tickets,
    [downloader] returns, and its run is made of one
    [download_tick_data] call for each selected instrument, one after
    the other in the order the store answers, each with the same bounds
    and four processes, whatever the calls before it returned and
    whatever the tick table holds. The end date handed on is the
    caller's, [None] when the caller gave none. *)
Theorem downloader_calls_every_instrument
        (remote : string -> get_outcome) (today : date)
        (instruments : list Instrument) (fx_tick : list FxTick)
        (tickets : option (list string)) (start_date end_date : pyarg)
        (multiprocess : bool) :
  start_date <> ArgOther -> end_date <> ArgOther ->
  (end_date = ArgNone -> last_day_of_previous_month today <> None) ->
  (forall ts, tickets = Some ts -> forallb plain ts = true) ->
  exists answer,
    Permutation answer (Instrument_get instruments tickets)
    /\ downloader remote today instruments fx_tick tickets start_date end_date
                  multiprocess
       = (Ret tt,
          flat_map (fun i =>
                      snd (download_tick_data
                             remote (instrument_ticket i)
                             match start_date with
                             | ArgDate d => d
                             | _ => mkdate 2019 1 1
                             end
                             (as_date end_date) multiprocess 4))
                   answer).
Proof.
  intros Hs He Htoday _.
  exists (Instrument_get instruments tickets).
  split; [apply Permutation_refl |].
  unfold downloader.
  destruct start_date as [| d0 |]; [| | contradiction];
    destruct end_date as [| d1 |]; try contradiction;
    rewrite bind_ret_l.
  - destruct (last_day_of_previous_month today) as [d |];
      [| now destruct (Htoday eq_refl)].
    rewrite bind_ret_l. apply for_instruments_runs.
  - rewrite bind_ret_l. apply for_instruments_runs.
  - destruct (last_day_of_previous_month today) as [d |];
      [| now destruct (Htoday eq_refl)].
    rewrite bind_ret_l. apply for_instruments_runs.
  - rewrite bind_ret_l. apply for_instruments_runs.
Qed.

Lemma downloader_calls_every_instrument_witness :
  exists answer,
    Permutation answer
                (Instrument_get [eurusd; mkInstrument "USDJPY" true false]
                                (Some ["usdjpy"; "EURUSD"]))
    /\ downloader (serving 404 []) (mkdate 2023 6 15)
                  [eurusd; mkInstrument "USDJPY" true false] [stored_tick]
                  (Some ["usdjpy"; "EURUSD"]) ArgNone
                  (ArgDate (mkdate 2019 1 10)) false
       = (Ret tt,
          flat_map (fun i =>
                      snd (download_tick_data
                             (serving 404 []) (instrument_ticket i)
                             (mkdate 2019 1 1) (Some (mkdate 2019 1 10))
                             false 4))
                   answer).
Proof.
  apply (downloader_calls_every_instrument
           (serving 404 []) (mkdate 2023 6 15)
           [eurusd; mkInstrument "USDJPY" true false] [stored_tick]
           (Some ["usdjpy"; "EURUSD"]) ArgNone (ArgDate (mkdate 2019 1 10))
           false); try discriminate.
  intros ts [= <-]. reflexivity.
Defined.

(** ** The store queries *)

Lemma upper_char_idempotent (c : ascii) :
  PyStr.upper_char (PyStr.upper_char c) = PyStr.upper_char c.
Proof. destruct c as [[] [] [] [] [] [] [] []]; reflexivity. Qed.

Lemma upper_idempotent (s : string) :
  PyStr.upper (PyStr.upper s) = PyStr.upper s.
Proof.
  induction s as [| c s IH]; [reflexivity |].
  cbn [PyStr.upper]. now rewrite upper_char_idempotent, IH.
Qed.

Lemma upper_plain (s : string) : plain s = true -> plain (PyStr.upper s) = true.
Proof.
  induction s as [| c s IH]; [reflexivity |].
  cbn [plain PyStr.upper]. rewrite !andb_true_iff. intros [Hc Hs].
  split; [| now apply IH].
  revert Hc. destruct c as [[] [] [] [] [] [] [] []]; vm_compute; congruence.
Qed.

(** X11: an instrument selected by a list of ASCII tickets is in the
    catalog and its ticket is the upper-case form of a requested one: it
    is ASCII text without a letter from a to z. So a catalog ticket with
    such a letter is selected by no list of ASCII tickets, however the
    request is spelled. *)
Theorem selected_instruments_have_upper_case_tickets
        (instruments : list Instrument) (tickets : list string)
        (i : Instrument) :
  forallb plain tickets = true ->
  In i (Instrument_get instruments (Some tickets)) ->
  In i instruments
  /\ (exists t, In t tickets /\ instrument_ticket i = PyStr.upper t)
  /\ plain (instrument_ticket i) = true
  /\ PyStr.upper (instrument_ticket i) = instrument_ticket i.
Proof.
  unfold Instrument_get. intros Hplain Hin.
  apply filter_In in Hin. destruct Hin as [Hcat Hreq].
  apply existsb_exists in Hreq. destruct Hreq as (u & Hu & Heq).
  apply String.eqb_eq in Heq.
  apply in_map_iff in Hu. destruct Hu as (t & <- & Ht).
  rewrite forallb_forall in Hplain.
  split; [exact Hcat |]. split; [| split].
  - exists t. auto.
  - rewrite Heq. apply upper_plain. now apply Hplain.
  - rewrite Heq. apply upper_idempotent.
Qed.

Lemma selected_instruments_have_upper_case_tickets_witness :
  In eurusd [eurusd; mkInstrument "usdjpy" true false]
  /\ (exists t, In t ["eurUSD"; "usdjpy"]
                /\ instrument_ticket eurusd = PyStr.upper t)
  /\ plain (instrument_ticket eurusd) = true
  /\ PyStr.upper (instrument_ticket eurusd) = instrument_ticket eurusd.
Proof.
  apply (selected_instruments_have_upper_case_tickets
           [eurusd; mkInstrument "usdjpy" true false] ["eurUSD"; "usdjpy"]
           eurusd).
  - reflexivity.
  - vm_compute. left. reflexivity.
Defined.

Lemma newest_spec (rows : list FxTick) (best : option FxTick) :
  match newest rows best with
  | None => rows = [] /\ best = None
  | Some t =>
      (In t rows \/ best = Some t)
      /\ (forall r, In r rows -> datetime_key (dt r) <= datetime_key (dt t))
      /\ (forall b, best = Some b -> datetime_key (dt b) <= datetime_key (dt t))
  end.
Proof.
  revert best. induction rows as [| r rows IH]; intros best.
  - cbn. destruct best as [b |]; [| auto].
    split; [now right |]. split; [intros r [] |].
    intros b' [= ->]. lia.
  - cbn [newest].
    set (best' := match best with
                  | None => Some r
                  | Some b =>
                      if datetime_key (dt b) <? datetime_key (dt r)
                      then Some r else Some b
                  end).
    specialize (IH best').
    destruct (newest rows best') as [t |].
    + destruct IH as (Hin & Hrows & Hbest).
      assert (Hr : datetime_key (dt r) <= datetime_key (dt t)
                   /\ forall b, best = Some b ->
                                datetime_key (dt b) <= datetime_key (dt t)).
      { subst best'. destruct best as [b |].
        - destruct (Z.ltb_spec (datetime_key (dt b)) (datetime_key (dt r))).
          + specialize (Hbest r eq_refl). split; [exact Hbest |].
            intros b' [= <-]. lia.
          + specialize (Hbest b eq_refl). split; [lia |].
            intros b' [= <-]. exact Hbest.
        - split; [now apply Hbest | intros b [=]]. }
      destruct Hr as [Hr Hb]. split; [| split].
      * destruct Hin as [Hin | Hin]; [left; now right |].
        subst best'. destruct best as [b |].
        -- destruct (datetime_key (dt b) <? datetime_key (dt r)).
           ++ injection Hin as <-. left. now left.
           ++ now right.
        -- injection Hin as <-. left. now left.
      * intros r' [<- | Hr']; [exact Hr | now apply Hrows].
      * exact Hb.
    + destruct IH as [_ Hnone]. subst best'.
      destruct best as [b |]; [| discriminate].
      destruct (datetime_key (dt b) <? datetime_key (dt r)); discriminate.
Qed.

(** X12: [get_latest] answers [None] exactly when the table has no tick
    of the ticket; otherwise it answers a tick of the table, of that
    ticket, and no tick of that ticket is later. It never answers a bare
    timestamp. *)
Theorem get_latest_returns_the_newest_tick
        (fx_tick : list FxTick) (tk : string) :
  match get_latest fx_tick tk with
  | PyNone => forall r, In r fx_tick -> ticket r <> tk
  | PyFxTick t =>
      In t fx_tick /\ ticket t = tk
      /\ forall r, In r fx_tick -> ticket r = tk ->
                   datetime_key (dt r) <= datetime_key (dt t)
  | PyDatetime _ => False
  end.
Proof.
  unfold get_latest.
  pose proof (newest_spec (filter (fun r => String.eqb (ticket r) tk) fx_tick)
                          None) as H.
  destruct (newest (filter (fun r => String.eqb (ticket r) tk) fx_tick) None)
    as [t |].
  - destruct H as ([Hin | [=]] & Hrows & _).
    apply filter_In in Hin. destruct Hin as [Hin Htk].
    apply String.eqb_eq in Htk.
    split; [exact Hin |]. split; [exact Htk |].
    intros r Hr Hrt. apply Hrows. apply filter_In.
    split; [exact Hr | now apply String.eqb_eq].
  - destruct H as [Hnil _]. intros r Hr Hrt.
    assert (Hf : In r (filter (fun r => String.eqb (ticket r) tk) fx_tick)).
    { apply filter_In. split; [exact Hr | now apply String.eqb_eq]. }
    rewrite Hnil in Hf. exact Hf.
Qed.

(** ** The URL of a window and the label read back from it *)

Lemma split_sep (c : ascii) (a b : string) :
  PyStr.split c (a ++ String c b) = PyStr.split c a ++ PyStr.split c b.
Proof.
  induction a as [| x a IH]; cbn [String.append PyStr.split].
  - now rewrite Ascii.eqb_refl.
  - destruct (Ascii.eqb x c); [now rewrite IH |].
    rewrite IH. destruct (PyStr.split c a) as [| h t] eqn:E; [| reflexivity].
    exfalso. destruct a as [| y a]; cbn in E; [discriminate |].
    destruct (Ascii.eqb y c); [discriminate |].
    destruct (PyStr.split c a); discriminate.
Qed.

Lemma split_without_sep (c : ascii) (s : string) :
  occurs c s = false -> PyStr.split c s = [s].
Proof.
  induction s as [| x s IH]; [reflexivity |].
  cbn [occurs PyStr.split]. intros H. apply orb_false_iff in H.
  destruct H as [-> Hs]. now rewrite (IH Hs).
Qed.

Lemma string_of_uint_digits (c : ascii) (d : Decimal.uint) :
  PyStr.in_range "0" "9" c = false ->
  occurs c (NilEmpty.string_of_uint d) = false.
Proof.
  intros Hc.
  assert (Hne : forall x, PyStr.in_range "0" "9" x = true -> Ascii.eqb x c = false).
  { intros x Hx. destruct (Ascii.eqb_spec x c) as [-> | _]; [| reflexivity].
    congruence. }
  induction d; cbn [NilEmpty.string_of_uint occurs]; [reflexivity | ..];
    rewrite IHd, orb_false_r; apply Hne; reflexivity.
Qed.

Lemma of_Z_chars (c : ascii) (z : Z) :
  PyStr.in_range "0" "9" c = false -> c <> "-"%char ->
  occurs c (PyStr.of_Z z) = false.
Proof.
  intros Hc Hm. unfold PyStr.of_Z, NilZero.string_of_int.
  assert (Hu : forall d, occurs c (NilZero.string_of_uint d) = false).
  { intros d. unfold NilZero.string_of_uint.
    destruct d; try (now apply string_of_uint_digits).
    cbn [occurs]. rewrite orb_false_r.
    destruct (Ascii.eqb_spec "0"%char c) as [<- | _]; [discriminate | reflexivity]. }
  destruct (Z.to_int z) as [d | d]; [apply Hu |].
  cbn [occurs]. rewrite Hu, orb_false_r.
  destruct (Ascii.eqb_spec "-"%char c) as [<- | _]; [contradiction | reflexivity].
Qed.

Lemma split_nonempty (c : ascii) (s : string) : PyStr.split c s <> [].
Proof.
  destruct s as [| x s]; cbn; [discriminate |].
  destruct (Ascii.eqb x c); [discriminate |].
  destruct (PyStr.split c s); discriminate.
Qed.

Lemma index_from_end_app3 {A} (pre mid : list A) (b c dflt : A) :
  mid <> [] ->
  PyStr.index_from_end (pre ++ mid ++ [b; c]) 3 = Some (last mid dflt)
  /\ PyStr.index_from_end (pre ++ mid ++ [b; c]) 2 = Some b
  /\ PyStr.index_from_end (pre ++ mid ++ [b; c]) 1 = Some c.
Proof.
  intros Hmid.
  destruct (exists_last Hmid) as (mid' & a & ->).
  rewrite last_last.
  replace (pre ++ (mid' ++ [a]) ++ [b; c]) with ((pre ++ mid') ++ [a; b; c])
    by (now rewrite <- !app_assoc).
  apply index_from_end_last3.
Qed.

(** The parts of the URL of a window. *)
Lemma window_url_split (tk yr wk : string) :
  occurs "/" yr = false -> occurs "/" wk = false ->
  PyStr.split "/" (base_url ++ "/" ++ tk ++ "/" ++ yr ++ "/" ++ wk ++ url_suffix)
  = ["https:"; ""; "tickdata.fxcorporate.com"]
      ++ PyStr.split "/" tk ++ [yr; (wk ++ url_suffix)%string].
Proof.
  intros Hyr Hwk.
  change (base_url ++ "/" ++ tk ++ "/" ++ yr ++ "/" ++ wk ++ url_suffix)%string
    with (base_url ++ String "/" (tk ++ String "/" (yr ++ String "/"
                                    (wk ++ url_suffix))))%string.
  rewrite !split_sep.
  rewrite (split_without_sep "/" yr Hyr).
  rewrite (split_without_sep "/" (wk ++ url_suffix)).
  - reflexivity.
  - clear -Hwk. induction wk as [| x wk IH]; [reflexivity |].
    cbn [occurs String.append] in *. apply orb_false_iff in Hwk.
    destruct Hwk as [-> Hwk]. now apply IH.
Qed.

Lemma download_and_process_gz_head remote url B (tk yr last : string) :
  PyStr.index_from_end (PyStr.split "/" url) 3 = Some tk ->
  PyStr.index_from_end (PyStr.split "/" url) 2 = Some yr ->
  PyStr.index_from_end (PyStr.split "/" url) 1 = Some last ->
  exists rest,
    snd (download_and_process_gz remote url B)
    = Log INFO (Downloading (window_label tk yr last)) :: Get url :: rest.
Proof.
  intros H3 H2 H1. unfold download_and_process_gz. rewrite H3, H2, H1.
  unfold requests_get, raise_for_status.
  destruct (remote url) as [| r]; wsimpl; [eexists; reflexivity |].
  destruct ((400 <=? status_code r) && (status_code r <? 600)); wsimpl;
    [eexists; reflexivity |].
  destruct (content r) as [file |]; wsimpl; [| eexists; reflexivity].
  destruct (csv_reader file) as [| header reader]; wsimpl;
    [eexists; reflexivity |].
  destruct (session_block tk (window_label tk yr last) B reader)
    as [[[] | e] t]; wsimpl; [eexists; reflexivity |].
  destruct e; cbn [snd]; eexists; reflexivity.
Qed.

(** X13: the label and the ticket that [download_and_process_gz] reads
    back from a URL built by [download_tick_data] are the ISO year and
    week of the window's date and the part of the instrument's ticket
    after its last slash: the ticket itself when it has no slash, and
    another name when it has one. *)
Theorem window_label_is_read_back_from_the_url
        (remote : string -> get_outcome) (tk : string) (d0 nd : date)
        (i B : Z) :
  add_days d0 (7 * i) = Some nd ->
  exists url rest,
    window_url tk d0 i = Some url
    /\ PyStr.index_from_end (PyStr.split "/" url) 3
       = Some (last (PyStr.split "/" tk) "")
    /\ snd (download_and_process_gz remote url B)
       = Log INFO (Downloading (last (PyStr.split "/" tk) "" ++ "-"
                                  ++ PyStr.of_Z (fst (isocalendar nd)) ++ "-"
                                  ++ PyStr.of_Z (snd (isocalendar nd))))
         :: Get url :: rest
    /\ (occurs "/" tk = false -> last (PyStr.split "/" tk) "" = tk).
Proof.
  intros Hnd. unfold window_url. rewrite Hnd.
  destruct (isocalendar nd) as [yr wk]. cbn [fst snd].
  set (url := (base_url ++ "/" ++ tk ++ "/" ++ PyStr.of_Z yr ++ "/"
                        ++ PyStr.of_Z wk ++ url_suffix)%string).
  assert (Hsplit : PyStr.split "/" url
                   = ["https:"; ""; "tickdata.fxcorporate.com"]
                       ++ PyStr.split "/" tk
                       ++ [PyStr.of_Z yr; (PyStr.of_Z wk ++ url_suffix)%string]).
  { apply window_url_split; apply of_Z_chars; (reflexivity || discriminate). }
  destruct (index_from_end_app3 ["https:"; ""; "tickdata.fxcorporate.com"]
              (PyStr.split "/" tk) (PyStr.of_Z yr)
              (PyStr.of_Z wk ++ url_suffix)%string ""
              (split_nonempty "/" tk)) as (H3 & H2 & H1).
  rewrite <- Hsplit in H3, H2, H1.
  destruct (download_and_process_gz_head remote url B _ _ _ H3 H2 H1)
    as [rest Hrest].
  exists url, rest. split; [reflexivity |]. split; [exact H3 |]. split.
  - rewrite Hrest. unfold window_label.
    change (PyStr.of_Z wk ++ url_suffix)%string
      with (PyStr.of_Z wk ++ String "." "csv.gz")%string.
    rewrite (split_sep "." (PyStr.of_Z wk) "csv.gz").
    rewrite (split_without_sep "." (PyStr.of_Z wk)); [reflexivity |].
    apply of_Z_chars; (reflexivity || discriminate).
  - intros Htk. now rewrite split_without_sep.
Qed.

Lemma window_label_is_read_back_from_the_url_witness :
  exists url rest,
    window_url "EUR/USD" (mkdate 2019 1 1) 1 = Some url
    /\ PyStr.index_from_end (PyStr.split "/" url) 3
       = Some (last (PyStr.split "/" "EUR/USD") "")
    /\ snd (download_and_process_gz (serving 404 []) url default_batch_size)
       = Log INFO (Downloading (last (PyStr.split "/" "EUR/USD") "" ++ "-"
                                  ++ PyStr.of_Z (fst (isocalendar (mkdate 2019 1 8)))
                                  ++ "-"
                                  ++ PyStr.of_Z (snd (isocalendar (mkdate 2019 1 8)))))
         :: Get url :: rest
    /\ (occurs "/" "EUR/USD" = false
        -> last (PyStr.split "/" "EUR/USD") "" = "EUR/USD").
Proof.
  apply (window_label_is_read_back_from_the_url
           (serving 404 []) "EUR/USD" (mkdate 2019 1 1) (mkdate 2019 1 8)
           1 default_batch_size).
  vm_compute. reflexivity.
Defined.

(** ** The set-up of the store *)

(** X15: [database_init] starts from nothing: what it leaves does not
    depend on the store it found. The file it leaves exists and holds
    no tick. When it returns, the instruments are those of the CSV file
    and their tickets are pairwise distinct; when it fails, on a CSV
    file that is missing, empty, has a blank line or repeats a ticket,
    the instruments table is empty as well: the old data is gone either
    way. *)
Theorem database_init_starts_from_nothing
        (csv_file : option (list string)) (db : option store) :
  database_init csv_file db = database_init csv_file None
  /\ exists st',
       snd (database_init csv_file db) = Some st'
       /\ tbl_fx_tick st' = []
       /\ match fst (database_init csv_file db) with
          | inr _ =>
              get_instruments csv_file = inr (tbl_instruments st')
              /\ distinct (map instrument_ticket (tbl_instruments st')) = true
          | inl _ => tbl_instruments st' = []
          end.
Proof.
  split; [reflexivity |].
  cbv beta iota delta [database_init delete_database create_database negb andb].
  destruct (get_instruments csv_file) as [f | instruments].
  - exists (mkStore [] [] []). cbn. auto.
  - unfold populate_database. cbn [tbl_instruments tbl_version tbl_fx_tick app].
    destruct (distinct (map instrument_ticket instruments)) eqn:Ed.
    + exists (mkStore [] instruments []). cbn. auto.
    + exists (mkStore [] [] []). cbn. auto.
Qed.

(** ** The command line *)

Lemma downloader_without_dates remote today instruments fx_tick tickets
      multiprocess :
  last_day_of_previous_month today <> None ->
  downloader remote today instruments fx_tick tickets ArgNone ArgNone
             multiprocess
  = (Ret tt,
     map (fun i => Log ERROR (UnexpectedError (instrument_ticket i) TypeError))
         (Instrument_get instruments tickets)).
Proof.
  intros Htoday. unfold downloader. rewrite bind_ret_l.
  destruct (last_day_of_previous_month today) as [d |]; [| contradiction].
  rewrite bind_ret_l. cbn [as_date]. rewrite for_instruments_runs.
  f_equal.
Qed.

Lemma downloader_from_the_command_line remote today instruments fx_tick
      tickets (start_date end_date : option string) multiprocess :
  downloader remote today instruments fx_tick tickets
             (as_pyarg start_date) (as_pyarg end_date) multiprocess
  = match start_date, end_date with
    | None, None =>
        match last_day_of_previous_month today with
        | Some _ =>
            (Ret tt,
             map (fun i => Log ERROR
                             (UnexpectedError (instrument_ticket i) TypeError))
                 (Instrument_get instruments tickets))
        | None => (Raise OverflowError, [])
        end
    | _, _ => (Raise TypeError, [])
    end.
Proof.
  destruct start_date as [s |], end_date as [e |]; try reflexivity.
  cbn [as_pyarg].
  destruct (last_day_of_previous_month today) as [d |] eqn:E.
  - apply downloader_without_dates. rewrite E. discriminate.
  - unfold downloader. rewrite bind_ret_l, E. reflexivity.
Qed.

Lemma error_records_are_quiet (l : list Instrument) :
  let t := map (fun i => Log ERROR
                           (UnexpectedError (instrument_ticket i) TypeError)) l in
  Forall (fun e => exists tk, e = Log ERROR (UnexpectedError tk TypeError)) t
  /\ fetched t = [] /\ submitted t = [] /\ committed t = [].
Proof.
  induction l as [| i l IH]; cbn.
  - repeat split; constructor.
  - destruct IH as (H1 & H2 & H3 & H4). repeat split; auto.
    constructor; [now exists (instrument_ticket i) | exact H1].
Qed.

Lemma check_date_fails (a : option string) (why : reason) (f : failure) :
  check_date a why = inl f -> f = SystemExit why.
Proof.
  unfold check_date. destruct a as [[| c s] |]; try discriminate.
  destruct (Strptime.strptime (String c s) "%Y-%m-%d"); [discriminate |].
  now intros [= <-].
Qed.

Lemma database_init_store (csv_file : option (list string)) (db : option store) :
  exists st', snd (database_init csv_file db) = Some st' /\ tbl_fx_tick st' = [].
Proof.
  cbv beta iota delta [database_init delete_database create_database negb andb].
  destruct (get_instruments csv_file) as [f | instruments].
  - exists (mkStore [] [] []). cbn. auto.
  - unfold populate_database. cbn [tbl_instruments tbl_version tbl_fx_tick app].
    destruct (distinct (map instrument_ticket instruments)).
    + exists (mkStore [] instruments []). cbn. auto.
    + exists (mkStore [] [] []). cbn. auto.
Qed.

(** X16: however it is called, the script requests no URL, hands no
    task to a pool and stores no tick: the only events of a run are the
    error records of the instruments, and the tick table it leaves is
    the one it found, or an empty one after [--newdb]. *)
Theorem run_downloads_nothing
        (remote : string -> get_outcome) (today : date)
        (csv_file : option (list string)) (st : store) (a : args) :
  let '(_, db, t) := run remote today csv_file st a in
  Forall (fun e => exists tk, e = Log ERROR (UnexpectedError tk TypeError)) t
  /\ fetched t = [] /\ submitted t = [] /\ committed t = []
  /\ exists st', db = Some st'
                 /\ (tbl_fx_tick st' = tbl_fx_tick st \/ tbl_fx_tick st' = []).
Proof.
  unfold run.
  assert (Hdb : exists st',
             snd (if arg_newdb a then database_init csv_file (Some st)
                  else (inr true, Some st)) = Some st'
             /\ (tbl_fx_tick st' = tbl_fx_tick st \/ tbl_fx_tick st' = [])).
  { destruct (arg_newdb a).
    - destruct (database_init_store csv_file (Some st)) as (st' & E & Hf).
      exists st'. auto.
    - exists st. auto. }
  destruct (if arg_newdb a then database_init csv_file (Some st)
            else (inr true, Some st)) as [init db].
  cbn [snd] in Hdb. destruct Hdb as (st' & -> & Hticks).
  assert (Hnone : Forall (fun e => exists tk,
                              e = Log ERROR (UnexpectedError tk TypeError)) []
                  /\ fetched [] = [] /\ submitted [] = [] /\ committed [] = []
                  /\ exists st'0, Some st' = Some st'0
                                  /\ (tbl_fx_tick st'0 = tbl_fx_tick st
                                      \/ tbl_fx_tick st'0 = [])).
  { repeat split; try constructor. exists st'. auto. }
  destruct init as [f | ok]; [exact Hnone |].
  destruct (check_date (arg_start_date a) InvalidStartDateFormat);
    [exact Hnone |].
  destruct (check_date (arg_end_date a) InvalidEndDateFormat);
    [exact Hnone |].
  rewrite downloader_from_the_command_line.
  assert (Hraise :
            Forall (fun e => exists tk,
                        e = Log ERROR (UnexpectedError tk TypeError)) []
            /\ fetched [] = [] /\ submitted [] = [] /\ committed [] = []
            /\ exists st'0,
                Some (mkStore (tbl_version st') (tbl_instruments st')
                              (tbl_fx_tick st' ++ committed []))
                = Some st'0
                /\ (tbl_fx_tick st'0 = tbl_fx_tick st
                    \/ tbl_fx_tick st'0 = [])).
  { repeat split; try constructor.
    eexists. split; [reflexivity |]. cbn. rewrite app_nil_r. exact Hticks. }
  destruct (arg_start_date a), (arg_end_date a); try exact Hraise.
  destruct (last_day_of_previous_month today); [| exact Hraise].
  destruct (error_records_are_quiet
              (Instrument_get (tbl_instruments st') (arg_tickets a)))
    as (H1 & H2 & H3 & H4).
  repeat split; auto.
  eexists. split; [reflexivity |].
  cbn [tbl_fx_tick]. rewrite H4, app_nil_r. exact Hticks.
Qed.

(** X17: a start or an end date on the command line, well formed or
    not, ends the script before any instrument is looked at. Without
    [--newdb] a malformed date ends it with [SystemExit] and any other
    with the [TypeError] of [downloader], which is handed the text and
    not a date; the store is left as it was. *)
Theorem run_with_a_date_option_dies
        (remote : string -> get_outcome) (today : date)
        (csv_file : option (list string)) (st : store) (a : args) :
  arg_start_date a <> None \/ arg_end_date a <> None ->
  exists f db,
    run remote today csv_file st a = (Died f, db, [])
    /\ (arg_newdb a = false ->
        db = Some st
        /\ (f = SystemExit InvalidStartDateFormat
            \/ f = SystemExit InvalidEndDateFormat
            \/ f = Uncaught TypeError)).
Proof.
  intros Hgiven. unfold run.
  destruct (arg_newdb a).
  - destruct (database_init_store csv_file (Some st)) as (st' & E & _).
    destruct (database_init csv_file (Some st)) as [init db].
    cbn [snd] in E. subst db.
    destruct init as [f | ok].
    { exists f, (Some st'). split; [reflexivity | discriminate]. }
    destruct (check_date (arg_start_date a) InvalidStartDateFormat) as [f |].
    { exists f, (Some st'). split; [reflexivity | discriminate]. }
    destruct (check_date (arg_end_date a) InvalidEndDateFormat) as [f |].
    { exists f, (Some st'). split; [reflexivity | discriminate]. }
    rewrite downloader_from_the_command_line.
    exists (Uncaught TypeError), (Some st'). revert Hgiven.
    destruct (arg_start_date a), (arg_end_date a); intros Hgiven;
      try (split; [destruct st'; cbn; now rewrite app_nil_r | discriminate]).
    destruct Hgiven; contradiction.
  - destruct (check_date (arg_start_date a) InvalidStartDateFormat)
      as [f |] eqn:Estart.
    { exists f, (Some st). split; [reflexivity |]. intros _.
      split; [reflexivity |]. left. now apply (check_date_fails _ _ _ Estart). }
    destruct (check_date (arg_end_date a) InvalidEndDateFormat)
      as [f |] eqn:Eend.
    { exists f, (Some st). split; [reflexivity |]. intros _.
      split; [reflexivity |]. right. left.
      now apply (check_date_fails _ _ _ Eend). }
    rewrite downloader_from_the_command_line.
    exists (Uncaught TypeError), (Some st). revert Hgiven.
    destruct (arg_start_date a), (arg_end_date a); intros Hgiven;
      try (split; [destruct st; cbn; now rewrite app_nil_r | auto]).
    destruct Hgiven; contradiction.
Qed.

Lemma run_with_a_date_option_dies_witness :
  exists f db,
    run (serving 200 [sample_header]) (mkdate 2023 6 15) None
        (mkStore [] [eurusd] [stored_tick])
        (mkArgs false false None (Some "2023-01-01") None)
    = (Died f, db, [])
    /\ (false = false ->
        db = Some (mkStore [] [eurusd] [stored_tick])
        /\ (f = SystemExit InvalidStartDateFormat
            \/ f = SystemExit InvalidEndDateFormat
            \/ f = Uncaught TypeError)).
Proof.
  apply (run_with_a_date_option_dies
           (serving 200 [sample_header]) (mkdate 2023 6 15) None
           (mkStore [] [eurusd] [stored_tick])
           (mkArgs false false None (Some "2023-01-01") None)).
  left. discriminate.
Defined.

(** X18: without date options and without [--newdb], and with ASCII
    tickets if any, the script ends normally and leaves the store as it
    was; its events are one error record for each selected instrument,
    in the order the store answers, and nothing else. *)
Theorem run_without_dates_reports_every_instrument
        (remote : string -> get_outcome) (today : date)
        (csv_file : option (list string)) (st : store) (a : args) :
  arg_newdb a = false ->
  arg_start_date a = None -> arg_end_date a = None ->
  last_day_of_previous_month today <> None ->
  (forall ts, arg_tickets a = Some ts -> forallb plain ts = true) ->
  exists t,
    run remote today csv_file st a = (Finished, Some st, t)
    /\ Permutation
         t
         (map (fun i => Log ERROR
                          (UnexpectedError (instrument_ticket i) TypeError))
              (Instrument_get (tbl_instruments st) (arg_tickets a))).
Proof.
  intros Hnew Hstart Hend Htoday _.
  exists (map (fun i => Log ERROR
                          (UnexpectedError (instrument_ticket i) TypeError))
              (Instrument_get (tbl_instruments st) (arg_tickets a))).
  split; [| apply Permutation_refl].
  unfold run.
  rewrite Hnew, Hstart, Hend. cbn [check_date].
  rewrite (downloader_from_the_command_line remote today _ _ _ None None).
  destruct (last_day_of_previous_month today) as [d |]; [| contradiction].
  destruct (error_records_are_quiet
              (Instrument_get (tbl_instruments st) (arg_tickets a)))
    as (_ & _ & _ & ->).
  rewrite app_nil_r. now destruct st.
Qed.

Lemma run_without_dates_reports_every_instrument_witness :
  exists t,
    run (serving 200 [sample_header]) (mkdate 2023 6 15) None
        (mkStore [] [eurusd; mkInstrument "USDJPY" true false] [stored_tick])
        (mkArgs false true (Some ["usdjpy"; "eurusd"]) None None)
    = (Finished,
       Some (mkStore [] [eurusd; mkInstrument "USDJPY" true false]
                     [stored_tick]),
       t)
    /\ Permutation
         t
         (map (fun i => Log ERROR
                          (UnexpectedError (instrument_ticket i) TypeError))
              (Instrument_get [eurusd; mkInstrument "USDJPY" true false]
                              (Some ["usdjpy"; "eurusd"]))).
Proof.
  apply (run_without_dates_reports_every_instrument
           (serving 200 [sample_header]) (mkdate 2023 6 15) None
           (mkStore [] [eurusd; mkInstrument "USDJPY" true false] [stored_tick])
           (mkArgs false true (Some ["usdjpy"; "eurusd"]) None None));
    try reflexivity.
  - vm_compute; discriminate.
  - intros ts [= <-]. reflexivity.
Defined.

(* ===================================================================== *)
(** ** Day numbers and dates: the round trip *)
(* ===================================================================== *)

Lemma month_day_table :
  forallb (fun k => month_day_ok false (Z.of_nat k)
                    && month_day_ok true (Z.of_nat k)) (seq 0 365) = true.
Proof. vm_compute. reflexivity. Qed.

Lemma month_day_spec (leapyear : bool) (n : Z) :
  0 <= n <= 364 -> month_day_ok leapyear n = true.
Proof.
  intros Hn. pose proof month_day_table as H.
  rewrite forallb_forall in H.
  specialize (H (Z.to_nat n)). rewrite Z2Nat.id in H by lia.
  assert (Hin : In (Z.to_nat n) (seq 0 365)) by (apply in_seq; lia).
  apply H in Hin. apply andb_true_iff in Hin.
  destruct leapyear; tauto.
Qed.

Lemma ord2ymd_unfold (n0 : Z) :
  ord2ymd n0
  = let n400 := (n0 - 1) / DI400Y in
    let r400 := (n0 - 1) mod DI400Y in
    let n100 := r400 / DI100Y in
    let r100 := r400 mod DI100Y in
    let n4 := r100 / DI4Y in
    let r4 := r100 mod DI4Y in
    let n1 := r4 / 365 in
    let n := r4 mod 365 in
    let y := n400 * 400 + 1 + n100 * 100 + n4 * 4 + n1 in
    if (n1 =? 4) || (n100 =? 4) then mkdate (y - 1) 12 31
    else
      let (m, d) :=
        month_day ((n1 =? 3) && (negb (n4 =? 24) || (n100 =? 3))) n in
      mkdate y m d.
Proof.
  unfold ord2ymd, month_day. cbv zeta.
  destruct (_ || _); [reflexivity |].
  destruct (_ <? _); reflexivity.
Qed.

(** A year number cut into 400-, 100-, 4- and 1-year cycles. *)
Lemma days_before_year_cycles (a b c e : Z) :
  0 <= b <= 3 -> 0 <= c <= 24 -> 0 <= e <= 3 ->
  days_before_year (a * 400 + 1 + b * 100 + c * 4 + e)
  = 146097 * a + 36524 * b + 1461 * c + 365 * e.
Proof.
  intros Hb Hc He. unfold days_before_year.
  replace (a * 400 + 1 + b * 100 + c * 4 + e - 1)
    with (a * 400 + b * 100 + c * 4 + e) by lia.
  assert (H4 : (a * 400 + b * 100 + c * 4 + e) / 4 = 100 * a + 25 * b + c).
  { symmetry. apply (Z.div_unique _ _ _ e); lia. }
  assert (H100 : (a * 400 + b * 100 + c * 4 + e) / 100 = 4 * a + b).
  { symmetry. apply (Z.div_unique _ _ _ (c * 4 + e)); lia. }
  assert (H400 : (a * 400 + b * 100 + c * 4 + e) / 400 = a).
  { symmetry. apply (Z.div_unique _ _ _ (b * 100 + c * 4 + e)); lia. }
  rewrite H4, H100, H400. lia.
Qed.

Lemma is_leap_cycles (a b c e : Z) :
  0 <= b <= 3 -> 0 <= c <= 24 -> 0 <= e <= 3 ->
  is_leap (a * 400 + 1 + b * 100 + c * 4 + e)
  = (e =? 3) && (negb (c =? 24) || (b =? 3)).
Proof.
  intros Hb Hc He. unfold is_leap.
  set (y := a * 400 + 1 + b * 100 + c * 4 + e).
  assert (H4 : y mod 4 = (e + 1) mod 4).
  { unfold y. replace (a * 400 + 1 + b * 100 + c * 4 + e)
      with (e + 1 + (a * 100 + b * 25 + c) * 4) by lia.
    apply Z.mod_add. lia. }
  assert (H100 : y mod 100 = (c * 4 + e + 1) mod 100).
  { unfold y. replace (a * 400 + 1 + b * 100 + c * 4 + e)
      with (c * 4 + e + 1 + (a * 4 + b) * 100) by lia.
    apply Z.mod_add. lia. }
  assert (H400 : y mod 400 = (b * 100 + c * 4 + e + 1) mod 400).
  { unfold y. replace (a * 400 + 1 + b * 100 + c * 4 + e)
      with (b * 100 + c * 4 + e + 1 + a * 400) by lia.
    apply Z.mod_add. lia. }
  rewrite H4, H100, H400.
  destruct (Z.eqb_spec e 3) as [-> | He3].
  - replace ((3 + 1) mod 4) with 0 by reflexivity. cbn [Z.eqb andb].
    destruct (Z.eqb_spec c 24) as [-> | Hc24].
    + replace ((24 * 4 + 3 + 1) mod 100) with 0 by reflexivity.
      cbn [Z.eqb negb orb].
      destruct (Z.eqb_spec b 3) as [-> | Hb3]; [reflexivity |].
      destruct (Z.eqb_spec ((b * 100 + 24 * 4 + 3 + 1) mod 400) 0) as [E | E];
        [| reflexivity].
      rewrite Z.mod_small in E by lia. lia.
    + cbn [negb orb].
      destruct (Z.eqb_spec ((c * 4 + 3 + 1) mod 100) 0) as [E | E];
        [| reflexivity].
      rewrite Z.mod_small in E by lia. lia.
  - destruct (Z.eqb_spec ((e + 1) mod 4) 0) as [E | E]; [| reflexivity].
    rewrite Z.mod_small in E by lia. lia.
Qed.

(** [_ord2ymd] and [_ymd2ord] are inverse to each other on the day
    numbers from 1 on, and [_ord2ymd] gives a month and a day that
    exist. *)
Lemma ord2ymd_toordinal (n : Z) :
  1 <= n ->
  toordinal (ord2ymd n) = n
  /\ 1 <= year (ord2ymd n)
  /\ 1 <= month (ord2ymd n) <= 12
  /\ 1 <= day (ord2ymd n)
          <= days_in_month (year (ord2ymd n)) (month (ord2ymd n)).
Proof.
  intros Hn. rewrite ord2ymd_unfold. unfold DI400Y, DI100Y, DI4Y. cbv zeta.
  set (a := (n - 1) / 146097). set (r400 := (n - 1) mod 146097).
  set (b := r400 / 36524). set (r100 := r400 mod 36524).
  set (c := r100 / 1461). set (r4 := r100 mod 1461).
  set (e := r4 / 365). set (r1 := r4 mod 365).
  assert (Ha : n - 1 = 146097 * a + r400 /\ 0 <= r400 < 146097).
  { split; [apply Z.div_mod; lia | apply Z.mod_pos_bound; lia]. }
  assert (Hb : r400 = 36524 * b + r100 /\ 0 <= r100 < 36524).
  { split; [apply Z.div_mod; lia | apply Z.mod_pos_bound; lia]. }
  assert (Hc : r100 = 1461 * c + r4 /\ 0 <= r4 < 1461).
  { split; [apply Z.div_mod; lia | apply Z.mod_pos_bound; lia]. }
  assert (He : r4 = 365 * e + r1 /\ 0 <= r1 < 365).
  { split; [apply Z.div_mod; lia | apply Z.mod_pos_bound; lia]. }
  assert (Ha0 : 0 <= a) by (apply Z.div_pos; lia).
  assert (Hb0 : 0 <= b <= 4) by lia.
  assert (Hc0 : 0 <= c <= 24) by lia.
  assert (He0 : 0 <= e <= 4) by lia.
  clearbody a r400 b r100 c r4 e r1.
  destruct (Z.eqb_spec e 4) as [He4 | He4];
    [| destruct (Z.eqb_spec b 4) as [Hb4 | Hb4]]; cbn [orb].
  - (* 31 December of a leap year that ends a four-year cycle *)
    assert (Hyear : a * 400 + 1 + b * 100 + c * 4 + e - 1
                    = a * 400 + 1 + b * 100 + c * 4 + 3) by lia.
    rewrite Hyear. unfold toordinal, ymd2ord, days_before_month, days_in_month.
    cbn [year month day].
    rewrite is_leap_cycles, days_before_year_cycles by lia.
    replace (c =? 24) with false by (symmetry; apply Z.eqb_neq; lia).
    table_eval. change (3 =? 3) with true. cbn [negb orb andb]. lia.
  - (* 31 December of a year that ends a 400-year cycle *)
    assert (Hyear : a * 400 + 1 + b * 100 + c * 4 + e - 1
                    = a * 400 + 1 + 3 * 100 + 24 * 4 + 3) by lia.
    rewrite Hyear. unfold toordinal, ymd2ord, days_before_month, days_in_month.
    cbn [year month day].
    rewrite is_leap_cycles, days_before_year_cycles by lia.
    table_eval. change (3 =? 3) with true. change (24 =? 24) with true.
    cbn [negb orb andb]. lia.
  - pose proof (month_day_spec ((e =? 3) && (negb (c =? 24) || (b =? 3))) r1
                  ltac:(lia)) as Hmd.
    unfold month_day_ok in Hmd.
    destruct (month_day ((e =? 3) && (negb (c =? 24) || (b =? 3))) r1)
      as [m d].
    unfold toordinal, ymd2ord, days_before_month, days_in_month.
    cbn [year month day].
    rewrite is_leap_cycles, days_before_year_cycles by lia.
    rewrite !andb_true_iff, !Z.leb_le, Z.eqb_eq in Hmd.
    lia.
Qed.

Lemma ord2ymd_is_date (n : Z) :
  1 <= n <= MAXORDINAL -> is_date (ord2ymd n) = true.
Proof.
  intros Hn. destruct (ord2ymd_toordinal n ltac:(lia)) as (Hord & Hy & Hm & Hd).
  revert Hord Hy Hm Hd. generalize (ord2ymd n). intros d Hord Hy Hm Hd.
  unfold is_date, valid_date, MINYEAR, MAXYEAR.
  rewrite !andb_true_iff, !Z.leb_le.
  assert (Hmax : year d <= 9999).
  { destruct (Z.le_gt_cases (year d) 9999) as [? | Hbig]; [assumption |].
    exfalso. unfold toordinal, ymd2ord in Hord.
    pose proof (days_before_year_mono 10000 (year d) ltac:(lia)) as Hmono.
    pose proof (day_of_year_bounds _ _ _ Hm Hd) as Hdoy.
    assert (Hlast : days_before_year 10000 = 3652059) by reflexivity.
    unfold MAXORDINAL in Hn. lia. }
  lia.
Qed.

(** ** ISO weeks *)

Lemma add_days_toordinal (d nd : date) (k : Z) :
  add_days d k = Some nd ->
  toordinal nd = toordinal d + k /\ is_date nd = true.
Proof.
  unfold add_days.
  destruct (Z.ltb_spec 0 (toordinal d + k)) as [Hlo | ?]; [| discriminate].
  destruct (Z.leb_spec (toordinal d + k) MAXORDINAL) as [Hhi | ?];
    [| discriminate].
  cbn [andb]. intros [= <-]. split.
  - apply ord2ymd_toordinal. lia.
  - apply ord2ymd_is_date. lia.
Qed.

Lemma first_of_january (y : Z) : ymd2ord y 1 1 = days_before_year y + 1.
Proof.
  unfold ymd2ord, days_before_month. table_eval.
  change (nth (Z.to_nat 1) DAYS_BEFORE_MONTH 0) with 0. lia.
Qed.

(** The Monday of ISO week 1 is within three days of 1 January. *)
Lemma isoweek1monday_near (y : Z) :
  days_before_year y - 2 <= isoweek1monday y <= days_before_year y + 4.
Proof.
  unfold isoweek1monday. rewrite first_of_january. cbv zeta.
  pose proof (Z.mod_pos_bound (days_before_year y + 1 + 6) 7 ltac:(lia)).
  destruct (Z.ltb_spec 3 ((days_before_year y + 1 + 6) mod 7)); lia.
Qed.

(** The ISO year and week of a date name the week that holds it: the
    date lies in the seven days from the Monday of that week. *)
Lemma isocalendar_week (d : date) :
  is_date d = true ->
  0 <= toordinal d
       - (isoweek1monday (fst (isocalendar d)) + 7 * (snd (isocalendar d) - 1))
    < 7.
Proof.
  intros Hd. unfold is_date in Hd. apply valid_date_bounds in Hd.
  destruct Hd as (_ & Hm & Hday).
  pose proof (day_of_year_bounds _ _ _ Hm Hday) as Hdoy.
  pose proof (days_before_year_succ (year d)) as Hsucc.
  pose proof (isoweek1monday_near (year d + 1)) as Hnext.
  unfold isocalendar. cbv zeta.
  assert (Htoday : toordinal d
                   = days_before_year (year d)
                     + (days_before_month (year d) (month d) + day d)).
  { unfold toordinal, ymd2ord. lia. }
  set (today := toordinal d) in *. clearbody today.
  set (doy := days_before_month (year d) (month d) + day d) in *.
  clearbody doy.
  destruct (Z.ltb_spec ((today - isoweek1monday (year d)) / 7) 0) as [Hneg | Hpos].
  - cbn [fst snd].
    pose proof (Z.div_mod (today - isoweek1monday (year d - 1)) 7 ltac:(lia)).
    pose proof (Z.mod_pos_bound (today - isoweek1monday (year d - 1)) 7
                                ltac:(lia)).
    lia.
  - pose proof (Z.div_mod (today - isoweek1monday (year d)) 7 ltac:(lia)).
    pose proof (Z.mod_pos_bound (today - isoweek1monday (year d)) 7 ltac:(lia)).
    destruct (Z.leb_spec 52 ((today - isoweek1monday (year d)) / 7)).
    + destruct (Z.leb_spec (isoweek1monday (year d + 1)) today).
      * cbn [fst snd]. destruct (is_leap (year d)); lia.
      * cbn [fst snd]. lia.
    + cbn [fst snd]. lia.
Qed.

(** Two dates of one ISO week are less than seven days apart. *)
Lemma isocalendar_same_week (a b : date) :
  is_date a = true -> is_date b = true ->
  isocalendar a = isocalendar b ->
  -7 < toordinal a - toordinal b < 7.
Proof.
  intros Ha Hb Heq.
  pose proof (isocalendar_week a Ha) as Hwa.
  pose proof (isocalendar_week b Hb) as Hwb.
  rewrite Heq in Hwa. lia.
Qed.

(** ** No window twice *)

Lemma of_Z_inj (a b : Z) : PyStr.of_Z a = PyStr.of_Z b -> a = b.
Proof.
  unfold PyStr.of_Z. intros H.
  assert (Hnil : forall z, Z.to_int z <> Decimal.Pos Decimal.Nil
                           /\ Z.to_int z <> Decimal.Neg Decimal.Nil).
  { intros [| p | p]; cbn; split; try discriminate;
      intros [= E]; now apply (Unsigned.to_uint_nonnil p). }
  apply (f_equal NilZero.int_of_string) in H.
  rewrite !NilZero.isi in H by apply Hnil.
  injection H as H. now apply to_int_inj.
Qed.

Lemma window_url_inj (tk : string) (d0 : date) (i j : Z) (u : string) :
  window_url tk d0 i = Some u -> window_url tk d0 j = Some u -> i = j.
Proof.
  unfold window_url.
  destruct (add_days d0 (7 * i)) as [a |] eqn:Ea; [| discriminate].
  destruct (add_days d0 (7 * j)) as [b |] eqn:Eb; [| discriminate].
  apply add_days_toordinal in Ea, Eb.
  destruct Ea as [Ea Hva], Eb as [Eb Hvb].
  pose proof (isocalendar_same_week a b Hva Hvb) as Hweek.
  destruct (isocalendar a) as [ya wa], (isocalendar b) as [yb wb].
  intros Hi Hj.
  assert (Hu : (base_url ++ "/" ++ tk ++ "/" ++ PyStr.of_Z ya ++ "/"
                         ++ PyStr.of_Z wa ++ url_suffix)%string
               = (base_url ++ "/" ++ tk ++ "/" ++ PyStr.of_Z yb ++ "/"
                           ++ PyStr.of_Z wb ++ url_suffix)%string)
    by congruence.
  clear Hi Hj.
  apply (f_equal (PyStr.split "/")) in Hu.
  rewrite !window_url_split in Hu
    by (apply of_Z_chars; (reflexivity || discriminate)).
  apply app_inv_head in Hu. apply app_inv_head in Hu.
  injection Hu as Hy Hw.
  apply of_Z_inj in Hy.
  apply (f_equal (fun s => hd EmptyString (PyStr.split "." s))) in Hw.
  change url_suffix with (String "." "csv.gz") in Hw.
  rewrite !split_sep in Hw.
  rewrite !(split_without_sep "." (PyStr.of_Z _)) in Hw
    by (apply of_Z_chars; (reflexivity || discriminate)).
  cbn [app hd] in Hw. apply of_Z_inj in Hw.
  assert (-7 < toordinal a - toordinal b < 7) by (apply Hweek; congruence).
  lia.
Qed.

Lemma range_NoDup (n : Z) : NoDup (range n).
Proof.
  unfold range. generalize (seq_NoDup (Z.to_nat n) 0).
  induction (seq 0 (Z.to_nat n)) as [| k l IH]; intros Hl; [constructor |].
  inversion Hl as [| ? ? Hnotin Hl']; subst. cbn [map].
  constructor; [| now apply IH].
  intros Hin. apply in_map_iff in Hin. destruct Hin as (k' & Hk & Hin).
  apply Nat2Z.inj in Hk. now subst k'.
Qed.

Lemma NoDup_prefix_of_map {A B} (f : A -> option B) (js : list A)
      (l : list B) (rest : list (option B)) :
  (forall i j u, f i = Some u -> f j = Some u -> i = j) ->
  NoDup js -> map Some l ++ rest = map f js -> NoDup l.
Proof.
  intros Hinj. revert js. induction l as [| x l IH]; intros js Hjs Hmap;
    [constructor |].
  destruct js as [| j js]; [discriminate |].
  cbn [map app] in Hmap. injection Hmap as Hj Hmap.
  inversion Hjs as [| ? ? Hnotin Hjs']; subst.
  constructor; [| now apply (IH js)].
  intros Hx.
  assert (Hin : In (Some x) (map f js)).
  { rewrite <- Hmap. apply in_or_app. left. now apply in_map. }
  apply in_map_iff in Hin. destruct Hin as (j' & Hj' & Hin).
  assert (j' = j) by (apply (Hinj j' j x); congruence).
  subst j'. contradiction.
Qed.

(** X19: one call asks for no week twice: the URLs a sequential call
    requests are pairwise distinct, and so are the URLs a parallel call
    submits. Windows seven days apart lie in different ISO weeks, and
    the URL names the ISO year and week. *)
Theorem no_window_is_taken_twice
        (remote : string -> get_outcome) (tk : string) (d0 d1 : date)
        (num_processes : Z) :
  NoDup (fetched (snd (download_tick_data remote tk d0 (Some d1) false
                                          num_processes)))
  /\ NoDup (submitted (snd (download_tick_data remote tk d0 (Some d1) true
                                               num_processes))).
Proof.
  split.
  - destruct (sequential_call_takes_a_prefix remote tk d0 d1 num_processes)
      as [rest Hp].
    apply (NoDup_prefix_of_map (window_url tk d0)
             (range (weeks_between_dates d0 d1)) _ rest).
    + apply window_url_inj.
    + apply range_NoDup.
    + exact Hp.
  - destruct (parallel_call_takes_a_prefix remote tk d0 d1 num_processes)
      as [rest Hp].
    apply (NoDup_prefix_of_map (window_url tk d0)
             (range (weeks_between_dates d0 d1)) _ rest).
    + apply window_url_inj.
    + apply range_NoDup.
    + exact Hp.
Qed.

(** ** The ISO week of a date is the week of its Monday *)

Lemma isoweek1monday_is_monday (y : Z) : (isoweek1monday y + 6) mod 7 = 0.
Proof.
  unfold isoweek1monday. cbv zeta.
  generalize (ymd2ord y 1 1). intros f.
  destruct (Z.ltb_spec 3 ((f + 6) mod 7)); Z.div_mod_to_equations; lia.
Qed.

Lemma isoweek1monday_next (y : Z) :
  isoweek1monday y + 364 <= isoweek1monday (y + 1).
Proof.
  pose proof (isoweek1monday_near y). pose proof (isoweek1monday_near (y + 1)).
  pose proof (isoweek1monday_is_monday y).
  pose proof (isoweek1monday_is_monday (y + 1)).
  pose proof (days_before_year_succ y).
  destruct (is_leap y); Z.div_mod_to_equations; lia.
Qed.

Lemma isoweek1monday_mono (y y' : Z) :
  y <= y' -> isoweek1monday y <= isoweek1monday y'.
Proof.
  intros Hle.
  destruct (Z.eq_dec y y') as [-> | Hne]; [lia |].
  pose proof (isoweek1monday_next y).
  pose proof (isoweek1monday_near (y + 1)).
  pose proof (isoweek1monday_near y').
  pose proof (days_before_year_mono (y + 1) y' ltac:(lia)).
  pose proof (isoweek1monday_is_monday (y + 1)).
  pose proof (isoweek1monday_is_monday y').
  Z.div_mod_to_equations. lia.
Qed.

(** The ISO year of a date is the year whose week 1 starts on or before
    the Monday of the date and whose successor's starts after it. *)
Lemma isocalendar_year (d : date) :
  is_date d = true ->
  isoweek1monday (fst (isocalendar d)) <= toordinal d - weekday d
  /\ toordinal d - weekday d < isoweek1monday (fst (isocalendar d) + 1)
  /\ toordinal d - weekday d
     = isoweek1monday (fst (isocalendar d)) + 7 * (snd (isocalendar d) - 1).
Proof.
  intros Hd. pose proof (isocalendar_week d Hd) as Hweek.
  unfold is_date in Hd. apply valid_date_bounds in Hd.
  destruct Hd as (_ & Hm & Hday).
  pose proof (day_of_year_bounds _ _ _ Hm Hday) as Hdoy.
  assert (Htoday : toordinal d
                   = days_before_year (year d)
                     + (days_before_month (year d) (month d) + day d)).
  { unfold toordinal, ymd2ord. lia. }
  unfold weekday.
  revert Hweek. unfold isocalendar. cbv zeta.
  set (today := toordinal d) in *. clearbody today.
  set (doy := days_before_month (year d) (month d) + day d) in *.
  clearbody doy.
  pose proof (isoweek1monday_is_monday (year d)) as Hmon.
  pose proof (isoweek1monday_is_monday (year d - 1)) as Hmon'.
  pose proof (isoweek1monday_is_monday (year d + 1)) as Hmon''.
  pose proof (isoweek1monday_next (year d)) as Hnext.
  pose proof (isoweek1monday_next (year d - 1)) as Hnext'.
  pose proof (isoweek1monday_next (year d + 1)) as Hnext''.
  replace (year d - 1 + 1) with (year d) in * by lia.
  pose proof (isoweek1monday_near (year d)) as Hnear.
  pose proof (isoweek1monday_near (year d - 1)) as Hnear'.
  pose proof (days_before_year_succ (year d - 1)) as Hsucc'.
  replace (year d - 1 + 1) with (year d) in * by lia.
  destruct (Z.ltb_spec ((today - isoweek1monday (year d)) / 7) 0) as [Hneg | Hpos].
  - cbn [fst snd]. replace (year d - 1 + 1) with (year d) by lia.
    intros Hweek. destruct (is_leap (year d - 1));
      Z.div_mod_to_equations; lia.
  - destruct (Z.leb_spec 52 ((today - isoweek1monday (year d)) / 7)).
    + destruct (Z.leb_spec (isoweek1monday (year d + 1)) today).
      * cbn [fst snd]. intros Hweek. Z.div_mod_to_equations. lia.
      * cbn [fst snd]. intros Hweek. Z.div_mod_to_equations. lia.
    + cbn [fst snd]. intros Hweek. Z.div_mod_to_equations. lia.
Qed.

(** Two dates are of one ISO week exactly when they have the same
    Monday. *)
Lemma isocalendar_same_monday (a b : date) :
  is_date a = true -> is_date b = true ->
  (isocalendar a = isocalendar b
   <-> toordinal a - weekday a = toordinal b - weekday b).
Proof.
  intros Ha Hb.
  destruct (isocalendar_year a Ha) as (Hlo & Hhi & Hw).
  destruct (isocalendar_year b Hb) as (Hlo' & Hhi' & Hw').
  split.
  - intros Heq. rewrite Heq in Hw. lia.
  - intros Hmon.
    assert (Hy : fst (isocalendar a) = fst (isocalendar b)).
    { destruct (Z.lt_trichotomy (fst (isocalendar a)) (fst (isocalendar b)))
        as [Hlt | [? | Hgt]]; [| assumption |].
      - pose proof (isoweek1monday_mono (fst (isocalendar a) + 1)
                                        (fst (isocalendar b)) ltac:(lia)). lia.
      - pose proof (isoweek1monday_mono (fst (isocalendar b) + 1)
                                        (fst (isocalendar a)) ltac:(lia)). lia. }
    destruct (isocalendar a) as [ya wa], (isocalendar b) as [yb wb].
    cbn [fst snd] in *. subst yb. f_equal. lia.
Qed.

Lemma toordinal_bounds (d : date) :
  is_date d = true -> 1 <= toordinal d <= MAXORDINAL.
Proof.
  intros Hd. unfold is_date in Hd. apply valid_date_bounds in Hd.
  destruct Hd as (Hy & Hm & Hday).
  pose proof (day_of_year_bounds _ _ _ Hm Hday) as Hdoy.
  pose proof (days_before_year_succ (year d)) as Hsucc.
  pose proof (days_before_year_mono 1 (year d) ltac:(lia)) as Hlo.
  pose proof (days_before_year_mono (year d + 1) 10000 ltac:(lia)) as Hhi.
  assert (H1 : days_before_year 1 = 0) by reflexivity.
  assert (H2 : days_before_year 10000 = 3652059) by reflexivity.
  unfold toordinal, ymd2ord, MAXORDINAL.
  destruct (is_leap (year d)); lia.
Qed.

(** X20: the weeks a call asks for hold every day of its range exactly
    when the start date is early enough in its week: its weekday, plus
    the days of the range, must not pass the seven days of each window.
    A range that starts on a Monday is always covered; a range of whole
    weeks that starts on any other day leaves out the week of its last
    days. *)
Theorem range_is_covered_iff_the_start_weekday_fits (d0 d1 : date) :
  is_date d0 = true -> is_date d1 = true ->
  toordinal d0 < toordinal d1 ->
  ((forall day,
       is_date day = true -> toordinal d0 <= toordinal day < toordinal d1 ->
       exists i nd,
         In i (range (weeks_between_dates d0 d1))
         /\ add_days d0 (7 * i) = Some nd
         /\ isocalendar nd = isocalendar day)
   <-> weekday d0 + days_between d0 d1 <= 7 * weeks_between_dates d0 d1).
Proof.
  intros Hd0 Hd1 Hlt.
  pose proof (weeks_between_dates_bounds d0 d1) as Hb.
  pose proof (toordinal_bounds d0 Hd0) as Hb0.
  pose proof (toordinal_bounds d1 Hd1) as Hb1.
  unfold days_between in *.
  assert (Hwindow : forall i,
             0 <= i < weeks_between_dates d0 d1 ->
             exists nd, add_days d0 (7 * i) = Some nd
                        /\ is_date nd = true
                        /\ toordinal nd - weekday nd
                           = toordinal d0 - weekday d0 + 7 * i).
  { intros i Hi. unfold add_days.
    destruct (Z.ltb_spec 0 (toordinal d0 + 7 * i)) as [_ | ?]; [| lia].
    destruct (Z.leb_spec (toordinal d0 + 7 * i) MAXORDINAL) as [_ | ?]; [| lia].
    cbn [andb]. eexists. split; [reflexivity |].
    destruct (ord2ymd_toordinal (toordinal d0 + 7 * i) ltac:(lia)) as [Ho _].
    split; [apply ord2ymd_is_date; lia |].
    unfold weekday. rewrite Ho.
    replace (toordinal d0 + 7 * i + 6) with (toordinal d0 + 6 + i * 7) by lia.
    rewrite Z.mod_add by lia. lia. }
  assert (Hk : 0 <= weekday d0 < 7) by (apply Z.mod_pos_bound; lia).
  split.
  - intros Hcov.
    set (o := toordinal d1 - 1).
    destruct (ord2ymd_toordinal o ltac:(unfold o; lia)) as [Ho _].
    pose proof (ord2ymd_is_date o ltac:(unfold o; lia)) as Hv.
    destruct (Hcov (ord2ymd o) Hv ltac:(rewrite Ho; unfold o; lia))
      as (i & nd & Hi & Hnd & Hiso).
    apply In_range in Hi.
    destruct (Hwindow i Hi) as (nd' & Hnd' & Hvnd & Hmon).
    assert (nd' = nd) by congruence. subst nd'.
    apply (isocalendar_same_monday nd (ord2ymd o) Hvnd Hv) in Hiso.
    assert (Hwd : 0 <= weekday (ord2ymd o) < 7) by (apply Z.mod_pos_bound; lia).
    rewrite Ho in Hiso. unfold o in *. lia.
  - intros Hfit day Hv Hday.
    assert (Hwd : 0 <= weekday day < 7) by (apply Z.mod_pos_bound; lia).
    assert (Hm0 : (toordinal d0 - weekday d0 + 6) mod 7 = 0).
    { unfold weekday. Z.div_mod_to_equations. lia. }
    assert (Hm : (toordinal day - weekday day + 6) mod 7 = 0).
    { unfold weekday. Z.div_mod_to_equations. lia. }
    set (m0 := toordinal d0 - weekday d0) in *.
    set (m := toordinal day - weekday day) in *.
    assert (Hi : exists i, m = m0 + 7 * i /\ 0 <= i < weeks_between_dates d0 d1).
    { exists ((m - m0) / 7). unfold m, m0 in *.
      Z.div_mod_to_equations. lia. }
    destruct Hi as (i & Hmi & Hi).
    destruct (Hwindow i Hi) as (nd & Hnd & Hvnd & Hmon).
    exists i, nd. split; [now apply In_range |]. split; [exact Hnd |].
    apply (isocalendar_same_monday nd day Hvnd Hv). fold m m0 in Hmon |- *. lia.
Qed.

Lemma range_is_covered_iff_the_start_weekday_fits_witness :
  (forall day,
      is_date day = true ->
      toordinal (mkdate 2023 5 1) <= toordinal day < toordinal (mkdate 2023 5 14) ->
      exists i nd,
        In i (range (weeks_between_dates (mkdate 2023 5 1) (mkdate 2023 5 14)))
        /\ add_days (mkdate 2023 5 1) (7 * i) = Some nd
        /\ isocalendar nd = isocalendar day)
  <-> weekday (mkdate 2023 5 1)
      + days_between (mkdate 2023 5 1) (mkdate 2023 5 14)
      <= 7 * weeks_between_dates (mkdate 2023 5 1) (mkdate 2023 5 14).
Proof.
  apply (range_is_covered_iff_the_start_weekday_fits
           (mkdate 2023 5 1) (mkdate 2023 5 14)); reflexivity.
Defined.

(* ===================================================================== *)
(** ** The windows of a range of valid dates *)
(* ===================================================================== *)

Lemma map_all_some {A B} (f : A -> option B) (js : list A) :
  (forall j, In j js -> f j <> None) ->
  exists l, map f js = map Some l.
Proof.
  induction js as [| j js IH]; intros Hall; [now exists [] |].
  destruct IH as [l Hl]; [intros k Hk; apply Hall; now right |].
  destruct (f j) as [b |] eqn:Ej; [| now destruct (Hall j (or_introl eq_refl))].
  exists (b :: l). cbn [map]. now rewrite Ej, Hl.
Qed.

(** The date of a window of the range: seven days times its index after
    [d0], a date that exists and lies before [d1]. *)
Lemma window_date (d0 d1 : date) (i : Z) :
  is_date d0 = true -> is_date d1 = true ->
  In i (range (weeks_between_dates d0 d1)) ->
  exists nd,
    add_days d0 (7 * i) = Some nd
    /\ is_date nd = true
    /\ days_between d0 nd = 7 * i
    /\ 0 < days_between nd d1.
Proof.
  intros Hd0 Hd1 Hi. apply In_range in Hi.
  pose proof (weeks_between_dates_bounds d0 d1) as Hb.
  pose proof (toordinal_bounds d0 Hd0) as Hb0.
  pose proof (toordinal_bounds d1 Hd1) as Hb1.
  unfold days_between in *.
  destruct (add_days d0 (7 * i)) as [nd |] eqn:End.
  - destruct (add_days_toordinal d0 nd (7 * i) End) as [Ho Hv].
    exists nd. repeat split; try assumption; lia.
  - exfalso. unfold add_days in End.
    destruct (Z.ltb_spec 0 (toordinal d0 + 7 * i)); [| lia].
    destruct (Z.leb_spec (toordinal d0 + 7 * i) MAXORDINAL); [| lia].
    discriminate.
Qed.

(** X1: for valid dates the week loop builds one window for every index
    of the range, none overflows, and a parallel call submits them all,
    in the order of the range. The windows' dates start at [d0] and follow each
    other every seven days, each a date before [d1]; and every day from
    [d0] up to the day before [d1] lies in the seven days that start
    with the date of some window. *)
Theorem window_starts_cover_the_range
        (remote : string -> get_outcome) (tk : string) (d0 d1 : date)
        (num_processes : Z) :
  is_date d0 = true -> is_date d1 = true -> 1 <= num_processes ->
  (exists urls,
      windows tk d0 d1 = map Some urls
      /\ submitted (snd (download_tick_data remote tk d0 (Some d1) true
                                            num_processes)) = urls)
  /\ (forall i, In i (range (weeks_between_dates d0 d1)) ->
                exists nd,
                  add_days d0 (7 * i) = Some nd
                  /\ is_date nd = true
                  /\ days_between d0 nd = 7 * i
                  /\ 0 < days_between nd d1)
  /\ (forall day,
         is_date day = true ->
         toordinal d0 <= toordinal day < toordinal d1 ->
         exists i nd,
           In i (range (weeks_between_dates d0 d1))
           /\ add_days d0 (7 * i) = Some nd
           /\ 0 <= days_between nd day < 7).
Proof.
  intros Hd0 Hd1 Hn. split; [| split].
  - destruct (map_all_some (window_url tk d0)
                           (range (weeks_between_dates d0 d1))) as [urls Hurls].
    { intros i Hi. destruct (window_date d0 d1 i Hd0 Hd1 Hi) as (nd & End & _).
      unfold window_url. rewrite End. now destruct (isocalendar nd). }
    exists urls. split; [exact Hurls |].
    assert (Hrun : snd (download_tick_data remote tk d0 (Some d1) true
                                           num_processes)
                   = PoolCreate num_processes
                     :: flat_map (fun v => [ApplyAsync v; Sleep]) urls
                     ++ PoolClose
                     :: flat_map (fun v =>
                                    snd (download_and_process_gz
                                           remote v default_batch_size)) urls
                     ++ [PoolJoin;
                         Log INFO (FinishedProcess tk (List.length urls))]).
    { unfold download_tick_data. cbv beta iota. rewrite !bind_ret_l.
      destruct (Z.ltb_spec num_processes 1) as [? | _]; [lia |].
      wsimpl.
      rewrite (for_weeks_parallel remote tk d0 _ urls [] Hurls).
      cbn [app]. unfold pool_join. wsimpl.
      rewrite run_tasks_trace. wsimpl.
      rewrite <- !app_assoc. reflexivity. }
    rewrite Hrun.
    destruct (submitted_dispatch urls) as [Hs _].
    cbn [submitted].
    rewrite !submitted_app, Hs. cbn [submitted].
    rewrite !submitted_app, submitted_parallel_runs. cbn.
    now rewrite !app_nil_r.
  - intros i Hi. now apply window_date.
  - intros day Hday Hin.
    pose proof (weeks_between_dates_bounds d0 d1) as Hb.
    unfold days_between in Hb.
    set (i := (toordinal day - toordinal d0) / 7).
    pose proof (Z.div_mod (toordinal day - toordinal d0) 7 ltac:(lia)) as Hdm.
    pose proof (Z.mod_pos_bound (toordinal day - toordinal d0) 7 ltac:(lia))
      as Hmod.
    assert (Hi0 : 0 <= i) by (apply Z.div_pos; lia).
    fold i in Hdm.
    assert (Hi : In i (range (weeks_between_dates d0 d1)))
      by (apply In_range; lia).
    destruct (window_date d0 d1 i Hd0 Hd1 Hi) as (nd & End & _ & Hnd & _).
    exists i, nd. split; [exact Hi |]. split; [exact End |].
    unfold days_between in *. lia.
Qed.

Lemma window_starts_cover_the_range_witness :
  (exists urls,
      windows "EURUSD" (mkdate 2023 5 3) (mkdate 2023 5 14) = map Some urls
      /\ submitted (snd (download_tick_data (serving 404 []) "EURUSD"
                                            (mkdate 2023 5 3)
                                            (Some (mkdate 2023 5 14))
                                            true 4)) = urls)
  /\ (forall i, In i (range (weeks_between_dates (mkdate 2023 5 3)
                                                 (mkdate 2023 5 14))) ->
                exists nd,
                  add_days (mkdate 2023 5 3) (7 * i) = Some nd
                  /\ is_date nd = true
                  /\ days_between (mkdate 2023 5 3) nd = 7 * i
                  /\ 0 < days_between nd (mkdate 2023 5 14))
  /\ (forall day,
         is_date day = true ->
         toordinal (mkdate 2023 5 3) <= toordinal day
         < toordinal (mkdate 2023 5 14) ->
         exists i nd,
           In i (range (weeks_between_dates (mkdate 2023 5 3)
                                            (mkdate 2023 5 14)))
           /\ add_days (mkdate 2023 5 3) (7 * i) = Some nd
           /\ 0 <= days_between nd day < 7).
Proof.
  apply (window_starts_cover_the_range
           (serving 404 []) "EURUSD" (mkdate 2023 5 3) (mkdate 2023 5 14) 4);
    (reflexivity || lia).
Defined.

(* ===================================================================== *)
(** ** A window that raises *)
(* ===================================================================== *)

(** The sequential loop up to and including the first window that
    raises. *)
Lemma for_weeks_first_raise remote tk d0 (js : list Z) (pre : list string)
      (u : string) (post : list (option string)) (e : exn) :
  map (window_url tk d0) js = map Some pre ++ Some u :: post ->
  Forall (fun v => exists l,
              fst (download_and_process_gz remote v default_batch_size)
              = Ret (true, l)) pre ->
  fst (download_and_process_gz remote u default_batch_size) = Raise e ->
  for_weeks remote tk d0 false None js
  = (Raise e,
     flat_map (fun v => snd (download_and_process_gz remote v default_batch_size)
                        ++ [Sleep]) pre
     ++ snd (download_and_process_gz remote u default_batch_size)).
Proof.
  revert js. induction pre as [| v pre IH]; intros js Hjs Hpre Hu.
  - destruct js as [| i js]; [discriminate |].
    cbn [map app] in Hjs. injection Hjs as Hi _.
    cbn [for_weeks flat_map app]. unfold week_step. rewrite Hi.
    destruct (download_and_process_gz remote u default_batch_size)
      as [[[ok l] | e'] t]; cbn [fst snd] in *; [discriminate |].
    injection Hu as ->. rewrite !bind_Raise. reflexivity.
  - destruct js as [| i js]; [discriminate |].
    cbn [map app] in Hjs. injection Hjs as Hi Hjs.
    inversion Hpre as [| ? ? [l Hv] Hpre']; subst.
    cbn [for_weeks flat_map]. unfold week_step. rewrite Hi.
    destruct (download_and_process_gz remote v default_batch_size)
      as [[[ok l'] | e'] t]; cbn [fst snd] in *; [| discriminate].
    injection Hv as -> ->. wsimpl.
    rewrite (IH js Hjs Hpre' Hu). cbn [fst snd].
    now rewrite <- !app_assoc.
Qed.

(** X3: in sequential mode a window that raises ends the instrument and
    not the run: [download_tick_data] logs the error, returns
    [(False, ticket)] and requests no later window. This is what
    becomes of the [UnboundLocalError], [StopIteration],
    [ZeroDivisionError] and [IndexError] that
    [download_and_process_gz] lets out. *)
Theorem window_exception_ends_the_call
        (remote : string -> get_outcome) (tk : string) (d0 d1 : date)
        (num_processes : Z) (pre : list string) (u : string)
        (post : list (option string)) (e : exn) :
  windows tk d0 d1 = map Some pre ++ Some u :: post ->
  Forall (fun v => exists l,
              fst (download_and_process_gz remote v default_batch_size)
              = Ret (true, l)) pre ->
  fst (download_and_process_gz remote u default_batch_size) = Raise e ->
  download_tick_data remote tk d0 (Some d1) false num_processes
  = (Ret (false, tk),
     flat_map (fun v => snd (download_and_process_gz remote v default_batch_size)
                        ++ [Sleep]) pre
     ++ snd (download_and_process_gz remote u default_batch_size)
     ++ [Log ERROR match e with
                   | RequestException => ErrorDownloadingTickData tk
                   | _ => UnexpectedError tk e
                   end])
  /\ fetched (snd (download_tick_data remote tk d0 (Some d1) false
                                      num_processes))
     = pre ++ [u].
Proof.
  intros Hjs Hpre Hu. unfold windows in Hjs.
  assert (Hrun : download_tick_data remote tk d0 (Some d1) false num_processes
                 = (Ret (false, tk),
                    flat_map (fun v =>
                                snd (download_and_process_gz remote v
                                                             default_batch_size)
                                ++ [Sleep]) pre
                    ++ snd (download_and_process_gz remote u default_batch_size)
                    ++ [Log ERROR match e with
                                  | RequestException =>
                                      ErrorDownloadingTickData tk
                                  | _ => UnexpectedError tk e
                                  end])).
  { unfold download_tick_data. cbv beta iota. rewrite !bind_ret_l.
    rewrite (for_weeks_first_raise remote tk d0 _ pre u post e Hjs Hpre Hu).
    rewrite bind_Raise. unfold try_except.
    destruct e; wsimpl; now rewrite <- !app_assoc. }
  split; [exact Hrun |].
  rewrite Hrun. cbn [snd].
  assert (Hparts : Forall (fun v => (3 <= List.length (PyStr.split "/" v))%nat)
                          (pre ++ [u])).
  { change (map Some pre ++ Some u :: post)
      with (map Some pre ++ map Some [u] ++ post) in Hjs.
    rewrite app_assoc, <- map_app in Hjs.
    apply mapped_prefix in Hjs.
    eapply Forall_impl; [| exact Hjs].
    intros v [i Hi]. exact (window_url_parts _ _ _ _ Hi). }
  apply Forall_app in Hparts. destruct Hparts as [Hp Hu'].
  inversion Hu' as [| ? ? Hu3 _]; subst.
  rewrite !fetched_app, (fetched_sequential_runs _ _ _ Hp).
  rewrite (download_and_process_gz_fetched remote u _ Hu3). reflexivity.
Qed.

Lemma window_exception_ends_the_call_witness :
  download_tick_data (serving 200 file_with_unreadable_first_row) "EURUSD"
                     (mkdate 2023 1 2) (Some (mkdate 2023 1 16)) false 4
  = (Ret (false, "EURUSD"),
     flat_map (fun v =>
                 snd (download_and_process_gz
                        (serving 200 file_with_unreadable_first_row) v
                        default_batch_size)
                 ++ [Sleep]) []
     ++ snd (download_and_process_gz
               (serving 200 file_with_unreadable_first_row) sample_url
               default_batch_size)
     ++ [Log ERROR (UnexpectedError "EURUSD" UnboundLocalError)])
  /\ fetched (snd (download_tick_data
                     (serving 200 file_with_unreadable_first_row) "EURUSD"
                     (mkdate 2023 1 2) (Some (mkdate 2023 1 16)) false 4))
     = [] ++ [sample_url].
Proof.
  apply (window_exception_ends_the_call
           (serving 200 file_with_unreadable_first_row) "EURUSD"
           (mkdate 2023 1 2) (mkdate 2023 1 16) 4 [] sample_url
           [Some "https://tickdata.fxcorporate.com/EURUSD/2023/2.csv.gz"]
           UnboundLocalError).
  - vm_compute. reflexivity.
  - constructor.
  - vm_compute. reflexivity.
Defined.
